(** * ReflexED lesson-generation pipeline: a shallow embedding

    The development follows [app/services/assignment_service.py] and
    [app/models/models.py].  Python values are modelled as follows:

    - a [str] is a list of Unicode code points ([list N]), so [len], slicing
      and [str.strip] count characters the way Python does;
    - a [dict] with string keys is a [gmap (list N) _]; [{**a, **b}] is the
      left-biased union [b ∪ a];
    - JSON-like values (what [json.loads] returns, and what the fall-back
      skeletons contain) are the inductive type [json];
    - exceptions are values of type [exn]; code that can raise returns in
      the state-and-error monad [M] over the record [world], which holds
      the database session, the file system and the logs of calls made to
      the external collaborators;
    - the collaborators themselves (generation backend, decoder, speech
      backend, renderer, muxer, text extraction, uuid source) are the fields
      of the class [Env]: every result below holds for all of them.

    Log lines and the time stamps of the rows are left out; a log line is
    kept only where computing it can raise. *)

From stdpp Require Import gmap list strings.
From Stdlib Require Import ZArith NArith Lia.

#[local] Set Warnings "-register-all".
#[local] Open Scope N_scope.

(* ================================================================== *)
(** * Part I: the model                                                *)
(* ================================================================== *)

(** ** Python strings *)

Module PyStr.

(** An ASCII literal as a Python [str]. *)
Definition lit (s : string) : list N :=
  Ascii.N_of_ascii <$> String.list_ascii_of_string s.

(** Characters the code names. *)
Definition lbrace : N := 123.
Definition rbrace : N := 125.
Definition rbracket : N := 93.
Definition comma : N := 44.
Definition newline : N := 10.
Definition dquote : N := 34.

(** [str.isspace] on one character, which is also what [\s] matches in a
    [str] pattern: the ASCII white space, the separators 0x1C-0x1F and the
    Unicode spaces. *)
Definition isspace (c : N) : bool :=
  ((9 <=? c) && (c <=? 13)) || ((28 <=? c) && (c <=? 32))
  || (c =? 133) || (c =? 160) || (c =? 5760)
  || ((8192 <=? c) && (c <=? 8202))
  || (c =? 8232) || (c =? 8233) || (c =? 8239) || (c =? 8287) || (c =? 12288).

Fixpoint lstrip (s : list N) : list N :=
  match s with
  | c :: r => if isspace c then lstrip r else s
  | [] => []
  end.

Definition rstrip (s : list N) : list N := reverse (lstrip (reverse s)).

(** [s.strip()] *)
Definition strip (s : list N) : list N := rstrip (lstrip s).

Fixpoint eqb (a b : list N) : bool :=
  match a, b with
  | [], [] => true
  | x :: a', y :: b' => (x =? y) && eqb a' b'
  | _, _ => false
  end.

(** [s.startswith(p)] *)
Fixpoint startswith (p s : list N) : bool :=
  match p, s with
  | [], _ => true
  | x :: p', y :: s' => (x =? y) && startswith p' s'
  | _ :: _, [] => false
  end.

(** [s.find(sub)]: index of the first occurrence, [None] for -1. *)
Fixpoint find (sub s : list N) : option nat :=
  if startswith sub s then Some 0%nat
  else match s with
       | [] => None
       | _ :: r => S <$> find sub r
       end.

(** [s.rfind(c)] for a one-character needle. *)
Fixpoint rfind_char (c : N) (s : list N) : option nat :=
  match s with
  | [] => None
  | x :: r =>
      match rfind_char c r with
      | Some i => Some (S i)
      | None => if x =? c then Some 0%nat else None
      end
  end.

(** [s[a:b]] for non-negative bounds. *)
Definition slice (a b : nat) (s : list N) : list N := drop a (take b s).

(** [s.replace(old, new)] for a one-character [old]. *)
Definition replace_char (old : N) (new : list N) (s : list N) : list N :=
  concat ((fun c => if c =? old then new else [c]) <$> s).

(** [sep.join(parts)] *)
Fixpoint join (sep : list N) (parts : list (list N)) : list N :=
  match parts with
  | [] => []
  | [p] => p
  | p :: rest => p ++ sep ++ join sep rest
  end.

(** [s.lower()] restricted to the ASCII capitals.  The only non-ASCII
    character whose lower case is an ASCII letter is the Kelvin sign
    (U+212A, to "k"); it is mapped too, so comparing the result with an
    ASCII word agrees with Python. *)
Definition lower_char (c : N) : N :=
  if (65 <=? c) && (c <=? 90) then c + 32
  else if c =? 8490 then 107 else c.

Definition lower (s : list N) : list N := lower_char <$> s.

End PyStr.

(** ** JSON-like values *)

Inductive json :=
| JNull
| JBool (b : bool)
| JInt (z : Z)
| JFloat (lexeme : list N)
| JStr (s : list N)
| JArr (l : list json)
| JObj (m : gmap (list N) json).

(** What [json.loads] can do: return a value, raise [JSONDecodeError], or
    raise something else (a [RecursionError] on deep nesting). *)
Inductive loads_result :=
| Loaded (v : json)
| DecodeError
| OtherError.

(** [len(v)]: defined on strings, lists and dicts; a [TypeError] ([None])
    on numbers, booleans and [None]. *)
Definition py_len (v : json) : option nat :=
  match v with
  | JStr s => Some (length s)
  | JArr l => Some (length l)
  | JObj m => Some (size m)
  | _ => None
  end.

(** [v and isinstance(v, list)]: a non-empty list. *)
Definition nonempty_list (v : json) : option (list json) :=
  match v with
  | JArr (x :: l) => Some (x :: l)
  | _ => None
  end.

(** The fields a decoded value contributes to [{**fallback, **data}]: its
    entries when it is an object. *)
Definition fields_of (v : json) : gmap (list N) json :=
  match v with
  | JObj m => m
  | _ => ∅
  end.

Definition is_object (v : json) : bool :=
  match v with
  | JObj _ => true
  | _ => false
  end.

(** ** A reference decoder for [json.loads]

    The pipeline is stated for an arbitrary decoder (a field of [Env]); this
    one follows the scanner of Python's [json] module on [str] input and is
    what the concrete examples run.  Integers are kept exactly, floats as
    their lexeme.  Of two nested calls at least one consumes input, so the fuel
    given by [json_loads] is never exhausted. *)

Module JsonDecoder.
Import PyStr.

(** The white space the decoder skips: space, tab, line feed, carriage
    return. *)
Definition is_ws (c : N) : bool :=
  (c =? 32) || (c =? 9) || (c =? 10) || (c =? 13).

Fixpoint skip_ws (s : list N) : list N :=
  match s with
  | c :: r => if is_ws c then skip_ws r else s
  | [] => []
  end.

Definition is_digit (c : N) : bool := (48 <=? c) && (c <=? 57).

Definition hex_val (c : N) : option N :=
  if is_digit c then Some (c - 48)
  else if (97 <=? c) && (c <=? 102) then Some (c - 87)
  else if (65 <=? c) && (c <=? 70) then Some (c - 55)
  else None.

(** The four hex digits of a [\uXXXX] escape. *)
Definition hex4 (s : list N) : option (N * list N) :=
  match s with
  | a :: b :: c :: d :: r =>
      a' ← hex_val a; b' ← hex_val b; c' ← hex_val c; d' ← hex_val d;
      Some (((a' * 16 + b') * 16 + c') * 16 + d', r)
  | _ => None
  end.

(** The body of a string literal, after the opening quote.  [skip] counts
    characters already consumed by an escape. *)
Fixpoint scan_string (skip : nat) (acc : list N) (s : list N)
  : option (list N * list N) :=
  match s with
  | [] => None
  | c :: r =>
      match skip with
      | S k => scan_string k acc r
      | O =>
          if c =? 34 then Some (reverse acc, r)
          else if c <? 32 then None
          else if c =? 92 then
            match r with
            | e :: r' =>
                if e =? 34 then scan_string 1 (34 :: acc) r
                else if e =? 92 then scan_string 1 (92 :: acc) r
                else if e =? 47 then scan_string 1 (47 :: acc) r
                else if e =? 98 then scan_string 1 (8 :: acc) r
                else if e =? 102 then scan_string 1 (12 :: acc) r
                else if e =? 110 then scan_string 1 (10 :: acc) r
                else if e =? 114 then scan_string 1 (13 :: acc) r
                else if e =? 116 then scan_string 1 (9 :: acc) r
                else if e =? 117 then
                  match hex4 r' with
                  | Some (hi, r'') =>
                      match r'' with
                      | 92 :: 117 :: r3 =>
                          match hex4 r3 with
                          | Some (lo, _) =>
                              if (55296 <=? hi) && (hi <=? 56319)
                                 && (56320 <=? lo) && (lo <=? 57343)
                              then scan_string 11
                                     (65536 + (hi - 55296) * 1024 + (lo - 56320) :: acc) r
                              else scan_string 5 (hi :: acc) r
                          | None => scan_string 5 (hi :: acc) r
                          end
                      | _ => scan_string 5 (hi :: acc) r
                      end
                  | None => None
                  end
                else None
            | [] => None
            end
          else scan_string 0 (c :: acc) r
      end
  end.

Fixpoint span_digits (s : list N) : list N * list N :=
  match s with
  | c :: r => if is_digit c then let '(d, r') := span_digits r in (c :: d, r') else ([], s)
  | [] => ([], [])
  end.

Definition digits_value (d : list N) : Z :=
  foldl (fun acc c => (acc * 10 + Z.of_N (c - 48))%Z) 0%Z d.

(** A number: an optional minus sign, an integer part without leading
    zeros, an optional fraction, an optional exponent.  A dot or an [e] not
    followed by digits is left in the input. *)
Definition scan_number (s : list N) : option (json * list N) :=
  let '(neg, s1) := match s with 45 :: r => (true, r) | _ => (false, s) end in
  let int_part :=
    match s1 with
    | 48 :: r => Some ([48], r)
    | c :: _ => if is_digit c then Some (span_digits s1) else None
    | [] => None
    end in
  '(ds, s2) ← int_part;
  let '(frac, s3) :=
    match s2 with
    | 46 :: r =>
        match span_digits r with
        | ([], _) => ([], s2)
        | (fd, r') => (46 :: fd, r')
        end
    | _ => ([], s2)
    end in
  let '(ex, s4) :=
    match s3 with
    | e :: r =>
        if (e =? 101) || (e =? 69) then
          let '(sign, r1) :=
            match r with
            | sg :: r' => if (sg =? 43) || (sg =? 45) then ([sg], r') else ([], r)
            | [] => ([], r)
            end in
          match span_digits r1 with
          | ([], _) => ([], s3)
          | (ed, r2) => (e :: sign ++ ed, r2)
          end
        else ([], s3)
    | [] => ([], s3)
    end in
  match frac, ex with
  | [], [] => Some (JInt (if neg then - digits_value ds else digits_value ds)%Z, s4)
  | _, _ => Some (JFloat ((if neg then [45] else []) ++ ds ++ frac ++ ex), s4)
  end.

Definition scan_keyword (s : list N) : option (json * list N) :=
  if startswith (lit "null") s then Some (JNull, drop 4 s)
  else if startswith (lit "true") s then Some (JBool true, drop 4 s)
  else if startswith (lit "false") s then Some (JBool false, drop 5 s)
  else match scan_number s with
       | Some r => Some r
       | None =>
           if startswith (lit "NaN") s then Some (JFloat (lit "NaN"), drop 3 s)
           else if startswith (lit "Infinity") s then Some (JFloat (lit "Infinity"), drop 8 s)
           else if startswith (lit "-Infinity") s then Some (JFloat (lit "-Infinity"), drop 9 s)
           else None
       end.

(** One value ([scan_once]); the members of an object after its brace or
    a comma; the elements of an array likewise. *)
Fixpoint scan_value (fuel : nat) (s : list N) : option (option (json * list N)) :=
  match fuel with
  | O => None
  | S fuel' =>
      match s with
      | 34 :: r => Some (p ← scan_string 0 [] r; Some (JStr p.1, p.2))
      | 123 :: r =>
          match skip_ws r with
          | 125 :: r' => Some (Some (JObj ∅, r'))
          | r' => scan_members fuel' ∅ r'
          end
      | 91 :: r =>
          match skip_ws r with
          | 93 :: r' => Some (Some (JArr [], r'))
          | r' => scan_elements fuel' [] r'
          end
      | _ => Some (scan_keyword s)
      end
  end
with scan_members (fuel : nat) (acc : gmap (list N) json) (s : list N)
  : option (option (json * list N)) :=
  match fuel with
  | O => None
  | S fuel' =>
      match s with
      | 34 :: r =>
          match scan_string 0 [] r with
          | Some (key, r1) =>
              match skip_ws r1 with
              | 58 :: r2 =>
                  match scan_value fuel' (skip_ws r2) with
                  | None => None
                  | Some None => Some None
                  | Some (Some (v, r3)) =>
                      let acc' := <[key := v]> acc in
                      match skip_ws r3 with
                      | 125 :: r4 => Some (Some (JObj acc', r4))
                      | 44 :: r4 => scan_members fuel' acc' (skip_ws r4)
                      | _ => Some None
                      end
                  end
              | _ => Some None
              end
          | None => Some None
          end
      | _ => Some None
      end
  end
with scan_elements (fuel : nat) (acc : list json) (s : list N)
  : option (option (json * list N)) :=
  match fuel with
  | O => None
  | S fuel' =>
      match scan_value fuel' s with
      | None => None
      | Some None => Some None
      | Some (Some (v, r)) =>
          match skip_ws r with
          | 93 :: r' => Some (Some (JArr (reverse (v :: acc)), r'))
          | 44 :: r' => scan_elements fuel' (v :: acc) (skip_ws r')
          | _ => Some None
          end
      end
  end.

(** [json.loads(s)]: one value between optional white space, nothing
    after it; a leading byte-order mark is refused. *)
Definition json_loads (s : list N) : loads_result :=
  match s with
  | 65279 :: _ => DecodeError
  | _ =>
      match scan_value (2 * length s + 2) (skip_ws s) with
      | None => OtherError
      | Some None => DecodeError
      | Some (Some (v, r)) =>
          match skip_ws r with
          | [] => Loaded v
          | _ => DecodeError
          end
      end
  end.

End JsonDecoder.

(** ** The repair step of [_parse_json] *)

Module Repair.
Import PyStr.

Definition fence : list N := lit "```".

(** [json] matched case-insensitively, as [re.IGNORECASE] does on [str]:
    the long s (U+017F) also matches [s]. *)
Definition ci_json (s : list N) : bool :=
  match s with
  | j :: s' :: o :: n :: _ =>
      (lower_char j =? 106) && ((lower_char s' =? 115) || (s' =? 383))
      && (lower_char o =? 111) && (lower_char n =? 110)
  | _ => false
  end.

(** The text a fenced block encloses, when there is one: what group 1 of
    the search for a fence, an optional [json], a lazy body and a closing
    fence covers, up to the white space that the call of [strip] on the
    group removes anyway.  The search succeeds exactly when the first fence
    (and the [json] after it, if present) is followed by another fence, and
    the lazy body ends at the first such fence. *)
Definition fenced_block (s : list N) : option (list N) :=
  i ← find fence s;
  let rest := drop (i + 3) s in
  let rest := if ci_json rest then drop 4 rest else rest in
  t ← find fence rest;
  Some (take t rest).

Definition strip_fence (s : list N) : list N :=
  match fenced_block s with
  | Some body => strip body
  | None => s
  end.

(** From the first opening brace to the last closing brace, unless the
    text already starts with a brace. *)
Definition extract_object (s : list N) : list N :=
  if startswith (lit "{") s then s
  else match find (lit "{") s, rfind_char (rbrace) s with
       | Some a, Some b => slice a (S b) s
       | _, _ => s
       end.

(** Does the text continue with optional white space and a closing brace
    or bracket? *)
Definition closes_next (s : list N) : bool :=
  match lstrip s with
  | c :: _ => (c =? rbrace) || (c =? rbracket)
  | [] => false
  end.

(** Substituting group 1 for each comma followed by white space and a
    closer: such commas are dropped, the rest is kept. *)
Fixpoint drop_trailing_commas (s : list N) : list N :=
  match s with
  | [] => []
  | c :: r =>
      if (c =? comma) && closes_next r then drop_trailing_commas r
      else c :: drop_trailing_commas r
  end.

(** Two slashes and everything up to (not including) the end of the line
    are removed. *)
Fixpoint drop_line_comments (in_comment : bool) (s : list N) : list N :=
  match s with
  | [] => []
  | c :: r =>
      if in_comment then
        if c =? newline then c :: drop_line_comments false r
        else drop_line_comments true r
      else if startswith (lit "//") s then drop_line_comments true r
      else c :: drop_line_comments false r
  end.

(** A slash-star up to the first star-slash after it is removed; an
    unclosed slash-star is kept.  [skip] counts the characters of a
    comment still to be skipped. *)
Fixpoint drop_block_comments (skip : nat) (s : list N) : list N :=
  match s with
  | [] => []
  | c :: r =>
      match skip with
      | S k => drop_block_comments k r
      | O =>
          if startswith (lit "/*") s then
            match find (lit "*/") (drop 1 r) with
            | Some j => drop_block_comments (j + 3) r
            | None => c :: drop_block_comments 0 r
            end
          else c :: drop_block_comments 0 r
      end
  end.

(** The replacement table, in the order of the dict. *)
Definition replacements : list (N * list N) :=
  [ (8216, lit "'"); (8217, lit "'");
    (8220, [dquote]); (8221, [dquote]);
    (8211, lit "-"); (8212, lit "--"); (8230, lit "...") ].

Definition normalize_punctuation (s : list N) : list N :=
  foldl (fun acc '(old, new) => replace_char old new acc) s replacements.

(** The text handed to the decoder. *)
Definition clean (text : list N) : list N :=
  let cleaned := strip text in
  let cleaned := strip_fence cleaned in
  let cleaned := extract_object cleaned in
  let cleaned := drop_trailing_commas cleaned in
  let cleaned := drop_line_comments false cleaned in
  let cleaned := drop_block_comments 0 cleaned in
  normalize_punctuation cleaned.

(** [not text or not text.strip()] *)
Definition blank (text : list N) : bool :=
  eqb text [] || eqb (strip text) [].

End Repair.

(** ** Exceptions, collaborators and the world *)

Inductive exn_class :=
| ValueError
| TypeError
| AttributeError
| UnboundLocalError
| IntegrityError
| BackendError.

(** An exception object; [str(e)] is [exn_msg e]. *)
Record exn := Exn { exn_class_of : exn_class; exn_msg : list N }.

(** The four generation models of the service. *)
Inductive model := ModelSimplified | ModelAudio | ModelVisual | ModelQuiz.

(** The instruction a difficulty adds to a quiz prompt. *)
Inductive difficulty_instruction := EasyInstruction | MediumInstruction | HardInstruction.

(** The prompt templates.  Their literal wording is input to the backend
    and plays no part in the pipeline's logic, so a prompt is kept as the
    template chosen and the values interpolated into it. *)
Inductive template :=
| SimplifiedTemplate
| AudioTemplate
| VisualMathTemplate
| VisualLanguageTemplate
| VisualGeneralTemplate
| QuizSocraticTemplate
| QuizMathTemplate
| QuizScienceTemplate
| QuizHistoryTemplate
| QuizGeographyTemplate
| QuizStandardTemplate.

Record prompt := Prompt {
  p_template : template;
  p_subject : list N;
  p_difficulty : option difficulty_instruction;
  p_lesson : list N
}.

(** A response of the backend: [resp.text] returns, raises [ValueError]
    (a multi-part response) or raises something else; a candidate may lack
    [content.parts], a part may lack [text]. *)
Inductive quick_text :=
| QuickText (s : list N)
| QuickValueError
| QuickRaises (e : exn).

Record response := Response {
  resp_text : quick_text;
  resp_candidates : list (option (list (option (list N))))
}.

Inductive backend_outcome :=
| Responds (r : response)
| BackendRaises (e : exn).

(** What running the renderer gives: an exit code and the size of the first
    rendered [.mp4] in its media directory (if any), or a failure to run. *)
Inductive manim_result :=
| ManimExit (code : Z) (rendered : option N)
| ManimTimeout
| ManimNotFound
| ManimError.

(** What running the muxer gives: an exit code and the size of the output
    file (if it exists afterwards), or a failure to run. *)
Inductive ffmpeg_result :=
| FfmpegExit (code : Z) (output : option N)
| FfmpegTimeout
| FfmpegNotFound
| FfmpegError.

(** The muxer failed: it exited with a non-zero code, timed out, is not
    installed, or could not be run for another reason. *)
Definition ffmpeg_failed (r : ffmpeg_result) : bool :=
  match r with
  | FfmpegExit code _ => negb (bool_decide (code = 0%Z))
  | _ => true
  end.

(** The external collaborators.  The number passed to a backend is the
    number of calls made to it before, so a backend may answer differently
    each time. *)
Class Env := {
  json_loads_of : list N → loads_result;
  json_dumps : json → list N;
  py_str : json → list N;
  isprintable : N → bool;
  generate_content : nat → model → prompt → backend_outcome;
  extract_text : list N → option (list N);
  uuid4 : nat → list N;
  elevenlabs_api_key : bool;
  text_to_speech : nat → list N → option N;
  podcast_to_speech : nat → list json → option N;
  manim : nat → list N → manim_result;
  ffmpeg : nat → list N → list N → ffmpeg_result;
  upload_root : list N
}.

Inductive status := Pending | Generating | Ready | Failed.

Record assignment := Assignment {
  a_id : list N;
  a_title : list N;
  a_subject : list N;
  a_teacher_id : option (list N);
  a_original_content : option (list N);
  a_file_path : option (list N);
  a_status : status;
  a_error_message : option (list N)
}.

(** A row of [assignment_versions].  [assets] is a JSON column. *)
Record version := Version {
  v_id : list N;
  v_assignment_id : list N;
  v_variant_type : list N;
  v_subject : list N;
  v_content_text : option (list N);
  v_assets : json;
  v_ready : bool
}.

Record database := Database {
  assignments : list assignment;
  versions : list version
}.

Inductive row :=
| AssignmentRow (a : assignment)
| VersionRow (v : version).

Inductive tool_call :=
| SpeechCall (text : list N)
| PodcastCall (discussion : list json)
| ManimCall (code : list N)
| FfmpegCall (video audio : list N).

Inductive file :=
| TextFile (content : list N)
| BinaryFile (size : N).

(** The state the service acts on: the rows committed to the database, the
    rows as the open transaction of the session sees them, the objects
    added to the session and not flushed yet, the number of uuids drawn,
    the calls made to the generation backend, the sleeps, the files
    written (with their sizes) and the external tools run. *)
Record world := World {
  committed : database;
  working : database;
  pending : list row;
  uuids : nat;
  gen_log : list (model * prompt);
  sleep_log : list nat;
  files : gmap (list N) file;
  tool_log : list tool_call
}.

Definition with_db (c k : database) (p : list row) (w : world) : world :=
  World c k p (uuids w) (gen_log w) (sleep_log w) (files w) (tool_log w).

Definition with_uuids (n : nat) (w : world) : world :=
  World (committed w) (working w) (pending w) n (gen_log w) (sleep_log w) (files w) (tool_log w).

Definition with_gen_log (l : list (model * prompt)) (w : world) : world :=
  World (committed w) (working w) (pending w) (uuids w) l (sleep_log w) (files w) (tool_log w).

Definition with_sleep_log (l : list nat) (w : world) : world :=
  World (committed w) (working w) (pending w) (uuids w) (gen_log w) l (files w) (tool_log w).

Definition with_files (f : gmap (list N) file) (w : world) : world :=
  World (committed w) (working w) (pending w) (uuids w) (gen_log w) (sleep_log w) f (tool_log w).

Definition with_tool_log (l : list tool_call) (w : world) : world :=
  World (committed w) (working w) (pending w) (uuids w) (gen_log w) (sleep_log w) (files w) l.

(** ** The state-and-exception monad *)

Inductive result (A : Type) :=
| Return (a : A)
| Raise (e : exn).
Arguments Return {A} a.
Arguments Raise {A} e.

Definition M (A : Type) : Type := world → result A * world.

Definition ret {A} (a : A) : M A := fun w => (Return a, w).

Definition raise {A} (e : exn) : M A := fun w => (Raise e, w).

Definition bind {A B} (m : M A) (k : A → M B) : M B :=
  fun w => match m w with
           | (Return a, w') => k a w'
           | (Raise e, w') => (Raise e, w')
           end.

(** [try: m  except Exception as e: handler e] *)
Definition try_except {A} (m : M A) (handler : exn → M A) : M A :=
  fun w => match m w with
           | (Return a, w') => (Return a, w')
           | (Raise e, w') => handler e w'
           end.

Definition get {A} (f : world → A) : M A := fun w => (Return (f w), w).

Definition modify (f : world → world) : M unit := fun w => (Return tt, f w).

(** The value of a run that returned, the exception of a run that raised. *)
Definition returned {A} (r : result A) : option A :=
  match r with
  | Return a => Some a
  | Raise _ => None
  end.

Definition raised {A} (r : result A) : option exn :=
  match r with
  | Return _ => None
  | Raise e => Some e
  end.

(** Lift a computation that touches no state. *)
Definition lift {A} (r : result A) : M A := fun w => (r, w).

(** Every run of [m] takes a world to one related to it by [R], whether
    it returns or raises. *)
Definition step {A} (R : world → world → Prop) (m : M A) : Prop :=
  ∀ w r w', m w = (r, w') → R w w'.

Notation "'let*' x ':=' m 'in' k" := (bind m (fun x => k))
  (at level 10, x pattern, m at level 100, k at level 200).

(** ** The database session *)

Module Session.

Definition integrity_error : exn := Exn IntegrityError (PyStr.lit "UNIQUE constraint failed").

(** Two versions collide on the unique index
    [idx_assignment_variant_unique (assignment_id, variant_type)]. *)
Definition same_variant (v1 v2 : version) : bool :=
  bool_decide (v_assignment_id v1 = v_assignment_id v2)
  && bool_decide (v_variant_type v1 = v_variant_type v2).

(** An INSERT: refused when the primary key or the unique index is taken. *)
Definition insert_row (r : row) (d : database) : option database :=
  match r with
  | AssignmentRow a =>
      if existsb (fun a' => bool_decide (a_id a' = a_id a)) (assignments d) then None
      else Some (Database (assignments d ++ [a]) (versions d))
  | VersionRow v =>
      if existsb (fun v' => bool_decide (v_id v' = v_id v) || same_variant v' v) (versions d)
      then None
      else Some (Database (assignments d) (versions d ++ [v]))
  end.

Fixpoint insert_rows (rs : list row) (d : database) : option database :=
  match rs with
  | [] => Some d
  | r :: rs' =>
      match insert_row r d with
      | Some d' => insert_rows rs' d'
      | None => None
      end
  end.

(** [db.session.add(obj)] *)
Definition add (r : row) : M unit :=
  modify (fun w => with_db (committed w) (working w) (pending w ++ [r]) w).

(** [db.session.flush()]: the pending objects are inserted inside the
    transaction.  When an INSERT is refused the flush raises; the session
    then refuses any work until [rollback()] is called, and every caller
    below either rolls back at once or gives the session up, so the rows of
    the broken transaction are never read again. *)
Definition flush : M unit :=
  fun w => match insert_rows (pending w) (working w) with
           | Some d => (Return tt, with_db (committed w) d [] w)
           | None => (Raise integrity_error, w)
           end.

(** [db.session.commit()]: flush, then make the transaction durable. *)
Definition commit : M unit :=
  let* _ := flush in
  modify (fun w => with_db (working w) (working w) [] w).

(** [db.session.rollback()]: the uncommitted changes are discarded, and an
    object whose INSERT is rolled back leaves the session. *)
Definition rollback : M unit :=
  modify (fun w => with_db (committed w) (committed w) [] w).

Definition update_assignment (id : list N) (f : assignment → assignment) (d : database)
  : database :=
  Database ((fun a => if decide (a_id a = id) then f a else a) <$> assignments d) (versions d).

(** Assigning attributes of an assignment object: the change reaches the
    row of the object at the next flush; an object that is no longer in the
    session (its row is not in the transaction) changes nothing. *)
Definition set_assignment (id : list N) (f : assignment → assignment) : M unit :=
  modify (fun w => with_db (committed w) (update_assignment id f (working w)) (pending w) w).

(** [AssignmentVersion.query.filter_by(assignment_id=.., variant_type=..).first()] *)
Definition first_version (aid vtype : list N) (d : database) : option version :=
  head (filter (fun v => v_assignment_id v = aid ∧ v_variant_type v = vtype) (versions d)).

Definition update_version (id : list N) (f : version → version) (d : database) : database :=
  Database (assignments d) ((fun v => if decide (v_id v = id) then f v else v) <$> versions d).

(** Assigning attributes of a version object loaded from the session. *)
Definition set_version (id : list N) (f : version → version) : M unit :=
  modify (fun w => with_db (committed w) (update_version id f (working w)) (pending w) w).

End Session.

(** A relation on worlds that every effect of the generators and of the
    media steps respects; [sendable] tells which prompts may go to the
    generation backend. *)
Record frame (R : world → world → Prop) (sendable : prompt → Prop) : Prop := Frame {
  frame_refl : ∀ w, R w w;
  frame_trans : ∀ w1 w2 w3, R w1 w2 → R w2 w3 → R w1 w3;
  frame_uuids : ∀ w n, R w (with_uuids n w);
  frame_sleep : ∀ w l, R w (with_sleep_log l w);
  frame_files : ∀ w f, R w (with_files f w);
  frame_tools : ∀ w l, R w (with_tool_log l w);
  frame_gen : ∀ w m p, sendable p → R w (with_gen_log (gen_log w ++ [(m, p)]) w)
}.

(** A relation on worlds that the steps of the session respect: a change
    of the pending objects, an INSERT that is accepted, a commit, an
    assignment to attributes that leaves the keys alone. *)
Record db_frame (R : world → world → Prop) : Prop := DbFrame {
  frame_pending : ∀ w p, R w (with_db (committed w) (working w) p w);
  frame_insert : ∀ w r d, Session.insert_row r (working w) = Some d →
                          R w (with_db (committed w) d (pending w) w);
  frame_publish : ∀ w, R w (with_db (working w) (working w) (pending w) w);
  frame_set_assignment : ∀ w id f, (∀ a, a_id (f a) = a_id a) →
    R w (with_db (committed w) (Session.update_assignment id f (working w)) (pending w) w);
  frame_set_version : ∀ w id f,
    (∀ v, v_assignment_id (f v) = v_assignment_id v ∧ v_variant_type (f v) = v_variant_type v
          ∧ v_id (f v) = v_id v) →
    R w (with_db (committed w) (Session.update_version id f (working w)) (pending w) w)
}.

(** [P] holds after a step whenever it held before. *)
Definition keeps (P : world → Prop) (w w' : world) : Prop := P w → P w'.

(** The columns of the unique index. *)
Definition variant_key (v : version) : list N * list N := (v_assignment_id v, v_variant_type v).

(** At most one variant for each assignment and variant type. *)
Definition unique_variants (d : database) : Prop := NoDup (variant_key <$> versions d).

(** The unique index holds in the transaction and in what is committed. *)
Definition session_unique (w : world) : Prop :=
  unique_variants (working w) ∧ unique_variants (committed w).

(** The database part of the world is left as it is. *)
Definition same_db (w w' : world) : Prop :=
  committed w' = committed w ∧ working w' = working w ∧ pending w' = pending w.

(** The session has no open work: nothing pending, nothing uncommitted. *)
Definition clean (w : world) : Prop := working w = committed w ∧ pending w = [].

(** The number of variants of a type that an assignment has. *)
Definition count_variants (aid vtype : list N) (d : database) : nat :=
  length (filter (fun v => v_assignment_id v = aid ∧ v_variant_type v = vtype) (versions d)).

Definition has_assignment (id : list N) (d : database) : Prop :=
  ∃ a, a ∈ assignments d ∧ a_id a = id.

(** The assignment [id] is in the transaction, and in what is committed
    unless nothing has been committed since [c0]. *)
Definition assignment_kept (id : list N) (c0 : database) (w : world) : Prop :=
  has_assignment id (working w) ∧ (committed w = c0 ∨ has_assignment id (committed w)).

(** The prompts sent between two worlds all carry a prefix of [text] as
    their lesson. *)
Definition sent_from (text : list N) (w w' : world) : Prop :=
  ∃ l, gen_log w' = gen_log w ++ l
       ∧ Forall (fun mp : model * prompt => ∃ k, p_lesson mp.2 = take k text) l.


(** ** The service *)

Section Service.
Context {E : Env}.
Import PyStr Repair.

Definition os_path_join (a b : list N) : list N := a ++ lit "/" ++ b.

Definition os_path_exists (p : list N) : M bool := get (fun w => bool_decide (is_Some (files w !! p))).

Definition file_size (f : file) : N :=
  match f with
  | TextFile content => N.of_nat (length content)
  | BinaryFile size => size
  end.

(** [os.path.getsize(p)]; the code asks only for files it has seen to
    exist. *)
Definition os_path_getsize (p : list N) : M N :=
  get (fun w => match files w !! p with Some f => file_size f | None => 0 end).

Definition write_file (p : list N) (f : file) : M unit :=
  modify (fun w => with_files (<[p := f]> (files w)) w).

Definition new_uuid : M (list N) :=
  fun w => (Return (uuid4 (uuids w)), with_uuids (S (uuids w)) w).

Definition time_sleep (seconds : nat) : M unit :=
  modify (fun w => with_sleep_log (sleep_log w ++ [seconds]) w).

(** [d.get(key, default)] *)
Definition dict_get (d : gmap (list N) json) (key : string) (dflt : json) : json :=
  default dflt (d !! lit key).

(** *** [_parse_json] *)

(** [{**fallback_keys, **data}]: a [TypeError] ([None]) when [data] is not
    a mapping. *)
Definition dict_merge (fallback_keys : gmap (list N) json) (data : json)
  : option (gmap (list N) json) :=
  match data with
  | JObj d => Some (d ∪ fallback_keys)
  | _ => None
  end.

Definition _parse_json (text : list N) (fallback_keys : gmap (list N) json)
  : gmap (list N) json :=
  if blank text then fallback_keys
  else
    match json_loads_of (clean text) with
    | Loaded data =>
        match dict_merge fallback_keys data with
        | Some merged => merged
        | None => fallback_keys
        end
    | DecodeError => fallback_keys
    | OtherError => fallback_keys
    end.

(** *** The generation client *)

(** The text of all parts of all candidates. *)
Definition parts_text (candidates : list (option (list (option (list N))))) : list N :=
  concat ((fun candidate =>
             match candidate with
             | Some parts => concat ((fun part => default [] part) <$> parts)
             | None => []
             end) <$> candidates).


Definition response_text (r : response) : result (list N) :=
  match resp_text r with
  | QuickText s => Return s
  | QuickValueError => Return (parts_text (resp_candidates r))
  | QuickRaises e => Raise e
  end.

(** What the attempt that is the [n]-th call of the backend yields: the
    text of the response, or the exception raised by the call or by the
    extraction of the text. *)
Definition gemini_outcome (n : nat) (p : prompt) (m : model) : result (list N) :=
  match generate_content n m p with
  | Responds r => response_text r
  | BackendRaises e => Raise e
  end.

(** One attempt: [model.generate_content(prompt)] and the extraction of
    the text. *)
Definition gemini_attempt (p : prompt) (m : model) : M (list N) :=
  fun w =>
    (gemini_outcome (length (gen_log w)) p m, with_gen_log (gen_log w ++ [(m, p)]) w).

(** The loop [for attempt in range(max_retries)], for the attempts left. *)
Fixpoint gemini_attempts (p : prompt) (m : model) (max_retries : nat) (attempts : list nat)
  : M (list N) :=
  match attempts with
  | [] => ret []
  | attempt :: rest =>
      try_except (gemini_attempt p m)
        (fun e =>
           if bool_decide (attempt = (max_retries - 1)%nat) then raise e
           else
             let* _ := time_sleep 2 in
             gemini_attempts p m max_retries rest)
  end.

Definition _call_gemini_with_retry_n (p : prompt) (m : model) (max_retries : nat)
  : M (list N) :=
  gemini_attempts p m max_retries (seq 0 max_retries).

(** Every call site leaves [max_retries] at its default. *)
Definition _call_gemini_with_retry (p : prompt) (m : model) : M (list N) :=
  _call_gemini_with_retry_n p m 2.

(** *** The variant generators *)

(** [len(v)] inside a log line: a [TypeError] when [v] has no length. *)
Definition len_of (v : json) : M nat :=
  match py_len v with
  | Some n => ret n
  | None => raise (Exn TypeError (lit "object has no len()"))
  end.

Definition _gen_simplified_text (subject text : list N) : M (gmap (list N) json) :=
  let p := Prompt SimplifiedTemplate subject None (take 2000 text) in
  let* resp_text := _call_gemini_with_retry p ModelSimplified in
  let result :=
    _parse_json resp_text
      (<[lit "text" := JStr text]> (<[lit "highlights" := JArr []]> ∅)) in
  let* _ := len_of (dict_get result "text" (JStr [])) in
  ret result.

Definition _gen_audio_script (subject text : list N) : M (gmap (list N) json) :=
  let p := Prompt AudioTemplate subject None (take 2500 text) in
  let* resp_text := _call_gemini_with_retry p ModelAudio in
  let result :=
    _parse_json resp_text
      (<[lit "discussion" :=
           JArr [JObj (<[lit "speaker" := JStr (lit "Host")]>
                         (<[lit "text" := JStr (take 500 text)]> ∅))]]>
         (<[lit "summary" := JStr (lit "Educational podcast discussion")]> ∅)) in
  let* _ := len_of (dict_get result "discussion" (JArr [])) in
  ret result.

(** [s.split()] *)
Fixpoint split_ws (cur : list N) (s : list N) : list (list N) :=
  match s with
  | [] => match cur with [] => [] | _ => [reverse cur] end
  | c :: r =>
      if isspace c then
        match cur with
        | [] => split_ws [] r
        | _ => reverse cur :: split_ws [] r
        end
      else split_ws (c :: cur) r
  end.

Definition _default_manim_code (title : list N) : list N :=
  let safe := take 60 (match title with [] => lit "Lesson" | _ => title end) in
  let safe := replace_char 92 [92; 92] safe in
  let safe := replace_char dquote [92; dquote] safe in
  let safe := replace_char newline (lit " ") safe in
  let safe := replace_char 13 (lit " ") safe in
  let safe := (fun c => if isprintable c || isspace c then c else 32) <$> safe in
  let safe := join (lit " ") (split_ws [] safe) in
  lit "from manim import *" ++ [newline; newline]
  ++ lit "class TitleScene(Scene):" ++ [newline]
  ++ lit "    def construct(self):" ++ [newline]
  ++ lit "        title = Text(" ++ [dquote] ++ safe ++ [dquote] ++ lit ")" ++ [newline]
  ++ lit "        self.play(Write(title))" ++ [newline]
  ++ lit "        self.wait(1)" ++ [newline].

Definition visual_template (subject : list N) : template :=
  if bool_decide (lower subject = lit "math") then VisualMathTemplate
  else if bool_decide (lower subject = lit "language") then VisualLanguageTemplate
  else VisualGeneralTemplate.

Definition _gen_visual_plan (subject text : list N) : M (gmap (list N) json) :=
  let p := Prompt (visual_template subject) subject None (take 2000 text) in
  let* resp_text := _call_gemini_with_retry p ModelVisual in
  let result :=
    _parse_json resp_text
      (<[lit "description" :=
           JStr (lit "Visual animation for " ++ subject
                 ++ lit " lesson based on the provided content.")]>
         (<[lit "narration" :=
              JArr [JObj (<[lit "text" := JStr (take 200 text)]>
                            (<[lit "duration" := JInt 10]> ∅))]]>
            (<[lit "manim_code" := JStr (_default_manim_code text)]> ∅))) in
  let* _ := len_of (dict_get result "description" (JStr [])) in
  let* _ := len_of (dict_get result "manim_code" (JStr [])) in
  ret result.

(** [difficulty_context.get(difficulty, difficulty_context['medium'])] *)
Definition difficulty_context (difficulty : list N) : difficulty_instruction :=
  if bool_decide (difficulty = lit "easy") then EasyInstruction
  else if bool_decide (difficulty = lit "hard") then HardInstruction
  else MediumInstruction.

(** An entry of [quiz_formats]: its type, its instruction template, and
    whether the instruction interpolates the difficulty. *)
Record quiz_format := QuizFormat {
  qf_type : list N;
  qf_instruction : template;
  qf_difficulty : bool
}.

(** [quiz_formats.get(subject.lower(), default)] *)
Definition quiz_formats (subject : list N) : quiz_format :=
  let key := lower subject in
  if bool_decide (key = lit "language") then QuizFormat (lit "socratic") QuizSocraticTemplate true
  else if bool_decide (key = lit "math") then QuizFormat (lit "practice") QuizMathTemplate true
  else if bool_decide (key = lit "science")
  then QuizFormat (lit "practice_repeatable") QuizScienceTemplate true
  else if bool_decide (key = lit "history")
  then QuizFormat (lit "timeline_fill") QuizHistoryTemplate true
  else if bool_decide (key = lit "geography")
  then QuizFormat (lit "practice_repeatable") QuizGeographyTemplate false
  else QuizFormat (lit "standard") QuizStandardTemplate false.

Definition quiz_prompt (subject text difficulty : list N) : prompt :=
  let quiz_format := quiz_formats subject in
  Prompt (qf_instruction quiz_format) subject
    (if qf_difficulty quiz_format then Some (difficulty_context difficulty) else None)
    (take 3000 text).

Definition quiz_fallback (subject : list N) : gmap (list N) json :=
  <[lit "summary" := JStr (subject ++ lit " practice exercise")]>
    (<[lit "quiz_type" := JStr (qf_type (quiz_formats subject))]>
       (<[lit "questions" := JArr []]> ∅)).

(** [result.get('questions', result.get('timeline_events', []))] *)
Definition question_items (result : gmap (list N) json) : json :=
  dict_get result "questions" (dict_get result "timeline_events" (JArr [])).

(** One generate-and-parse cycle of the quiz generator, with the number of
    items it counts. *)
Definition quiz_cycle (subject text difficulty : list N) : M (gmap (list N) json * nat) :=
  let* resp_text := _call_gemini_with_retry (quiz_prompt subject text difficulty) ModelQuiz in
  let result := _parse_json resp_text (quiz_fallback subject) in
  let* question_count := len_of (question_items result) in
  ret (result, question_count).

(** The loop [for attempt in range(max_retries)] of the quiz generator;
    [last] is the value of [result] so far. *)
Fixpoint quiz_attempts (subject text difficulty : list N) (attempts : list nat)
  (last : option (gmap (list N) json)) : M (gmap (list N) json) :=
  match attempts with
  | [] =>
      match last with
      | Some result => ret result
      | None => raise (Exn UnboundLocalError (lit "result"))
      end
  | _ :: rest =>
      let* (result, question_count) := quiz_cycle subject text difficulty in
      if (0 <? question_count)%nat then ret result
      else quiz_attempts subject text difficulty rest (Some result)
  end.

Definition _gen_quiz (subject text difficulty : list N) : M (gmap (list N) json) :=
  let max_retries := 2%nat in
  quiz_attempts subject text difficulty (seq 0 max_retries) None.

(** *** Synthesis and rendering *)

Definition run_tool {A} (call : tool_call) (outcome : nat → A) : M A :=
  fun w => (Return (outcome (length (tool_log w))), with_tool_log (tool_log w ++ [call]) w).

Definition tool_failure : exn := Exn BackendError (lit "external call failed").

(** [_synthesize_audio]: the narration when the speech backend is
    configured and answers, a placeholder otherwise; the path is returned
    in every case. *)
Definition _synthesize_audio (script out_dir name : list N) : M (list N) :=
  let out_path := os_path_join out_dir name in
  let* _ :=
    try_except
      (if elevenlabs_api_key && negb (bool_decide (strip script = [])) then
         let* written := run_tool (SpeechCall (take 4000 script))
                           (fun n => text_to_speech n (take 4000 script)) in
         match written with
         | Some size => write_file out_path (BinaryFile size)
         | None => raise tool_failure
         end
       else write_file out_path (BinaryFile 500))
      (fun _ => write_file out_path (BinaryFile 104)) in
  ret out_path.

(** [seg.get('text', '')] for every segment, then the check [str.join]
    makes on its items. *)
Fixpoint segment_fields (segments : list json) : result (list json) :=
  match segments with
  | [] => Return []
  | JObj m :: rest =>
      match segment_fields rest with
      | Return l => Return (dict_get m "text" (JStr []) :: l)
      | Raise e => Raise e
      end
  | _ :: _ => Raise (Exn AttributeError (lit "object has no attribute 'get'"))
  end.

Fixpoint str_items (items : list json) : result (list (list N)) :=
  match items with
  | [] => Return []
  | JStr s :: rest =>
      match str_items rest with
      | Return l => Return (s :: l)
      | Raise e => Raise e
      end
  | _ :: _ => Raise (Exn TypeError (lit "sequence item: expected str instance"))
  end.

(** [' '.join(seg.get('text', '') for seg in segments)] *)
Definition join_segments (segments : list json) : M (list N) :=
  lift match segment_fields segments with
       | Return items =>
           match str_items items with
           | Return l => Return (join (lit " ") l)
           | Raise e => Raise e
           end
       | Raise e => Raise e
       end.

Definition _synthesize_podcast (discussion : list json) (out_dir name : list N) : M (list N) :=
  let out_path := os_path_join out_dir name in
  try_except
    (if elevenlabs_api_key && negb (bool_decide (discussion = [])) then
       let* written := run_tool (PodcastCall discussion)
                         (fun n => podcast_to_speech n discussion) in
       match written with
       | Some size =>
           let* _ := write_file out_path (BinaryFile size) in
           ret out_path
       | None => raise tool_failure
       end
     else
       let* all_text := join_segments discussion in
       _synthesize_audio all_text out_dir name)
    (fun _ =>
       let* all_text := join_segments discussion in
       _synthesize_audio all_text out_dir name).

(** The placeholder video is 40 bytes long. *)
Definition minimal_mp4_size : N := 40.

(** [_render_manim]: returns [(video_path, script_path, success)].  The
    scene name found in the code is part of the command line, which the
    renderer sees through the code. *)
Definition _render_manim (manim_code : json) (out_dir name : list N)
  : M (list N * list N * bool) :=
  let script_path := os_path_join out_dir (lit "scene.py") in
  let* _ := len_of manim_code in
  match manim_code with
  | JStr code =>
      let* _ := write_file script_path (TextFile code) in
      let video_path := os_path_join out_dir name in
      let* rendered :=
        let* r := run_tool (ManimCall code) (fun n => manim n code) in
        match r with
        | ManimExit 0 (Some size) =>
            let* _ := write_file video_path (BinaryFile size) in
            ret true
        | _ => ret false
        end in
      if rendered : bool then ret (video_path, script_path, true)
      else
        let* present := os_path_exists video_path in
        let* _ := if present : bool then ret tt
                  else write_file video_path (BinaryFile minimal_mp4_size) in
        ret (video_path, script_path, false)
  | _ =>
      let* _ := write_file script_path (TextFile []) in
      raise (Exn TypeError (lit "write() argument must be str"))
  end.

(** [_add_audio_to_video]: the muxed file when the muxer succeeds, the
    video it was given otherwise. *)
Definition _add_audio_to_video (video_path audio_path out_dir name : list N) : M (list N) :=
  let output_path := os_path_join out_dir name in
  let* present := os_path_exists video_path in
  if negb present then ret video_path
  else
    let* video_size := os_path_getsize video_path in
    if video_size <? 10000 then ret video_path
    else
      let* r := run_tool (FfmpegCall video_path audio_path)
                  (fun n => ffmpeg n video_path audio_path) in
      match r with
      | FfmpegExit code output =>
          let* _ := match output with
                    | Some size => write_file output_path (BinaryFile size)
                    | None => ret tt
                    end in
          let* produced := os_path_exists output_path in
          if bool_decide (code = 0%Z) && produced then ret output_path
          else ret video_path
      | FfmpegNotFound => ret video_path
      | FfmpegTimeout => ret video_path
      | FfmpegError => ret video_path
      end.

(** *** Helpers *)

Definition _persist_variant (a : assignment) (vtype subject : list N)
  (content_text : option (list N)) (assets : gmap (list N) json) : M unit :=
  let* id := new_uuid in
  let version :=
    Version id (a_id a) vtype subject content_text (JObj assets) true in
  let* _ := Session.add (VersionRow version) in
  Session.commit.

(** The file gets the serialization of [data]; its indentation is not
    modelled. *)
Definition _write_json (data : gmap (list N) json) (path : list N) : M (list N) :=
  let* _ := write_file path (TextFile (json_dumps (JObj data))) in
  ret path.

(** *** Text extraction shared by creation and regeneration *)

Definition truncation_marker : list N :=
  [newline; newline] ++ lit "[Content truncated for processing]".

(** The parts collected from the raw text and from the file. *)
Definition text_parts (a : assignment) : list (list N) :=
  match a_original_content a with
  | Some (c :: s) => [strip (c :: s)]
  | _ => []
  end
  ++
  match a_file_path a with
  | Some (c :: path) =>
      match extract_text (c :: path) with
      | Some (t :: file_text) => [strip (t :: file_text)]
      | _ => []
      end
  | _ => []
  end.

Definition truncate_text (base_text : list N) : list N :=
  if (4000 <? length base_text)%nat then take 4000 base_text ++ truncation_marker
  else base_text.

(** The text every generator works from; [ValueError] when there is
    none. *)
Definition base_text_value (a : assignment) : result (list N) :=
  match text_parts a with
  | [] => Raise (Exn ValueError (lit "No content found in assignment"))
  | parts =>
      match join [newline; newline] parts with
      | [] => Raise (Exn ValueError (lit "No content found in assignment"))
      | base_text => Return (truncate_text base_text)
      end
  end.

Definition base_text_of (a : assignment) : M (list N) := lift (base_text_value a).

(** *** The orchestrator *)

(** [str(v)] of a value that may already be a string. *)
Definition str_of (v : json) : list N :=
  match v with
  | JStr s => s
  | _ => py_str v
  end.

(** The audio step: a podcast from the discussion, or a single-voice
    narration of the script. *)
Definition synthesize_audio_variant (audio : gmap (list N) json) (a_dir : list N)
  : M (list N) :=
  match nonempty_list (dict_get audio "discussion" (JArr [])) with
  | Some discussion => _synthesize_podcast discussion a_dir (lit "podcast.mp3")
  | None =>
      let script_text := dict_get audio "script" (JStr (py_str (JObj audio))) in
      let script_text :=
        match script_text with
        | JObj _ => JStr (json_dumps script_text)
        | _ => script_text
        end in
      _synthesize_audio (str_of script_text) a_dir (lit "narration.mp3")
  end.

(** What the visual loop carries from one attempt to the next. *)
Record visual_state := VisualState {
  vs_visual : gmap (list N) json;
  vs_video_mp4 : list N;
  vs_manim_script : list N;
  vs_narration_audio : option (list N)
}.

(** One pass of the visual loop: plan, narration, render.  The boolean
    tells whether the video is a real one. *)
Definition visual_attempt (a : assignment) (base_text a_dir : list N)
  (narration_audio : option (list N)) : M (visual_state * bool) :=
  let* visual := _gen_visual_plan (a_subject a) base_text in
  let* narration_audio :=
    match nonempty_list (dict_get visual "narration" (JArr [])) with
    | Some narration_segments =>
        let* full_narration := join_segments narration_segments in
        let* path := _synthesize_audio full_narration a_dir (lit "narration.mp3") in
        ret (Some path)
    | None => ret narration_audio
    end in
  let* (paths, success) :=
    _render_manim (dict_get visual "manim_code" (JStr [])) a_dir (lit "visual_silent.mp4") in
  let (video_mp4, manim_script) := paths : list N * list N in
  let* present := os_path_exists video_mp4 in
  let* size := os_path_getsize video_mp4 in
  ret (VisualState visual video_mp4 manim_script narration_audio,
       success && present && (10000 <? size)).

(** [for attempt in range(2)] of the visual step. *)
Fixpoint visual_attempts (a : assignment) (base_text a_dir : list N) (attempts : list nat)
  (last : option visual_state) : M visual_state :=
  match attempts with
  | [] =>
      match last with
      | Some st => ret st
      | None => raise (Exn UnboundLocalError (lit "visual"))
      end
  | attempt :: rest =>
      let* (st, valid) :=
        visual_attempt a base_text a_dir (last ≫= vs_narration_audio) in
      if valid : bool then ret st
      else if bool_decide (attempt = 1%nat) then ret st
      else visual_attempts a base_text a_dir rest (Some st)
  end.

(** The mux step: only a real video with an existing narration is handed
    to the muxer. *)
Definition mux_step (st : visual_state) (a_dir : list N) : M (list N) :=
  let video_mp4 := vs_video_mp4 st in
  match vs_narration_audio st with
  | Some (c :: p) =>
      let narration_audio := c :: p in
      let* narrated := os_path_exists narration_audio in
      if narrated : bool then
        let* present := os_path_exists video_mp4 in
        let* size := os_path_getsize video_mp4 in
        if present && (10000 <? size) then
          _add_audio_to_video video_mp4 narration_audio a_dir (lit "visual.mp4")
        else ret video_mp4
      else ret video_mp4
  | _ => ret video_mp4
  end.

(** The four variants, each generated and persisted in turn, from the
    extracted text. *)
Definition generate_variants_from (a : assignment) (base_text : list N) : M unit :=
  let a_dir := os_path_join upload_root (a_id a) in
  (* simplified text *)
  let* simplified := _gen_simplified_text (a_subject a) base_text in
  let* _ := _persist_variant a (lit "simplified") (a_subject a)
              (Some (json_dumps (JObj simplified))) ∅ in
  (* audio guide *)
  let* audio := _gen_audio_script (a_subject a) base_text in
  let* audio_mp3 := synthesize_audio_variant audio a_dir in
  let* _ := _persist_variant a (lit "audio") (a_subject a)
              (Some (json_dumps (JObj audio)))
              (<[lit "audio_mp3" := JStr audio_mp3]>
                 (<[lit "summary" :=
                      dict_get audio "summary" (JStr (lit "Educational podcast discussion"))]>
                    ∅)) in
  (* visualized lesson *)
  let* st := visual_attempts a base_text a_dir (seq 0 2) None in
  let* final_video := mux_step st a_dir in
  let* _ := _persist_variant a (lit "visual") (a_subject a)
              (Some (json_dumps (JObj (vs_visual st))))
              (<[lit "video_mp4" := JStr final_video]>
                 (<[lit "manim_script" := JStr (vs_manim_script st)]>
                    (<[lit "narration_audio" := JStr (default [] (vs_narration_audio st))]>
                       ∅))) in
  (* interactive quiz *)
  let* quiz := _gen_quiz (a_subject a) base_text (lit "medium") in
  let* quiz_path := _write_json quiz (os_path_join a_dir (lit "quiz.json")) in
  _persist_variant a (lit "quiz") (a_subject a)
    (Some (json_dumps (JObj quiz)))
    (<[lit "quiz_json" := JStr quiz_path]> ∅).

Definition _generate_all_variants (a : assignment) : M unit :=
  let* base_text := base_text_of a in
  generate_variants_from a base_text.

Definition mark_ready (a : assignment) : assignment :=
  Assignment (a_id a) (a_title a) (a_subject a) (a_teacher_id a) (a_original_content a)
    (a_file_path a) Ready (a_error_message a).

Definition mark_failed (message : list N) (a : assignment) : assignment :=
  Assignment (a_id a) (a_title a) (a_subject a) (a_teacher_id a) (a_original_content a)
    (a_file_path a) Failed (Some message).

(** The [except] branch of [create_assignment]. *)
Definition on_generation_failure (a : assignment) (e : exn) : M assignment :=
  let* _ := Session.rollback in
  let* _ := Session.set_assignment (a_id a) (mark_failed (exn_msg e)) in
  let* _ := Session.commit in
  raise e.

(** The head of [create_assignment]: the record is added in state
    [generating] and flushed, so that its id exists. *)
Definition start_assignment (title subject : list N) (teacher_id original_text file_path
  : option (list N)) : M assignment :=
  let* id := new_uuid in
  let a := Assignment id title subject teacher_id original_text file_path Generating None in
  let* _ := Session.add (AssignmentRow a) in
  let* _ := Session.flush in
  ret a.

(** The [try] branch of [create_assignment]. *)
Definition generate_and_mark_ready (a : assignment) : M assignment :=
  let* _ := _generate_all_variants a in
  let* _ := Session.set_assignment (a_id a) mark_ready in
  let* _ := Session.commit in
  ret (mark_ready a).

Definition create_assignment (title subject : list N) (teacher_id original_text file_path
  : option (list N)) : M assignment :=
  let* a := start_assignment title subject teacher_id original_text file_path in
  try_except (generate_and_mark_ready a) (on_generation_failure a).

Definition set_quiz_content (content_text assets : list N) (v : version) : version :=
  Version (v_id v) (v_assignment_id v) (v_variant_type v) (v_subject v)
    (Some content_text) (JStr assets) (v_ready v).

(** [regenerate_variant]: the updated version when one existed; the
    creation path returns what [_persist_variant] returns, which is
    nothing. *)
Definition regenerate_variant (a : assignment) (variant_type difficulty : list N)
  : M (option version) :=
  let* base_text := base_text_of a in
  let a_dir := os_path_join upload_root (a_id a) in
  let* existing_version := get (fun w => Session.first_version (a_id a) variant_type (working w)) in
  if bool_decide (variant_type = lit "quiz") then
    let* quiz := _gen_quiz (a_subject a) base_text difficulty in
    let* quiz_path :=
      _write_json quiz (os_path_join a_dir (lit "quiz_" ++ difficulty ++ lit ".json")) in
    match existing_version with
    | Some v =>
        let content_text := json_dumps (JObj quiz) in
        let assets := json_dumps (JObj (<[lit "quiz_json" := JStr quiz_path]> ∅)) in
        let* _ := Session.set_version (v_id v) (set_quiz_content content_text assets) in
        let* _ := Session.commit in
        ret (Some (set_quiz_content content_text assets v))
    | None =>
        let* _ := _persist_variant a (lit "quiz") (a_subject a)
                    (Some (json_dumps (JObj quiz)))
                    (<[lit "quiz_json" := JStr quiz_path]> ∅) in
        ret None
    end
  else raise (Exn ValueError (lit "Regeneration not supported for variant type: " ++ variant_type)).

End Service.

(** ** Concrete collaborators for the examples *)

Module Demo.
Import PyStr.

(** JSON text written with an apostrophe for each double quote. *)
Definition jlit (s : string) : list N :=
  (fun c => if c =? 39 then dquote else c) <$> lit s.

Definition text_response (s : list N) : backend_outcome :=
  Responds (Response (QuickText s) []).

Definition deadline_exceeded : exn := Exn BackendError (lit "504 Deadline Exceeded").

(** Collaborators with the reference decoder, no speech key, a renderer
    and a muxer that are not installed, the given text in every file, and
    the given generation backend. *)
Definition env_full (file_text : option (list N))
  (backend : nat → model → prompt → backend_outcome) : Env :=
  {| json_loads_of := JsonDecoder.json_loads;
     json_dumps := fun _ => lit "<json>";
     py_str := fun _ => lit "<repr>";
     isprintable := fun c => (32 <=? c) && negb (c =? 127);
     generate_content := backend;
     extract_text := fun _ => file_text;
     uuid4 := fun n => lit "id-" ++ replicate n 105;
     elevenlabs_api_key := false;
     text_to_speech := fun _ _ => None;
     podcast_to_speech := fun _ _ => None;
     manim := fun _ _ => ManimNotFound;
     ffmpeg := fun _ _ _ => FfmpegNotFound;
     upload_root := lit "/srv/uploads" |}.

Definition env_with (backend : nat → model → prompt → backend_outcome) : Env :=
  env_full None backend.

(** A backend that answers every call with the same text. *)
Definition env_answering (s : list N) : Env := env_with (fun _ _ _ => text_response s).

(** A backend that times out on every call. *)
Definition env_timing_out : Env := env_with (fun _ _ _ => BackendRaises deadline_exceeded).

(** A backend that answers its first [n] calls with the same text and
    times out on every later one. *)
Definition env_failing_from (n : nat) (s : list N) : Env :=
  env_with (fun k _ _ => if (k <? n)%nat then text_response s
                         else BackendRaises deadline_exceeded).

(** An answer in the format the history prompt asks for. *)
Definition history_answer : list N :=
  jlit ("{'summary': 'Timeline and key figures to memorize', 'quiz_type': 'timeline_fill', "
        +:+ "'timeline_events': [{'year': '1776', 'event_description': "
        +:+ "'The ___ of Independence was signed', 'answer': 'Declaration'}, "
        +:+ "{'year': '1945', 'event_description': '___ ended', 'answer': 'World War II'}], "
        +:+ "'famous_people': [{'description': '___ led the civil rights movement', "
        +:+ "'answer': 'Martin Luther King Jr.', 'significance': 'Nonviolent protest'}]}").

(** An answer to a math quiz prompt that names another quiz type. *)
Definition standard_answer : list N :=
  jlit ("{'summary': 'Quiz', 'quiz_type': 'standard', "
        +:+ "'questions': [{'question': 'What is 2+2?', 'answer': '4'}]}").

Definition empty_db : database := Database [] [].

Definition empty_world : world := World empty_db empty_db [] 0 [] [] ∅ [].

(** An assignment with a raw text and no file. *)
Definition factoring : assignment :=
  Assignment (lit "a1") (lit "Factoring") (lit "math") None
    (Some (lit "Solve x^2+5x+6=0 by factoring")) None Ready None.

Definition sample_fallback : gmap (list N) json :=
  <[lit "summary" := JStr (lit "fallback")]> (<[lit "questions" := JArr []]> ∅).

End Demo.

(** ** Serialization of the rows

    [to_dict] of [models.py], as the endpoints of [api/assignments.py] call
    it.  The two time stamps of a row are not modelled, so their keys are
    left out of the dicts. *)

Module Models.
Import PyStr.

(** A float lexeme denotes a number that Python's [float] rounds to zero:
    its digits are all zero, or it lies at or below half the smallest
    subnormal, 2^-1075.  [NaN] and the infinities have no digits. *)
Definition float_is_zero (lexeme : list N) : bool :=
  let s := match lexeme with 45 :: r => r | _ => lexeme end in
  let '(int_part, s1) := JsonDecoder.span_digits s in
  match int_part with
  | [] => false
  | _ =>
      let '(frac, s2) :=
        match s1 with
        | 46 :: r => JsonDecoder.span_digits r
        | _ => ([], s1)
        end in
      let exponent :=
        match s2 with
        | _ :: 45 :: r => (- JsonDecoder.digits_value (JsonDecoder.span_digits r).1)%Z
        | _ :: 43 :: r => JsonDecoder.digits_value (JsonDecoder.span_digits r).1
        | _ :: r => JsonDecoder.digits_value (JsonDecoder.span_digits r).1
        | [] => 0%Z
        end in
      let mantissa := JsonDecoder.digits_value (int_part ++ frac) in
      let k := (exponent - Z.of_nat (length frac))%Z in
      (mantissa =? 0)%Z
      || ((k <? 0)%Z && (mantissa * 2 ^ 1075 <=? 10 ^ (- k))%Z)
  end.

(** Truthiness of a value ([if v], [v or d]). *)
Definition truthy (v : json) : bool :=
  match v with
  | JNull => false
  | JBool b => b
  | JInt z => negb (z =? 0)%Z
  | JFloat lexeme => negb (float_is_zero lexeme)
  | JStr s => match s with [] => false | _ => true end
  | JArr l => match l with [] => false | _ => true end
  | JObj m => negb (bool_decide (size m = 0%nat))
  end.

(** The URL of an asset: what follows the first [/uploads/] of a path,
    under [/uploads/]; any other value is kept. *)
Definition asset_url (path : json) : json :=
  match path with
  | JStr (c :: p) =>
      match find (lit "/uploads/") (c :: p) with
      | Some i => JStr (lit "/uploads/" ++ drop (i + 9) (c :: p))
      | None => path
      end
  | _ => path
  end.

Definition optional_str (o : option (list N)) : json :=
  match o with
  | Some s => JStr s
  | None => JNull
  end.

(** [AssignmentVersion.to_dict()]: [(self.assets or {}).items()] needs a
    mapping. *)
Definition version_to_dict (v : version) : result (gmap (list N) json) :=
  match (if truthy (v_assets v) then v_assets v else JObj ∅) with
  | JObj assets =>
      Return (<[lit "id" := JStr (v_id v)]>
               (<[lit "assignment_id" := JStr (v_assignment_id v)]>
                 (<[lit "variant_type" := JStr (v_variant_type v)]>
                   (<[lit "subject" := JStr (v_subject v)]>
                     (<[lit "content_text" := optional_str (v_content_text v)]>
                       (<[lit "assets" := JObj (asset_url <$> assets)]>
                         (<[lit "ready" := JBool (v_ready v)]> ∅)))))))
  | _ => Raise (Exn AttributeError (lit "object has no attribute 'items'"))
  end.

(** [quiz_version.to_dict()] in the regeneration endpoint, where
    [quiz_version] is what [regenerate_variant] returned. *)
Definition returned_version_to_dict (quiz_version : option version)
  : result (gmap (list N) json) :=
  match quiz_version with
  | Some v => version_to_dict v
  | None => Raise (Exn AttributeError (lit "'NoneType' object has no attribute 'to_dict'"))
  end.

Definition status_name (s : status) : list N :=
  match s with
  | Pending => lit "pending"
  | Generating => lit "generating"
  | Ready => lit "ready"
  | Failed => lit "failed"
  end.

(** [[v.to_dict() for v in versions]]: the first failure ends it. *)
Fixpoint versions_to_dicts (vs : list version) : result (list json) :=
  match vs with
  | [] => Return []
  | v :: rest =>
      match version_to_dict v with
      | Return d =>
          match versions_to_dicts rest with
          | Return l => Return (JObj d :: l)
          | Raise e => Raise e
          end
      | Raise e => Raise e
      end
  end.

(** The versions of an assignment, oldest first (the rows are kept in the
    order of their creation). *)
Definition versions_of (d : database) (a : assignment) : list version :=
  filter (fun v => v_assignment_id v = a_id a) (versions d).

(** [Assignment.to_dict(include_versions)] *)
Definition assignment_to_dict (d : database) (a : assignment) (include_versions : bool)
  : result (gmap (list N) json) :=
  let data :=
    <[lit "id" := JStr (a_id a)]>
      (<[lit "teacher_id" := optional_str (a_teacher_id a)]>
        (<[lit "title" := JStr (a_title a)]>
          (<[lit "subject" := JStr (a_subject a)]>
            (<[lit "status" := JStr (status_name (a_status a))]> ∅)))) in
  if include_versions then
    match versions_to_dicts (versions_of d a) with
    | Return l => Return (<[lit "versions" := JArr l]> data)
    | Raise e => Raise e
    end
  else Return data.

End Models.

(** ** Vocabulary for the variants an assignment has *)

(** The types of the four variants, in the order the pipeline persists
    them. *)
Definition variant_types : list (list N) :=
  [PyStr.lit "simplified"; PyStr.lit "audio"; PyStr.lit "visual"; PyStr.lit "quiz"].

(** [v] is a ready variant of type [vtype] of the assignment [a], written
    by [_persist_variant] (its assets are a mapping). *)
Definition variant_of (a : assignment) (vtype : list N) (v : version) : Prop :=
  v_assignment_id v = a_id a ∧ v_variant_type v = vtype ∧ v_subject v = a_subject a
  ∧ v_ready v = true ∧ ∃ assets, v_assets v = JObj assets.

(** Since [w0], exactly the variants of the types [types] have been
    persisted for [a], in that order, and the session is at rest. *)
Definition persisted (a : assignment) (w0 : world) (types : list (list N)) (w : world) : Prop :=
  pending w = []
  ∧ ∃ l, Forall2 (variant_of a) types l
         ∧ working w = Database (assignments (working w0)) (versions (working w0) ++ l)
         ∧ (types = [] → committed w = committed w0)
         ∧ (types ≠ [] → committed w = working w).

(** What a run that started from [w0] has committed: nothing when [types]
    is empty; otherwise the rows of the transaction of [w0], followed by
    variants of [a] of the types [types], in that order. *)
Definition left_committed (a : assignment) (w0 : world) (types : list (list N)) (w : world)
  : Prop :=
  ∃ l, Forall2 (variant_of a) types l
       ∧ (types = [] → committed w = committed w0)
       ∧ (types ≠ [] →
            committed w = Database (assignments (working w0)) (versions (working w0) ++ l)).

(** [d] is the dict of a ready variant of type [vtype] of [a]. *)
Definition variant_dict (a : assignment) (vtype : list N) (d : json) : Prop :=
  ∃ m, d = JObj m
       ∧ m !! PyStr.lit "assignment_id" = Some (JStr (a_id a))
       ∧ m !! PyStr.lit "variant_type" = Some (JStr vtype)
       ∧ m !! PyStr.lit "ready" = Some (JBool true).

(** Every version belongs to an assignment of the database. *)
Definition referential (d : database) : Prop :=
  ∀ v, v ∈ versions d → has_assignment (v_assignment_id v) d.

(** The prompts sent between two worlds all carry, as their lesson, at
    most the first [n] characters of [text]. *)
Definition sent_within (n : nat) (text : list N) (w w' : world) : Prop :=
  ∃ l, gen_log w' = gen_log w ++ l
       ∧ Forall (fun mp : model * prompt =>
                   ∃ k, (k ≤ n)%nat ∧ p_lesson mp.2 = take k text) l.

(** Between two worlds, no file changed but, possibly, those at [paths]. *)
Definition writes_only (paths : list (list N)) (w w' : world) : Prop :=
  ∀ p, p ∉ paths → files w' !! p = files w !! p.

(** The files a creation may write in the directory of its assignment. *)
Definition pipeline_files (a_dir : list N) : list (list N) :=
  os_path_join a_dir <$>
    [PyStr.lit "podcast.mp3"; PyStr.lit "narration.mp3"; PyStr.lit "scene.py";
     PyStr.lit "visual_silent.mp4"; PyStr.lit "visual.mp4"; PyStr.lit "quiz.json"].

(** No request went to the generation backend. *)
Definition quiet (w w' : world) : Prop := gen_log w' = gen_log w.

(** Every run of [m] sends at most [hi] requests to the generation
    backend, and at least [lo] when it returns. *)
Definition sends {A} (lo hi : nat) (m : M A) : Prop :=
  ∀ w r w', m w = (r, w') →
    ∃ l, gen_log w' = gen_log w ++ l ∧ (length l ≤ hi)%nat
         ∧ (is_Some (returned r) → (lo ≤ length l)%nat).


(** ** Statements of the specification that the code does not satisfy

    They are stated here as the specification words them, and refuted in
    Part II next to what the code does instead. *)


(** The raw text, a blank line and the file text, unstripped; beyond 4000
    characters the first 4000 and the marker [[content truncated]]. *)
Definition specified_base_text (raw file_text : list N) : list N :=
  let combined := raw ++ [PyStr.newline; PyStr.newline] ++ file_text in
  if (4000 <? length combined)%nat then take 4000 combined ++ PyStr.lit "[content truncated]"
  else combined.

Definition base_text_as_specified : Prop :=
  ∀ (E : Env) (a : assignment) (raw path file_text : list N),
    a_original_content a = Some raw → raw ≠ [] →
    a_file_path a = Some path → path ≠ [] →
    extract_text path = Some file_text → file_text ≠ [] →
    base_text_value a = Return (specified_base_text raw file_text).

Definition long_assignment : assignment :=
  Assignment (PyStr.lit "a1") (PyStr.lit "Title") (PyStr.lit "math") None
    (Some (32 :: replicate 3999 97)) (Some (PyStr.lit "notes.txt")) Generating None.

(* ================================================================== *)
(** * Part II: properties                                               *)
(* ================================================================== *)

(** ** Strings *)

Lemma pystr_eqb_eq (a b : list N) : PyStr.eqb a b = true ↔ a = b.
Proof.
  revert b; induction a as [|x a IH]; intros [|y b]; simpl; try (split; congruence).
  rewrite andb_true_iff, N.eqb_eq, IH. split; [intros [-> ->]; done | intros [= -> ->]; done].
Qed.

Lemma blank_true (text : list N) : Repair.blank text = true ↔ PyStr.strip text = [].
Proof.
  unfold Repair.blank. rewrite orb_true_iff, !pystr_eqb_eq. split; [|tauto].
  intros [->|Hs]; [reflexivity | exact Hs].
Qed.

Lemma blank_false (text : list N) : Repair.blank text = false ↔ PyStr.strip text ≠ [].
Proof.
  rewrite <- blank_true. destruct (Repair.blank text); split; congruence.
Qed.

(** ** The repair-and-parse step *)

Section ParseJson.
Context {E : Env}.
Import PyStr Repair.

Lemma parse_json_blank (text : list N) (fallback_keys : gmap (list N) json) :
  strip text = [] → _parse_json text fallback_keys = fallback_keys.
Proof.
  intros Hs. unfold _parse_json. apply blank_true in Hs. by rewrite Hs.
Qed.

Lemma parse_json_loaded (text : list N) (fallback_keys : gmap (list N) json) (v : json) :
  strip text ≠ [] → json_loads_of (clean text) = Loaded v →
  _parse_json text fallback_keys = fields_of v ∪ fallback_keys.
Proof.
  intros Hs Hl. unfold _parse_json. apply blank_false in Hs. rewrite Hs, Hl.
  destruct v; simpl; try (by rewrite (left_id_L ∅ (∪))). reflexivity.
Qed.

(** The result is either the fall-back itself or an object overlaid on it. *)
Lemma parse_json_cases (text : list N) (fallback_keys : gmap (list N) json) :
  _parse_json text fallback_keys = fallback_keys
  ∨ ∃ d, strip text ≠ [] ∧ json_loads_of (clean text) = Loaded (JObj d)
         ∧ _parse_json text fallback_keys = d ∪ fallback_keys.
Proof.
  unfold _parse_json. destruct (blank text) eqn:Hb; [by left|].
  apply blank_false in Hb.
  destruct (json_loads_of (clean text)) as [v| |] eqn:Hl; [|by left..].
  destruct v; simpl; try (by left). right. eauto.
Qed.

Lemma parse_json_dom (text : list N) (fallback_keys : gmap (list N) json) :
  dom fallback_keys ⊆ dom (_parse_json text fallback_keys).
Proof.
  destruct (parse_json_cases text fallback_keys) as [->|(d & _ & _ & ->)]; [done|].
  rewrite dom_union_L. set_solver.
Qed.

(** C1: whatever the backend answered, the mapping returned by
    [_parse_json] has every key of the fall-back; when the text is not
    blank and its repaired form decodes, the result is the fall-back
    overlaid with the decoded fields, which win on a collision; when the
    text is empty or white space only, the fall-back comes back unchanged. *)
Theorem C1_parse_json_overlays_fallback (text : list N) (fallback_keys : gmap (list N) json) :
  dom fallback_keys ⊆ dom (_parse_json text fallback_keys)
  ∧ (∀ v, strip text ≠ [] → json_loads_of (clean text) = Loaded v →
       _parse_json text fallback_keys = fields_of v ∪ fallback_keys
       ∧ ∀ k x, fields_of v !! k = Some x → _parse_json text fallback_keys !! k = Some x)
  ∧ (strip text = [] → _parse_json text fallback_keys = fallback_keys).
Proof.
  split; [apply parse_json_dom|]. split; [|apply parse_json_blank].
  intros v Hs Hl. rewrite (parse_json_loaded _ _ v Hs Hl). split; [done|].
  intros k x Hk. by apply lookup_union_Some_l.
Qed.

(** C10: when the repaired text decodes to a value that is not an object,
    the merge fails inside the function and the fall-back is returned
    unchanged; [_parse_json] is total and always returns a mapping. *)
Theorem C10_non_object_gives_fallback (text : list N) (fallback_keys : gmap (list N) json)
  (v : json) :
  json_loads_of (clean text) = Loaded v → is_object v = false →
  dict_merge fallback_keys v = None ∧ _parse_json text fallback_keys = fallback_keys.
Proof.
  intros Hl Hv. split; [by destruct v|].
  unfold _parse_json. destruct (blank text); [done|]. rewrite Hl. by destruct v.
Qed.

End ParseJson.

(** C1 on a fenced answer with a trailing comma, and on a blank one. *)
Lemma C1_witness :
  @_parse_json (Demo.env_answering []) (Demo.jlit "```json {'summary': 'S', 'n': 1,} ```")
     Demo.sample_fallback
  = <[PyStr.lit "summary" := JStr (PyStr.lit "S")]>
      (<[PyStr.lit "n" := JInt 1]> (<[PyStr.lit "questions" := JArr []]> ∅))
  ∧ @_parse_json (Demo.env_answering []) (PyStr.lit "   ") Demo.sample_fallback
    = Demo.sample_fallback.
Proof.
  split.
  - etransitivity.
    + apply (C1_parse_json_overlays_fallback (E := Demo.env_answering []))
        with (v := JObj (<[PyStr.lit "summary" := JStr (PyStr.lit "S")]>
                           (<[PyStr.lit "n" := JInt 1]> ∅)));
        [vm_compute; discriminate | vm_compute; reflexivity].
    + vm_compute. reflexivity.
  - apply (C1_parse_json_overlays_fallback (E := Demo.env_answering [])).
    vm_compute. reflexivity.
Defined.

(** C10 on a bare array. *)
Lemma C10_witness :
  @_parse_json (Demo.env_answering []) (Demo.jlit "[1, 'two', null]") Demo.sample_fallback
  = Demo.sample_fallback.
Proof.
  apply (C10_non_object_gives_fallback (E := Demo.env_answering []))
    with (v := JArr [JInt 1; JStr (PyStr.lit "two"); JNull]);
    [vm_compute; reflexivity | reflexivity].
Defined.

(** ** The generation client *)

Section GenerationClient.
Context {E : Env}.
Import PyStr Repair.



End GenerationClient.


(** ** The quiz generator *)

Section QuizGenerator.
Context {E : Env}.
Import PyStr Repair.

(** The loop of the quiz generator, unrolled: at most two cycles; the
    first result is returned at once when it counts an item; otherwise the
    result of the second cycle is returned whatever it counts. *)
Lemma gen_quiz_unfold (subject text difficulty : list N) (w : world) :
  _gen_quiz subject text difficulty w =
    match quiz_cycle subject text difficulty w with
    | (Raise e, w1) => (Raise e, w1)
    | (Return (r1, n1), w1) =>
        if (0 <? n1)%nat then (Return r1, w1)
        else match quiz_cycle subject text difficulty w1 with
             | (Raise e, w2) => (Raise e, w2)
             | (Return (r2, _), w2) => (Return r2, w2)
             end
    end.
Proof.
  unfold _gen_quiz. simpl. unfold bind at 1.
  destruct (quiz_cycle subject text difficulty w) as [[[r1 n1]|e] w1]; [|reflexivity].
  destruct (0 <? n1)%nat; [reflexivity|]. unfold bind at 1.
  destruct (quiz_cycle subject text difficulty w1) as [[[r2 n2]|e] w2]; [|reflexivity].
  by destruct (0 <? n2)%nat.
Qed.

Lemma quiz_cycle_result (subject text difficulty : list N) (w w' : world)
  (r : gmap (list N) json) (n : nat) :
  quiz_cycle subject text difficulty w = (Return (r, n), w') →
  (∃ t, r = _parse_json t (quiz_fallback subject)) ∧ py_len (question_items r) = Some n.
Proof.
  unfold quiz_cycle, bind, len_of.
  destruct (_call_gemini_with_retry _ _ w) as [[t|e] w1]; [|discriminate].
  destruct (py_len _) as [k|] eqn:Hk; unfold ret, raise; intros [= <- <- <-]; eauto.
Qed.



(** The types of the schemas, whatever the case of the subject. *)
Lemma quiz_schema_types (subject : list N) :
  qf_type (quiz_formats subject) =
    if bool_decide (lower subject = lit "language") then lit "socratic"
    else if bool_decide (lower subject = lit "math") then lit "practice"
    else if bool_decide (lower subject = lit "science") then lit "practice_repeatable"
    else if bool_decide (lower subject = lit "history") then lit "timeline_fill"
    else if bool_decide (lower subject = lit "geography") then lit "practice_repeatable"
    else lit "standard".
Proof. unfold quiz_formats. by repeat case_bool_decide. Qed.


End QuizGenerator.



(** C3, at the input where the code departs from it: for the subject
    history, an answer in the very format the history prompt asks for has
    two timeline events, yet the cycle counts no item, because the
    fall-back has put an empty [questions] in the result; the generator
    runs the second cycle (a second call of the backend) instead of
    returning the first result at once. *)
Theorem C3_history_timeline_is_retried :
  let E := Demo.env_answering Demo.history_answer in
  let cycle := quiz_cycle (PyStr.lit "history") (PyStr.lit "1776") (PyStr.lit "medium")
                 Demo.empty_world in
  let run := _gen_quiz (PyStr.lit "history") (PyStr.lit "1776") (PyStr.lit "medium")
               Demo.empty_world in
  (λ p : gmap (list N) json * nat,
     (py_len (dict_get p.1 "timeline_events" (JArr [])), p.1 !! PyStr.lit "questions", p.2))
    <$> returned cycle.1
  = Some (Some 2%nat, Some (JArr []), 0%nat)
  ∧ length (gen_log cycle.2) = 1%nat
  ∧ (λ r : gmap (list N) json, py_len (dict_get r "timeline_events" (JArr [])))
      <$> returned run.1
    = Some (Some 2%nat)
  ∧ length (gen_log run.2) = 2%nat.
Proof.
  intros E cycle run. repeat split; vm_compute; reflexivity.
Qed.

(** ** The mux step *)

Section Mux.
Context {E : Env}.
Import PyStr.

Lemma add_audio_placeholder (video audio out_dir name : list N) (w : world) (f : file) :
  files w !! video = Some f → file_size f < 10000 →
  _add_audio_to_video video audio out_dir name w = (Return video, w).
Proof.
  intros Hf Hs. unfold _add_audio_to_video, bind, os_path_exists, os_path_getsize, get.
  rewrite bool_decide_eq_true_2 by (rewrite Hf; eauto). simpl. rewrite Hf.
  apply N.ltb_lt in Hs. by rewrite Hs.
Qed.

Lemma add_audio_total (video audio out_dir name : list N) (w : world) :
  ∃ p w', _add_audio_to_video video audio out_dir name w = (Return p, w').
Proof.
  unfold _add_audio_to_video, bind, os_path_exists, os_path_getsize, get, run_tool, ret.
  destruct (bool_decide _); simpl; [|eauto].
  destruct (_ <? 10000); [eauto|].
  destruct (ffmpeg _ _ _) as [code [size|]| | |]; simpl; unfold write_file, modify, bind; simpl;
    try destruct (_ && _); eauto.
Qed.

Lemma add_audio_failed (video audio out_dir name : list N) (w : world) :
  ffmpeg_failed (ffmpeg (length (tool_log w)) video audio) = true →
  (_add_audio_to_video video audio out_dir name w).1 = Return video.
Proof.
  intros Hf.
  unfold _add_audio_to_video, bind, os_path_exists, os_path_getsize, get, run_tool, ret.
  destruct (bool_decide _); simpl; [|done].
  destruct (_ <? 10000); [done|].
  destruct (ffmpeg _ _ _) as [code [size|]| | |]; simpl in *; try done;
    unfold write_file, modify, bind; simpl;
    destruct (bool_decide (code = 0%Z)); simpl in *; done.
Qed.

(** C8: a video below the size floor is returned as it is and the muxer
    is not run, in [_add_audio_to_video] and already in the orchestrator
    (which also skips a video of exactly the floor size); when the muxer
    fails in any way the silent video is returned; the step never raises. *)
Theorem C8_mux_keeps_silent_video (video audio out_dir name : list N) (w : world) :
  (∀ f, files w !! video = Some f → file_size f < 10000 →
     _add_audio_to_video video audio out_dir name w = (Return video, w))
  ∧ (∀ st a_dir f, files w !! vs_video_mp4 st = Some f → file_size f ≤ 10000 →
       mux_step st a_dir w = (Return (vs_video_mp4 st), w))
  ∧ (ffmpeg_failed (ffmpeg (length (tool_log w)) video audio) = true →
       (_add_audio_to_video video audio out_dir name w).1 = Return video)
  ∧ raised (_add_audio_to_video video audio out_dir name w).1 = None.
Proof.
  split; [intros f; apply add_audio_placeholder|].
  split; [|split; [apply add_audio_failed|]].
  - intros st a_dir f Hf Hs. unfold mux_step.
    destruct (vs_narration_audio st) as [[|c p]|]; try reflexivity.
    unfold bind, os_path_exists, os_path_getsize, get. simpl.
    destruct (bool_decide (is_Some (files w !! (c :: p)))); [|reflexivity].
    rewrite Hf. rewrite bool_decide_eq_true_2 by eauto. simpl.
    apply N.ltb_ge in Hs. by rewrite Hs.
  - destruct (add_audio_total video audio out_dir name w) as (p & w' & ->). reflexivity.
Qed.

End Mux.

(** C8 on a 40-byte placeholder video, with a muxer that is not installed
    for the second part. *)
Lemma C8_witness :
  let E := Demo.env_answering [] in
  let video := PyStr.lit "/srv/uploads/a/visual_silent.mp4" in
  let audio := PyStr.lit "/srv/uploads/a/narration.mp3" in
  let w := with_files (<[video := BinaryFile 40]> (<[audio := BinaryFile 500]> ∅))
             Demo.empty_world in
  let w2 := with_files (<[video := BinaryFile 250000]> (<[audio := BinaryFile 500]> ∅))
              Demo.empty_world in
  _add_audio_to_video video audio (PyStr.lit "/srv/uploads/a") (PyStr.lit "visual.mp4") w
  = (Return video, w)
  ∧ mux_step (VisualState ∅ video (PyStr.lit "/srv/uploads/a/scene.py") (Some audio))
      (PyStr.lit "/srv/uploads/a") w
    = (Return video, w)
  ∧ (_add_audio_to_video video audio (PyStr.lit "/srv/uploads/a") (PyStr.lit "visual.mp4") w2).1
    = Return video.
Proof.
  intros E video audio w w2. split; [|split].
  - apply (C8_mux_keeps_silent_video video audio _ _ w) with (f := BinaryFile 40);
      [vm_compute; reflexivity | vm_compute; reflexivity].
  - apply (C8_mux_keeps_silent_video video audio [] [] w) with
      (st := VisualState ∅ video (PyStr.lit "/srv/uploads/a/scene.py") (Some audio))
      (f := BinaryFile 40);
      [vm_compute; reflexivity | vm_compute; discriminate].
  - apply (C8_mux_keeps_silent_video video audio _ _ w2). vm_compute. reflexivity.
Defined.

(** ** Effects of the pipeline, one primitive at a time *)

Section Steps.
Context {E : Env} (R : world → world → Prop) (sendable : prompt → Prop).
Hypothesis F : frame R sendable.
Import PyStr.

Lemma step_ret {A} (a : A) : step R (ret a).
Proof. intros w r w' [= <- <-]. apply (frame_refl _ _ F). Qed.

Lemma step_raise {A} (e : exn) : step R (@raise A e).
Proof. intros w r w' [= <- <-]. apply (frame_refl _ _ F). Qed.

Lemma step_lift {A} (x : result A) : step R (lift x).
Proof. intros w r w' [= <- <-]. apply (frame_refl _ _ F). Qed.

Lemma step_get {A} (f : world → A) : step R (get f).
Proof. intros w r w' [= <- <-]. apply (frame_refl _ _ F). Qed.

Lemma step_modify (f : world → world) : (∀ w, R w (f w)) → step R (modify f).
Proof. intros Hf w r w' [= <- <-]. apply Hf. Qed.

Lemma step_bind {A B} (m : M A) (k : A → M B) :
  step R m → (∀ a, step R (k a)) → step R (bind m k).
Proof.
  intros Hm Hk w r w'. unfold bind. destruct (m w) as [[a|e] w1] eqn:Hw.
  - intros Hr. eapply (frame_trans _ _ F); [eapply Hm, Hw | eapply Hk, Hr].
  - intros [= <- <-]. eapply Hm, Hw.
Qed.

Lemma step_try_except {A} (m : M A) (handler : exn → M A) :
  step R m → (∀ e, step R (handler e)) → step R (try_except m handler).
Proof.
  intros Hm Hh w r w'. unfold try_except. destruct (m w) as [[a|e] w1] eqn:Hw.
  - intros [= <- <-]. eapply Hm, Hw.
  - intros Hr. eapply (frame_trans _ _ F); [eapply Hm, Hw | eapply Hh, Hr].
Qed.

Ltac step_go :=
  repeat match goal with
    | |- step _ (ret _) => apply step_ret
    | |- step _ (raise _) => apply step_raise
    | |- step _ (lift _) => apply step_lift
    | |- step _ (get _) => apply step_get
    | |- step _ (bind _ _) => apply step_bind; [|intros ?]
    | |- step _ (try_except _ _) => apply step_try_except; [|intros ?]
    | |- step _ (match ?x with _ => _ end) => destruct x
    | |- step _ _ => solve [eauto]
    end.

Lemma step_new_uuid : step R new_uuid.
Proof. intros w r w' [= <- <-]. apply (frame_uuids _ _ F). Qed.

Lemma step_time_sleep (n : nat) : step R (time_sleep n).
Proof. apply step_modify. intros w. apply (frame_sleep _ _ F). Qed.

Lemma step_write_file (p : list N) (f : file) : step R (write_file p f).
Proof. apply step_modify. intros w. apply (frame_files _ _ F). Qed.

Lemma step_os_path_exists (p : list N) : step R (os_path_exists p).
Proof. apply step_get. Qed.

Lemma step_os_path_getsize (p : list N) : step R (os_path_getsize p).
Proof. apply step_get. Qed.

Lemma step_run_tool {A} (call : tool_call) (outcome : nat → A) : step R (run_tool call outcome).
Proof. intros w r w' [= <- <-]. apply (frame_tools _ _ F). Qed.

Lemma step_len_of (v : json) : step R (len_of v).
Proof. unfold len_of. step_go. Qed.

Lemma step_join_segments (l : list json) : step R (join_segments l).
Proof. apply step_lift. Qed.

Lemma step_gemini_attempt (p : prompt) (m : model) : sendable p → step R (gemini_attempt p m).
Proof. intros Hp w r w' [= <- <-]. by apply (frame_gen _ _ F). Qed.

Lemma step_gemini_attempts (p : prompt) (m : model) (n : nat) (attempts : list nat) :
  sendable p → step R (gemini_attempts p m n attempts).
Proof.
  intros Hp. induction attempts as [|attempt rest IH]; simpl; [apply step_ret|].
  apply step_try_except; [by apply step_gemini_attempt|]. intros e.
  destruct (bool_decide _); [apply step_raise|].
  apply step_bind; [apply step_time_sleep | by intros _].
Qed.

Lemma step_call_gemini (p : prompt) (m : model) :
  sendable p → step R (_call_gemini_with_retry p m).
Proof. apply step_gemini_attempts. Qed.

Local Hint Resolve step_new_uuid step_time_sleep step_write_file step_os_path_exists
  step_os_path_getsize step_run_tool step_len_of step_join_segments step_call_gemini : core.

Lemma step_synthesize_audio (script out_dir name : list N) :
  step R (_synthesize_audio script out_dir name).
Proof. unfold _synthesize_audio. step_go. Qed.

Local Hint Resolve step_synthesize_audio : core.

Lemma step_synthesize_podcast (discussion : list json) (out_dir name : list N) :
  step R (_synthesize_podcast discussion out_dir name).
Proof. unfold _synthesize_podcast. step_go. Qed.

Lemma step_render_manim (code : json) (out_dir name : list N) :
  step R (_render_manim code out_dir name).
Proof. unfold _render_manim. step_go. Qed.

Lemma step_add_audio_to_video (video audio out_dir name : list N) :
  step R (_add_audio_to_video video audio out_dir name).
Proof. unfold _add_audio_to_video. step_go. Qed.

Lemma step_write_json (data : gmap (list N) json) (path : list N) :
  step R (_write_json data path).
Proof. unfold _write_json. step_go. Qed.

Local Hint Resolve step_synthesize_podcast step_render_manim step_add_audio_to_video
  step_write_json : core.

Lemma step_synthesize_audio_variant (audio : gmap (list N) json) (a_dir : list N) :
  step R (synthesize_audio_variant audio a_dir).
Proof. unfold synthesize_audio_variant. step_go. Qed.

Lemma step_mux_step (st : visual_state) (a_dir : list N) : step R (mux_step st a_dir).
Proof. unfold mux_step. step_go. Qed.

Local Hint Resolve step_synthesize_audio_variant step_mux_step : core.

(** The generators, for a text whose prefixes may be sent. *)
Section Generators.
Variable text : list N.
Hypothesis sendable_prefix : ∀ p, (∃ k, p_lesson p = take k text) → sendable p.

Lemma step_gen_simplified_text (subject : list N) : step R (_gen_simplified_text subject text).
Proof.
  unfold _gen_simplified_text. apply step_bind; [|intros ?; step_go].
  apply step_call_gemini, sendable_prefix. by eexists.
Qed.

Lemma step_gen_audio_script (subject : list N) : step R (_gen_audio_script subject text).
Proof.
  unfold _gen_audio_script. apply step_bind; [|intros ?; step_go].
  apply step_call_gemini, sendable_prefix. by eexists.
Qed.

Lemma step_gen_visual_plan (subject : list N) : step R (_gen_visual_plan subject text).
Proof.
  unfold _gen_visual_plan. apply step_bind; [|intros ?; step_go].
  apply step_call_gemini, sendable_prefix. by eexists.
Qed.

Lemma step_quiz_cycle (subject difficulty : list N) :
  step R (quiz_cycle subject text difficulty).
Proof.
  unfold quiz_cycle. apply step_bind; [|intros ?; step_go].
  apply step_call_gemini, sendable_prefix. by eexists.
Qed.

Lemma step_quiz_attempts (subject difficulty : list N) (attempts : list nat)
  (last : option (gmap (list N) json)) :
  step R (quiz_attempts subject text difficulty attempts last).
Proof.
  revert last. induction attempts as [|attempt rest IH]; intros last; simpl; [step_go|].
  apply step_bind; [apply step_quiz_cycle|]. intros [result n].
  destruct (0 <? n)%nat; [apply step_ret | apply IH].
Qed.

Lemma step_gen_quiz (subject difficulty : list N) : step R (_gen_quiz subject text difficulty).
Proof. apply step_quiz_attempts. Qed.

Local Hint Resolve step_gen_visual_plan : core.

Lemma step_visual_attempt (a : assignment) (a_dir : list N) (narration : option (list N)) :
  step R (visual_attempt a text a_dir narration).
Proof. unfold visual_attempt. step_go. Qed.

Lemma step_visual_attempts (a : assignment) (a_dir : list N) (attempts : list nat)
  (last : option visual_state) :
  step R (visual_attempts a text a_dir attempts last).
Proof.
  revert last. induction attempts as [|attempt rest IH]; intros last; simpl; [step_go|].
  apply step_bind; [apply step_visual_attempt|]. intros [st valid].
  destruct valid; [apply step_ret|]. destruct (bool_decide _); [apply step_ret | apply IH].
Qed.

End Generators.

(** The steps that use the session. *)
Section Database.
Hypothesis D : db_frame R.

Lemma step_session_add (r : row) : step R (Session.add r).
Proof. apply step_modify. intros w. apply (frame_pending _ D). Qed.

Lemma insert_rows_step (rs : list row) (w : world) (d : database) :
  Session.insert_rows rs (working w) = Some d →
  R w (with_db (committed w) d (pending w) w).
Proof.
  revert w. induction rs as [|r rs IH]; intros w; simpl.
  - intros [= <-]. apply (frame_pending _ D).
  - destruct (Session.insert_row r (working w)) as [d1|] eqn:H1; [|discriminate].
    intros Hrs. eapply (frame_trans _ _ F); [apply (frame_insert _ D _ _ _ H1)|].
    apply (IH (with_db (committed w) d1 (pending w) w) Hrs).
Qed.

Lemma step_session_flush : step R Session.flush.
Proof.
  intros w r w'. unfold Session.flush.
  destruct (Session.insert_rows (pending w) (working w)) as [d|] eqn:Hd.
  - intros [= <- <-]. eapply (frame_trans _ _ F); [apply (insert_rows_step _ _ _ Hd)|].
    apply (frame_pending _ D (with_db (committed w) d (pending w) w) []).
  - intros [= <- <-]. apply (frame_refl _ _ F).
Qed.

Lemma step_session_commit : step R Session.commit.
Proof.
  unfold Session.commit. apply step_bind; [apply step_session_flush|]. intros _.
  apply step_modify. intros w. eapply (frame_trans _ _ F); [apply (frame_publish _ D)|].
  apply (frame_pending _ D (with_db (working w) (working w) (pending w) w) []).
Qed.

Lemma step_persist_variant (a : assignment) (vtype subject : list N)
  (content_text : option (list N)) (assets : gmap (list N) json) :
  step R (_persist_variant a vtype subject content_text assets).
Proof.
  unfold _persist_variant. apply step_bind; [apply step_new_uuid|]. intros id.
  apply step_bind; [apply step_session_add|]. intros _. apply step_session_commit.
Qed.

Local Hint Resolve step_persist_variant step_gen_simplified_text step_gen_audio_script
  step_gen_quiz step_visual_attempts : core.

Section Text.
Variable text : list N.
Hypothesis sendable_prefix : ∀ p, (∃ k, p_lesson p = take k text) → sendable p.

Lemma step_generate_variants_from (a : assignment) : step R (generate_variants_from a text).
Proof. unfold generate_variants_from. step_go. Qed.

End Text.

Lemma step_bind_lift {A B} (x : result A) (k : A → M B) :
  (∀ a, x = Return a → step R (k a)) → step R (bind (lift x) k).
Proof.
  intros Hk. destruct x as [a|e].
  - intros w r w' Hr. eapply (Hk a eq_refl). exact Hr.
  - intros w r w' [= <- <-]. apply (frame_refl _ _ F).
Qed.

Lemma step_set_assignment (id : list N) (f : assignment → assignment) :
  (∀ a, a_id (f a) = a_id a) → step R (Session.set_assignment id f).
Proof. intros Hf. apply step_modify. intros w. by apply (frame_set_assignment _ D). Qed.

Lemma step_set_quiz_content (id content_text assets : list N) :
  step R (Session.set_version id (set_quiz_content content_text assets)).
Proof. apply step_modify. intros w. by apply (frame_set_version _ D). Qed.

Section Assignment.
Variable a : assignment.
Hypothesis sendable_text :
  ∀ t, base_text_value a = Return t → ∀ p, (∃ k, p_lesson p = take k t) → sendable p.

Lemma step_generate_all_variants : step R (_generate_all_variants a).
Proof.
  unfold _generate_all_variants, base_text_of. apply step_bind_lift. intros t Ht.
  apply step_generate_variants_from. by apply sendable_text.
Qed.

Lemma step_regenerate_variant (variant_type difficulty : list N) :
  step R (regenerate_variant a variant_type difficulty).
Proof.
  unfold regenerate_variant, base_text_of. apply step_bind_lift. intros t Ht.
  apply step_bind; [apply step_get|]. intros existing.
  destruct (bool_decide _); [|apply step_raise].
  apply step_bind; [apply step_gen_quiz; by apply sendable_text|]. intros quiz.
  apply step_bind; [apply step_write_json|]. intros quiz_path.
  destruct existing as [v|].
  - apply step_bind; [apply step_set_quiz_content|]. intros _.
    apply step_bind; [apply step_session_commit | intros _; apply step_ret].
  - apply step_bind; [apply step_persist_variant | intros _; apply step_ret].
Qed.

Lemma step_generate_and_mark_ready : step R (generate_and_mark_ready a).
Proof.
  unfold generate_and_mark_ready.
  apply step_bind; [apply step_generate_all_variants|]. intros _.
  apply step_bind; [by apply step_set_assignment|]. intros _.
  apply step_bind; [apply step_session_commit | intros _; apply step_ret].
Qed.

Hypothesis rollback_ok : ∀ w, R w (with_db (committed w) (committed w) [] w).

Lemma step_on_generation_failure (e : exn) : step R (on_generation_failure a e).
Proof.
  unfold on_generation_failure.
  apply step_bind; [by apply step_modify|]. intros _.
  apply step_bind; [by apply step_set_assignment|]. intros _.
  apply step_bind; [apply step_session_commit | intros _; apply step_raise].
Qed.

End Assignment.

Lemma step_start_assignment (title subject : list N) (teacher text path : option (list N)) :
  step R (start_assignment title subject teacher text path).
Proof.
  unfold start_assignment. apply step_bind; [apply step_new_uuid|]. intros id.
  apply step_bind; [apply step_session_add|]. intros _.
  apply step_bind; [apply step_session_flush | intros _; apply step_ret].
Qed.

Lemma step_create_assignment (title subject : list N) (teacher text path : option (list N)) :
  (∀ p, sendable p) → (∀ w, R w (with_db (committed w) (committed w) [] w)) →
  step R (create_assignment title subject teacher text path).
Proof.
  intros Hs Hr. unfold create_assignment.
  apply step_bind; [apply step_start_assignment|]. intros a.
  apply step_try_except; [by apply step_generate_and_mark_ready|].
  intros e. by apply step_on_generation_failure.
Qed.

End Database.
End Steps.

(** ** The text the generators work from *)

Section BaseText.
Context {E : Env}.
Import PyStr.

Lemma sent_from_frame (text : list N) :
  frame (sent_from text) (fun p => ∃ k, p_lesson p = take k text).
Proof.
  split; try (intros; exists []; split; [by rewrite app_nil_r | constructor]).
  - intros w1 w2 w3 (l1 & H1 & F1) (l2 & H2 & F2). exists (l1 ++ l2).
    split; [by rewrite H2, H1, app_assoc | by apply Forall_app].
  - intros w m p Hp. exists [(m, p)]. split; [done | by repeat constructor].
Qed.

Lemma sent_from_db_frame (text : list N) : db_frame (sent_from text).
Proof. split; intros; exists []; (split; [by rewrite app_nil_r | constructor]). Qed.

Lemma base_text_both (a : assignment) (raw path file_text : list N) :
  a_original_content a = Some raw → raw ≠ [] →
  a_file_path a = Some path → path ≠ [] →
  extract_text path = Some file_text → file_text ≠ [] →
  base_text_value a
  = Return (truncate_text (strip raw ++ [newline; newline] ++ strip file_text)).
Proof.
  intros Hr Hr' Hp Hp' Hf Hf'. unfold base_text_value, text_parts. rewrite Hr, Hp.
  destruct raw as [|c raw]; [done|]. destruct path as [|c' path]; [done|]. rewrite Hf.
  destruct file_text as [|t file_text]; [done|]. simpl.
  by destruct (strip (c :: raw)).
Qed.

(** C9, as the code has it: with a raw text and a file text, the text the
    generators work from is the stripped raw text, a blank line, and the
    stripped file text; beyond 4000 characters it is cut to its first 4000
    characters followed by a blank line and the marker
    [[Content truncated for processing]]; and every prompt that creation or
    regeneration sends to the backend carries a prefix of that final text. *)
Theorem C9_text_combined_and_truncated (a : assignment) (raw path file_text : list N) :
  a_original_content a = Some raw → raw ≠ [] →
  a_file_path a = Some path → path ≠ [] →
  extract_text path = Some file_text → file_text ≠ [] →
  let combined := strip raw ++ [newline; newline] ++ strip file_text in
  base_text_value a = Return (truncate_text combined)
  ∧ ((4000 < length combined)%nat →
       truncate_text combined
       = take 4000 combined ++ [newline; newline] ++ lit "[Content truncated for processing]")
  ∧ ((length combined ≤ 4000)%nat → truncate_text combined = combined)
  ∧ step (sent_from (truncate_text combined)) (_generate_all_variants a)
  ∧ ∀ variant_type difficulty,
      step (sent_from (truncate_text combined)) (regenerate_variant a variant_type difficulty).
Proof.
  intros Hr Hr' Hp Hp' Hf Hf' combined.
  pose proof (base_text_both a raw path file_text Hr Hr' Hp Hp' Hf Hf') as Hb.
  split; [exact Hb|].
  split; [intros Hl; apply Nat.ltb_lt in Hl; unfold truncate_text; by rewrite Hl|].
  split; [intros Hl; apply Nat.ltb_ge in Hl; unfold truncate_text; by rewrite Hl|].
  assert (Hs : ∀ t, base_text_value a = Return t →
               ∀ p, (∃ k, p_lesson p = take k t) →
                    ∃ k, p_lesson p = take k (truncate_text combined))
    by (intros t Ht p Hk; rewrite Hb in Ht; by injection Ht as <-).
  split; [|intros variant_type difficulty].
  - eapply step_generate_all_variants;
      [apply sent_from_frame | apply sent_from_db_frame | exact Hs].
  - eapply step_regenerate_variant;
      [apply sent_from_frame | apply sent_from_db_frame | exact Hs].
Qed.

End BaseText.

(** A raw text of a space and 3999 letters with a file text of five
    letters: the code strips the space and appends its own marker. *)
Lemma C9_counterexample : ¬ base_text_as_specified.
Proof.
  intros Hc.
  pose (E := Demo.env_full (Some (PyStr.lit "bbbbb")) (fun _ _ _ => BackendRaises Demo.deadline_exceeded)).
  specialize (Hc E long_assignment (32 :: replicate 3999 97) (PyStr.lit "notes.txt")
                (PyStr.lit "bbbbb") eq_refl ltac:(discriminate) eq_refl ltac:(discriminate)
                eq_refl ltac:(discriminate)).
  assert (Hd : (λ t, PyStr.eqb t (specified_base_text (32 :: replicate 3999 97) (PyStr.lit "bbbbb")))
                 <$> returned (@base_text_value E long_assignment)
               = Some false) by (vm_compute; reflexivity).
  assert (Ht : Some true = Some false); [|discriminate Ht].
  rewrite <- Hd, Hc. cbn [returned fmap option_fmap option_map].
  by rewrite (proj2 (pystr_eqb_eq _ _) eq_refl).
Qed.

(** C9 on that same input. *)
Lemma C9_witness :
  let E := Demo.env_full (Some (PyStr.lit "bbbbb"))
             (fun _ _ _ => BackendRaises Demo.deadline_exceeded) in
  base_text_value long_assignment
  = Return (truncate_text (PyStr.strip (32 :: replicate 3999 97)
                           ++ [PyStr.newline; PyStr.newline] ++ PyStr.strip (PyStr.lit "bbbbb"))).
Proof.
  intros E.
  apply (C9_text_combined_and_truncated long_assignment (32 :: replicate 3999 97)
           (PyStr.lit "notes.txt") (PyStr.lit "bbbbb"));
    [reflexivity | discriminate | reflexivity | discriminate | reflexivity | discriminate].
Defined.

(** ** The unique index *)

Section Uniqueness.
Context {E : Env}.
Import PyStr.

Lemma existsb_false {A} (f : A → bool) (l : list A) :
  existsb f l = false → ∀ x, x ∈ l → f x = false.
Proof.
  induction l as [|y l IH]; simpl; intros Hf x Hx; [by apply elem_of_nil in Hx|].
  apply orb_false_iff in Hf as [Hy Hl]. apply elem_of_cons in Hx as [->|Hx]; auto.
Qed.

Lemma same_variant_true (v1 v2 : version) :
  Session.same_variant v1 v2 = true ↔ variant_key v1 = variant_key v2.
Proof.
  unfold Session.same_variant, variant_key.
  rewrite andb_true_iff, !bool_decide_eq_true. split; [intros [-> ->]; done | intros [= -> ->]; done].
Qed.

Lemma insert_row_unique (r : row) (d d' : database) :
  Session.insert_row r d = Some d' → unique_variants d → unique_variants d'.
Proof.
  unfold unique_variants. destruct r as [a|v]; simpl.
  - destruct (existsb _ _); [discriminate|]. by intros [= <-].
  - destruct (existsb _ _) eqn:Hex; [discriminate|]. intros [= <-] Hn. simpl.
    rewrite fmap_app. apply NoDup_app. split; [done|]. split; [|apply NoDup_singleton].
    intros k Hk Hv. apply list_elem_of_singleton in Hv as ->.
    apply list_elem_of_fmap in Hk as (v' & Hkey & Hv').
    pose proof (existsb_false _ _ Hex v' Hv') as Hf.
    apply orb_false_iff in Hf as [_ Hf].
    assert (Session.same_variant v' v = true) by (by apply same_variant_true).
    congruence.
Qed.

Lemma update_version_keys (id : list N) (f : version → version) (d : database) :
  (∀ v, v_assignment_id (f v) = v_assignment_id v ∧ v_variant_type (f v) = v_variant_type v
        ∧ v_id (f v) = v_id v) →
  variant_key <$> versions (Session.update_version id f d) = variant_key <$> versions d.
Proof.
  intros Hf. simpl. rewrite <- list_fmap_compose. apply list_fmap_ext. intros _ v _. simpl.
  destruct (decide _); [|done]. unfold variant_key. by destruct (Hf v) as (-> & -> & _).
Qed.

Lemma unique_frame : frame (keeps session_unique) (fun _ => True).
Proof. split; unfold keeps; try done. intros w1 w2 w3 H1 H2 Hu. auto. Qed.

Lemma unique_db_frame : db_frame (keeps session_unique).
Proof.
  split; unfold keeps, session_unique; simpl; try done.
  - intros w r d Hi [Hw Hc]. split; [by eapply insert_row_unique|done].
  - intros w [Hw Hc]. done.
  - intros w id f Hf [Hw Hc]. unfold unique_variants in *.
    by rewrite update_version_keys.
Qed.

Lemma count_le_one (aid vtype : list N) (d : database) :
  unique_variants d → (count_variants aid vtype d ≤ 1)%nat.
Proof.
  unfold unique_variants, count_variants. induction (versions d) as [|v l IH]; simpl; [lia|].
  intros Hn. apply NoDup_cons in Hn as [Hv Hl]. rewrite filter_cons.
  destruct (decide _) as [[Ha Ht]|_]; [|by apply IH]. simpl.
  destruct (filter _ l) as [|v' l'] eqn:Hf; [simpl; lia|]. exfalso. apply Hv.
  assert (Hin : v' ∈ filter (λ v, v_assignment_id v = aid ∧ v_variant_type v = vtype) l)
    by (rewrite Hf; left).
  apply list_elem_of_filter in Hin as [[Ha' Ht'] Hin].
  apply list_elem_of_fmap. exists v'. split; [|done]. unfold variant_key. congruence.
Qed.

Lemma persist_variant_rejected (a : assignment) (vtype subject : list N)
  (content_text : option (list N)) (assets : gmap (list N) json) (w : world) :
  pending w = [] → (0 < count_variants (a_id a) vtype (working w))%nat →
  ∃ w', _persist_variant a vtype subject content_text assets w
        = (Raise Session.integrity_error, w')
        ∧ committed w' = committed w ∧ working w' = working w.
Proof.
  intros Hp Hc. unfold count_variants in Hc.
  destruct (filter _ (versions (working w))) as [|v' l'] eqn:Hf; [simpl in Hc; lia|].
  assert (Hin : v' ∈ filter (λ v, v_assignment_id v = a_id a ∧ v_variant_type v = vtype)
                        (versions (working w))) by (rewrite Hf; left).
  apply list_elem_of_filter in Hin as [[Ha' Ht'] Hin].
  unfold _persist_variant, bind, new_uuid, Session.add, modify, Session.commit, bind,
    Session.flush. simpl. rewrite Hp. simpl.
  match goal with |- context [existsb ?f ?l] => assert (Hex : existsb f l = true) end.
  { apply existsb_exists. exists v'. split; [by apply list_elem_of_In|].
    apply orb_true_iff. right. apply same_variant_true. unfold variant_key. simpl. congruence. }
  rewrite Hex. eexists. split; [reflexivity|]. done.
Qed.

(** C6: the unique index on [(assignment_id, variant_type)] holds after
    every operation of the pipeline whenever it held before, in the
    transaction and in what is committed; it leaves at most one variant for
    each pair; and persisting a variant for a pair that already has one is
    refused with an integrity error that leaves the rows as they were. *)
Theorem C6_unique_variant_per_pair :
  (∀ a vtype subject content_text assets,
     step (keeps session_unique) (_persist_variant a vtype subject content_text assets))
  ∧ (∀ a, step (keeps session_unique) (_generate_all_variants a))
  ∧ (∀ title subject teacher text path,
       step (keeps session_unique) (create_assignment title subject teacher text path))
  ∧ (∀ a variant_type difficulty,
       step (keeps session_unique) (regenerate_variant a variant_type difficulty))
  ∧ (∀ w aid vtype, session_unique w →
       (count_variants aid vtype (committed w) ≤ 1)%nat
       ∧ (count_variants aid vtype (working w) ≤ 1)%nat)
  ∧ (∀ a vtype subject content_text assets w,
       pending w = [] → (0 < count_variants (a_id a) vtype (working w))%nat →
       ∃ w', _persist_variant a vtype subject content_text assets w
             = (Raise Session.integrity_error, w')
             ∧ committed w' = committed w ∧ working w' = working w).
Proof.
  pose proof unique_frame as F. pose proof unique_db_frame as D.
  split; [intros; by eapply step_persist_variant|].
  split; [intros; by eapply step_generate_all_variants|].
  split; [intros; eapply step_create_assignment; try done; by intros w [_ Hc]|].
  split; [intros; by eapply step_regenerate_variant|].
  split; [intros w aid vtype [Hw Hc]; split; by apply count_le_one|].
  apply persist_variant_rejected.
Qed.

End Uniqueness.

(** C6 on an empty database: the first quiz variant of an assignment is
    accepted, the second is refused. *)
Lemma C6_witness :
  let E := Demo.env_answering [] in
  let a := Assignment (PyStr.lit "a1") (PyStr.lit "T") (PyStr.lit "math") None None None
             Generating None in
  let w1 := (_persist_variant a (PyStr.lit "quiz") (PyStr.lit "math") None ∅
               Demo.empty_world).2 in
  ∃ w', _persist_variant a (PyStr.lit "quiz") (PyStr.lit "math") None ∅ w1
        = (Raise Session.integrity_error, w')
        ∧ committed w' = committed w1 ∧ working w' = working w1.
Proof.
  intros E a w1. apply C6_unique_variant_per_pair; vm_compute; [reflexivity | lia].
Defined.

(** ** Regeneration *)

Section Regeneration.
Context {E : Env}.
Import PyStr.

Lemma same_db_frame : frame same_db (fun _ => True).
Proof.
  split; unfold same_db; try done.
  intros w1 w2 w3 (-> & -> & ->) (-> & -> & ->). done.
Qed.

Lemma gen_quiz_same_db (subject text difficulty : list N) (w w' : world)
  (r : result (gmap (list N) json)) :
  _gen_quiz subject text difficulty w = (r, w') → same_db w w'.
Proof. apply (step_gen_quiz same_db (fun _ => True) same_db_frame). done. Qed.

(** One run of the regeneration of the quiz, from a clean session. *)
Lemma regenerate_quiz_run (a : assignment) (difficulty : list N) (w w' : world)
  (r : result (option version)) :
  clean w → regenerate_variant a (lit "quiz") difficulty w = (r, w') →
  assignments (committed w') = assignments (committed w)
  ∧ match r with
    | Raise _ => committed w' = committed w
    | Return updated =>
        clean w'
        ∧ match Session.first_version (a_id a) (lit "quiz") (committed w) with
          | Some v =>
              ∃ content_text assets,
                committed w'
                = Session.update_version (v_id v) (set_quiz_content content_text assets)
                    (committed w)
                ∧ updated = Some (set_quiz_content content_text assets v)
          | None =>
              ∃ new, versions (committed w') = versions (committed w) ++ [new]
                     ∧ v_assignment_id new = a_id a ∧ v_variant_type new = lit "quiz"
                     ∧ v_ready new = true ∧ updated = None
          end
    end.
Proof.
  intros [Hw Hp]. unfold regenerate_variant, base_text_of.
  destruct (base_text_value a) as [t|e]; [|by intros [= <- <-]].
  unfold bind at 1, lift. unfold bind at 1, get.
  rewrite bool_decide_eq_true_2 by done. unfold bind at 1.
  destruct (_gen_quiz (a_subject a) t difficulty w) as [[quiz|e] w1] eqn:Hg;
    apply gen_quiz_same_db in Hg as (Hc1 & Hw1 & Hp1);
    [|intros [= <- <-]; by rewrite Hc1].
  unfold bind at 1, _write_json, bind at 1, write_file, modify, ret. rewrite Hw.
  destruct (Session.first_version (a_id a) (lit "quiz") (committed w)) as [v|] eqn:Hv.
  - unfold bind, Session.set_version, Session.commit, bind, Session.flush, modify. simpl.
    rewrite Hp1, Hp. simpl. intros [= <- <-]. simpl. rewrite Hw1, Hw.
    split; [done|]. split; [done|]. eauto.
  - unfold _persist_variant, bind, new_uuid, Session.add, Session.commit, bind, Session.flush,
      modify. simpl. rewrite Hp1, Hp, Hw1, Hw. simpl.
    destruct (existsb _ _); simpl; intros [= <- <-]; simpl; [by rewrite Hc1|].
    split; [done|]. split; [done|]. eexists. split; [reflexivity|]. done.
Qed.

Lemma first_version_count (aid vtype : list N) (d : database) :
  match Session.first_version aid vtype d with
  | Some v => (1 ≤ count_variants aid vtype d)%nat ∧ v ∈ versions d
              ∧ v_assignment_id v = aid ∧ v_variant_type v = vtype
  | None => count_variants aid vtype d = 0%nat
  end.
Proof.
  unfold Session.first_version, count_variants.
  destruct (filter _ (versions d)) as [|v l] eqn:Hf; simpl; [done|].
  assert (Hin : v ∈ filter (λ v, v_assignment_id v = aid ∧ v_variant_type v = vtype)
                       (versions d)) by (rewrite Hf; left).
  apply list_elem_of_filter in Hin as [[? ?] ?]. split; [lia|done].
Qed.




End Regeneration.


(** ** Failure of a creation *)

Section Failure.
Context {E : Env}.
Import PyStr.

Lemma has_assignment_insert (id : list N) (r : row) (d d' : database) :
  Session.insert_row r d = Some d' → has_assignment id d → has_assignment id d'.
Proof.
  intros Hi (a & Ha & Hid). exists a. split; [|done]. destruct r as [a'|v]; simpl in Hi.
  - destruct (existsb _ _); [discriminate|]. injection Hi as <-. simpl.
    apply elem_of_app. by left.
  - destruct (existsb _ _); [discriminate|]. by injection Hi as <-.
Qed.

Lemma has_assignment_update (id id' : list N) (f : assignment → assignment) (d : database) :
  (∀ a, a_id (f a) = a_id a) → has_assignment id d →
  has_assignment id (Session.update_assignment id' f d).
Proof.
  intros Hf (a & Ha & Hid). exists (if decide (a_id a = id') then f a else a). split.
  - simpl. apply list_elem_of_fmap. by exists a.
  - destruct (decide _); [by rewrite Hf|done].
Qed.

Lemma kept_frame (id : list N) (c0 : database) :
  frame (keeps (assignment_kept id c0)) (fun _ => True).
Proof. split; unfold keeps; try done. intros w1 w2 w3 H1 H2 Hk. auto. Qed.

Lemma kept_db_frame (id : list N) (c0 : database) : db_frame (keeps (assignment_kept id c0)).
Proof.
  split; unfold keeps, assignment_kept; simpl; try done.
  - intros w r d Hi [Hw Hc]. split; [by eapply has_assignment_insert|done].
  - intros w [Hw Hc]. split; [done|by right].
  - intros w id' f Hf [Hw Hc]. split; [by apply has_assignment_update|done].
Qed.

Lemma update_assignment_absent (id : list N) (f : assignment → assignment) (d : database) :
  ¬ has_assignment id d → Session.update_assignment id f d = d.
Proof.
  intros Hn. unfold Session.update_assignment. destruct d as [al vl]. simpl in *. f_equal.
  rewrite <- (list_fmap_id al) at 2. apply list_fmap_ext. intros i a Ha. simpl.
  destruct (decide _) as [Hid|]; [|done]. exfalso. apply Hn. exists a. split; [|done].
  by eapply list_elem_of_lookup_2.
Qed.

Lemma update_assignment_marks (id message : list N) (d : database) :
  has_assignment id d →
  ∃ row, row ∈ assignments (Session.update_assignment id (mark_failed message) d)
         ∧ a_id row = id ∧ a_status row = Failed ∧ a_error_message row = Some message.
Proof.
  intros (a & Ha & Hid). exists (mark_failed message a). split; [|done]. simpl.
  apply list_elem_of_fmap. exists a. split; [|done]. by rewrite decide_True.
Qed.

(** What the head of a creation leaves after it returned. *)
Lemma start_assignment_returns (title subject : list N) (teacher text path : option (list N))
  (w wA : world) (a : assignment) :
  clean w → start_assignment title subject teacher text path w = (Return a, wA) →
  committed wA = committed w ∧ pending wA = []
  ∧ has_assignment (a_id a) (working wA) ∧ ¬ has_assignment (a_id a) (committed w).
Proof.
  intros [Hw Hp]. unfold start_assignment, bind, new_uuid, Session.add, Session.flush, modify, ret.
  simpl. rewrite Hp, Hw. simpl.
  destruct (existsb _ _) eqn:Hex; [discriminate|]. intros [= <- <-]. simpl.
  split; [done|]. split; [done|]. split.
  - eexists. split; [apply elem_of_app; right; apply list_elem_of_singleton; reflexivity|done].
  - intros (a' & Ha' & Hid). apply (existsb_false _ _ Hex) in Ha'.
    by apply bool_decide_eq_false in Ha'.
Qed.

(** What the [except] branch does to the committed rows. *)
Lemma on_generation_failure_runs (a : assignment) (e : exn) (w : world) :
  ∃ w', on_generation_failure a e w = (Raise e, w')
        ∧ committed w'
          = Session.update_assignment (a_id a) (mark_failed (exn_msg e)) (committed w).
Proof.
  unfold on_generation_failure, bind, Session.rollback, Session.set_assignment, Session.commit,
    bind, Session.flush, modify, raise. simpl. eauto.
Qed.

(** C2, as the code has it.  When variant generation raises, the creation
    raises the same exception and every variant committed before the
    failure stays.  The assignment row is kept, in state [failed] with the
    message of the exception, only if something had been committed during
    generation; when the failure comes before the first variant is
    persisted, the rollback discards the row that was only flushed, and
    nothing at all is left of the assignment. *)
Theorem C2_failure_of_variant_generation (title subject : list N)
  (teacher text path : option (list N)) (w wA wB : world) (a : assignment) (e : exn) :
  clean w →
  start_assignment title subject teacher text path w = (Return a, wA) →
  _generate_all_variants a wA = (Raise e, wB) →
  ∃ w', create_assignment title subject teacher text path w = (Raise e, w')
        ∧ versions (committed w') = versions (committed wB)
        ∧ (committed wB = committed w →
             committed w' = committed w ∧ ¬ has_assignment (a_id a) (committed w'))
        ∧ (committed wB ≠ committed w →
             ∃ row, row ∈ assignments (committed w') ∧ a_id row = a_id a
                    ∧ a_status row = Failed ∧ a_error_message row = Some (exn_msg e)).
Proof.
  intros Hc Hs Hg.
  destruct (start_assignment_returns _ _ _ _ _ _ _ _ Hc Hs) as (HcA & HpA & HwA & Hfresh).
  destruct (on_generation_failure_runs a e wB) as (w' & Hh & Hc').
  exists w'. split.
  { unfold create_assignment, bind. rewrite Hs. unfold try_except, generate_and_mark_ready, bind.
    by rewrite Hg. }
  rewrite Hc'. split; [done|]. split.
  - intros ->. rewrite update_assignment_absent by done. done.
  - intros Hne.
    assert (Hk : assignment_kept (a_id a) (committed w) wB).
    { eapply (step_generate_all_variants _ _ (kept_frame (a_id a) (committed w))
                (kept_db_frame (a_id a) (committed w)) a); [done|exact Hg|].
      split; [done|by left]. }
    destruct Hk as [_ [Heq|Hin]]; [done|]. by apply update_assignment_marks.
Qed.

End Failure.

(** C2 on the scenario of the specification: the backend times out on every call, so the
    first variant step raises; the creation raises that exception and the
    database is as empty as before: no row for the assignment. *)
Lemma C2_witness :
  let E := Demo.env_timing_out in
  let title := PyStr.lit "Factoring" in
  let subject := PyStr.lit "math" in
  let text := Some (PyStr.lit "Solve x^2+5x+6=0 by factoring") in
  let start := start_assignment title subject None text None Demo.empty_world in
  let a := Assignment (PyStr.lit "id-") title subject None text None Generating None in
  let failed := _generate_all_variants a start.2 in
  ∃ w', create_assignment title subject None text None Demo.empty_world
        = (Raise Demo.deadline_exceeded, w')
        ∧ committed w' = Demo.empty_db
        ∧ ¬ has_assignment (a_id a) (committed w').
Proof.
  intros E title subject text start a failed.
  assert (Hc : clean Demo.empty_world) by (split; reflexivity).
  assert (Hs : start = (Return a, start.2)) by (vm_compute; reflexivity).
  assert (Hg : failed = (Raise Demo.deadline_exceeded, failed.2)) by (vm_compute; reflexivity).
  assert (Hn : committed failed.2 = committed Demo.empty_world) by (vm_compute; reflexivity).
  destruct (C2_failure_of_variant_generation title subject None text None Demo.empty_world
              start.2 failed.2 a Demo.deadline_exceeded Hc Hs Hg)
    as (w' & Hr & _ & Hlost & _).
  exists w'. destruct (Hlost Hn) as [Hc' Hno]. split; [exact Hr|]. split; [exact Hc'|exact Hno].
Defined.

(* ================================================================== *)
(** * Part III: further properties of the code                          *)
(* ================================================================== *)

(** ** Runs *)

Lemma bind_inv {A B} (m : M A) (k : A → M B) (w w' : world) (r : result B) :
  bind m k w = (r, w') →
  (∃ e, m w = (Raise e, w') ∧ r = Raise e)
  ∨ (∃ a w1, m w = (Return a, w1) ∧ k a w1 = (r, w')).
Proof.
  unfold bind. destruct (m w) as [[a|e] w1]; [right; eauto|].
  intros [= <- <-]. left. eauto.
Qed.

Lemma run_returned {A} (run : result A * world) (a : A) :
  returned run.1 = Some a → run = (Return a, run.2).
Proof. destruct run as [[x|e] w]; simpl; [by intros [= ->]|discriminate]. Qed.

Lemma run_raised {A} (run : result A * world) (e : exn) :
  raised run.1 = Some e → run = (Raise e, run.2).
Proof. destruct run as [[x|e'] w]; simpl; [discriminate|by intros [= ->]]. Qed.

(** One step of a proof that a computation respects a frame. *)
Ltac frame_step F D :=
  first
    [ apply (step_ret _ _ F)
    | apply (step_raise _ _ F)
    | apply (step_lift _ _ F)
    | apply (step_get _ _ F)
    | apply (step_len_of _ _ F)
    | apply (step_join_segments _ _ F)
    | apply (step_os_path_exists _ _ F)
    | apply (step_os_path_getsize _ _ F)
    | apply (step_synthesize_audio _ _ F)
    | apply (step_render_manim _ _ F)
    | apply (step_write_json _ _ F)
    | apply (step_synthesize_audio_variant _ _ F)
    | apply (step_mux_step _ _ F)
    | apply (step_persist_variant _ _ F D)
    | apply (step_session_commit _ _ F D)
    | apply (step_set_assignment _ D); intros ?; reflexivity
    | apply (step_set_quiz_content _ D)
    | apply (step_start_assignment _ _ F D)
    | apply (step_bind _ _ F); [|intros ?]
    | match goal with |- step _ (match ?x with _ => _ end) => destruct x end ].

(** ** What the pipeline persists *)

Section Pipeline.
Context {E : Env}.
Import PyStr.

Lemma persisted_same_db (a : assignment) (w0 w w1 : world) (types : list (list N)) :
  same_db w w1 → persisted a w0 types w → persisted a w0 types w1.
Proof.
  intros (Hc & Hw & Hp) (Hp0 & l & Hl & Hw0 & Hn & Hs).
  split; [congruence|]. exists l. rewrite Hc, Hw. done.
Qed.

Lemma persisted_left (a : assignment) (w0 w : world) (types : list (list N)) :
  persisted a w0 types w → left_committed a w0 types w.
Proof.
  intros (_ & l & Hl & Hw & Hn & Hs). exists l. split; [done|]. split; [done|].
  intros Ht. by rewrite Hs.
Qed.

(** One [_persist_variant] from a session at rest: the variant is added
    and committed, or the INSERT is refused and nothing is committed. *)
Lemma persist_variant_step (a : assignment) (w0 w w' : world) (types : list (list N))
  (vtype : list N) (content_text : option (list N)) (assets : gmap (list N) json)
  (r : result unit) :
  persisted a w0 types w →
  _persist_variant a vtype (a_subject a) content_text assets w = (r, w') →
  (r = Return tt ∧ persisted a w0 (types ++ [vtype]) w')
  ∨ (∃ e, r = Raise e ∧ committed w' = committed w).
Proof.
  intros (Hp & l & Hl & Hw & Hn & Hs).
  unfold _persist_variant, bind, new_uuid, Session.add, Session.commit, bind, Session.flush,
    modify. simpl. rewrite Hp. simpl.
  destruct (existsb _ _); simpl; intros [= <- <-]; [right; eauto|]. left. split; [done|].
  split; [done|].
  exists (l ++ [Version (uuid4 (uuids w)) (a_id a) vtype (a_subject a) content_text
                  (JObj assets) true]). simpl. split; [|split; [|split]].
  - apply Forall2_app; [done|]. constructor; [|constructor].
    unfold variant_of. simpl. eauto 10.
  - rewrite Hw. simpl. by rewrite app_assoc.
  - intros Hnil. apply app_eq_nil in Hnil as [_ Hnil]. discriminate.
  - done.
Qed.

(** A step that leaves the database alone, then the rest. *)
Lemma same_db_bind {A B : Type} (a : assignment) (w0 w w' : world) (types : list (list N))
  (m : M A) (k : A → M B) (r : result B) :
  step same_db m → persisted a w0 types w → bind m k w = (r, w') →
  (∃ e, r = Raise e ∧ left_committed a w0 types w')
  ∨ (∃ x w1, persisted a w0 types w1 ∧ k x w1 = (r, w')).
Proof.
  intros Hm Hp Hb. apply bind_inv in Hb as [(e & Hr & ->) | (x & w1 & Hr & Hk)].
  - left. exists e. split; [done|]. eapply persisted_left, persisted_same_db; eauto.
  - right. exists x, w1. split; [|done]. eapply persisted_same_db; eauto.
Qed.

(** A [_persist_variant], then the rest. *)
Lemma persist_bind {B : Type} (a : assignment) (w0 w w' : world) (types : list (list N))
  (vtype : list N) (content_text : option (list N)) (assets : gmap (list N) json)
  (k : unit → M B) (r : result B) :
  persisted a w0 types w →
  bind (_persist_variant a vtype (a_subject a) content_text assets) k w = (r, w') →
  (∃ e, r = Raise e ∧ left_committed a w0 types w')
  ∨ (∃ w1, persisted a w0 (types ++ [vtype]) w1 ∧ k tt w1 = (r, w')).
Proof.
  intros Hp Hb. apply bind_inv in Hb as [(e & Hr & ->) | ([] & w1 & Hr & Hk)];
    destruct (persist_variant_step _ _ _ _ _ _ _ _ _ Hp Hr) as [[Heq H1]|(e' & Heq & Hc)];
    try discriminate.
  - left. exists e. split; [done|].
    destruct (persisted_left _ _ _ _ Hp) as (l & Hl & Hn & Hs).
    exists l. rewrite Hc. done.
  - right. eauto.
Qed.

(** The variants the pipeline has persisted when it returns, and what it
    has committed when it raises. *)
Lemma generate_variants_from_persists (a : assignment) (text : list N) (w0 w' : world)
  (r : result unit) :
  pending w0 = [] →
  generate_variants_from a text w0 = (r, w') →
  match r with
  | Return _ => persisted a w0 variant_types w'
  | Raise _ => ∃ n, (n < 4)%nat ∧ left_committed a w0 (take n variant_types) w'
  end.
Proof.
  intros Hp0 Hg.
  assert (H0 : persisted a w0 [] w0).
  { split; [done|]. exists []. split; [constructor|]. split; [|done].
    rewrite app_nil_r. by destruct (working w0). }
  pose proof (same_db_frame) as F.
  assert (Hs : ∀ p : prompt, (∃ k, p_lesson p = take k text) → True) by done.
  unfold generate_variants_from in Hg.
  (* simplified *)
  eapply same_db_bind in Hg as [(e & -> & Hc) | (simplified & w1 & H1 & Hg)];
    [exists 0%nat; split; [lia|exact Hc] |
     | by apply (step_gen_simplified_text _ _ F text Hs) | exact H0].
  eapply persist_bind in Hg as [(e & -> & Hc) | (w2 & H2 & Hg)];
    [exists 0%nat; split; [lia|exact Hc] | | exact H1].
  (* audio *)
  eapply same_db_bind in Hg as [(e & -> & Hc) | (audio & w3 & H3 & Hg)];
    [exists 1%nat; split; [lia|exact Hc] |
     | by apply (step_gen_audio_script _ _ F text Hs) | exact H2].
  eapply same_db_bind in Hg as [(e & -> & Hc) | (audio_mp3 & w4 & H4 & Hg)];
    [exists 1%nat; split; [lia|exact Hc] |
     | by apply (step_synthesize_audio_variant _ _ F) | exact H3].
  eapply persist_bind in Hg as [(e & -> & Hc) | (w5 & H5 & Hg)];
    [exists 1%nat; split; [lia|exact Hc] | | exact H4].
  (* visual *)
  eapply same_db_bind in Hg as [(e & -> & Hc) | (st & w6 & H6 & Hg)];
    [exists 2%nat; split; [lia|exact Hc] |
     | by apply (step_visual_attempts _ _ F text Hs) | exact H5].
  eapply same_db_bind in Hg as [(e & -> & Hc) | (final_video & w7 & H7 & Hg)];
    [exists 2%nat; split; [lia|exact Hc] |
     | by apply (step_mux_step _ _ F) | exact H6].
  eapply persist_bind in Hg as [(e & -> & Hc) | (w8 & H8 & Hg)];
    [exists 2%nat; split; [lia|exact Hc] | | exact H7].
  (* quiz *)
  eapply same_db_bind in Hg as [(e & -> & Hc) | (quiz & w9 & H9 & Hg)];
    [exists 3%nat; split; [lia|exact Hc] |
     | by apply (step_gen_quiz _ _ F text Hs) | exact H8].
  eapply same_db_bind in Hg as [(e & -> & Hc) | (quiz_path & w10 & H10 & Hg)];
    [exists 3%nat; split; [lia|exact Hc] |
     | by apply (step_write_json _ _ F) | exact H9].
  destruct (persist_variant_step _ _ _ _ _ _ _ _ _ H10 Hg) as [[-> H11]|(e' & -> & Hc)].
  - exact H11.
  - exists 3%nat. split; [lia|]. destruct (persisted_left _ _ _ _ H10) as (l & Hl & Hn & Hs').
    exists l. rewrite Hc. done.
Qed.

End Pipeline.

(** ** Creation, end to end *)

Section Creation.
Context {E : Env}.
Import PyStr.

(** The state the head of a creation leaves when it returns. *)
Lemma start_assignment_state (title subject : list N) (teacher text path : option (list N))
  (w wA : world) (a : assignment) :
  clean w → start_assignment title subject teacher text path w = (Return a, wA) →
  a = Assignment (uuid4 (uuids w)) title subject teacher text path Generating None
  ∧ committed wA = committed w ∧ pending wA = []
  ∧ working wA = Database (assignments (committed w) ++ [a]) (versions (committed w))
  ∧ gen_log wA = gen_log w ∧ tool_log wA = tool_log w ∧ files wA = files w.
Proof.
  intros [Hw Hp]. unfold start_assignment, bind, new_uuid, Session.add, Session.flush, modify, ret.
  simpl. rewrite Hp, Hw. simpl.
  destruct (existsb _ _); [discriminate|]. intros [= <- <-]. simpl. done.
Qed.

(** When the head of a creation raises, the world is as before but for
    the uuid drawn and the object left pending. *)
Lemma start_assignment_raises (title subject : list N) (teacher text path : option (list N))
  (w w' : world) (e : exn) :
  start_assignment title subject teacher text path w = (Raise e, w') →
  committed w' = committed w ∧ gen_log w' = gen_log w.
Proof.
  unfold start_assignment, bind, new_uuid, Session.add, Session.flush, modify, ret. simpl.
  destruct (Session.insert_rows _ _); [discriminate|]. by intros [= <- <-].
Qed.

(** With a fresh id the head of a creation returns. *)
Lemma start_assignment_fresh (title subject : list N) (teacher text path : option (list N))
  (w : world) :
  clean w → ¬ has_assignment (uuid4 (uuids w)) (committed w) →
  let a := Assignment (uuid4 (uuids w)) title subject teacher text path Generating None in
  start_assignment title subject teacher text path w
  = (Return a,
     with_db (committed w)
       (Database (assignments (committed w) ++ [a]) (versions (committed w))) []
       (with_uuids (S (uuids w)) w)).
Proof.
  intros [Hw Hp] Hfresh a.
  unfold start_assignment, bind, new_uuid, Session.add, Session.flush, modify, ret.
  simpl. rewrite Hp, Hw. simpl.
  destruct (existsb _ _) eqn:Hex; [|reflexivity]. exfalso. apply Hfresh.
  apply existsb_exists in Hex as (x & Hx & Hid). exists x.
  split; [by apply list_elem_of_In|by apply bool_decide_eq_true in Hid].
Qed.

Lemma variant_of_same_keys (a a' : assignment) (types : list (list N)) (l : list version) :
  a_id a' = a_id a → a_subject a' = a_subject a →
  Forall2 (variant_of a) types l → Forall2 (variant_of a') types l.
Proof.
  intros Hi Hs Hl. eapply Forall2_impl; [exact Hl|]. intros t v Hv.
  unfold variant_of in *. by rewrite Hi, Hs.
Qed.

Lemma update_fresh_assignment (a : assignment) (f : assignment → assignment)
  (al : list assignment) (vl : list version) :
  ¬ has_assignment (a_id a) (Database al vl) →
  Session.update_assignment (a_id a) f (Database (al ++ [a]) vl) = Database (al ++ [f a]) vl.
Proof.
  intros Hn. unfold Session.update_assignment. simpl. f_equal. rewrite fmap_app. simpl.
  rewrite decide_True by done. f_equal.
  rewrite <- (list_fmap_id al) at 2. apply list_fmap_ext. intros i x Hx. simpl.
  destruct (decide _) as [Hid|]; [|done]. exfalso. apply Hn. exists x. split; [|done].
  simpl. by eapply list_elem_of_lookup_2.
Qed.

(** The [try] branch of a creation, after the variants are there, cannot
    raise. *)
Lemma mark_ready_runs (a : assignment) (w : world) :
  pending w = [] →
  bind (Session.set_assignment (a_id a) mark_ready)
    (fun _ => bind Session.commit (fun _ => ret (mark_ready a))) w
  = (Return (mark_ready a),
     with_db (Session.update_assignment (a_id a) mark_ready (working w))
       (Session.update_assignment (a_id a) mark_ready (working w)) [] w).
Proof.
  intros Hp. unfold bind, Session.set_assignment, Session.commit, bind, Session.flush, modify, ret.
  simpl. rewrite Hp. reflexivity.
Qed.

(** The [except] branch of a creation: the exception is raised again, and
    the session is at rest on what was committed, with the assignment
    marked as failed if its row is there. *)
Lemma on_generation_failure_state (a : assignment) (e : exn) (w : world) :
  let d := Session.update_assignment (a_id a) (mark_failed (exn_msg e)) (committed w) in
  on_generation_failure a e w = (Raise e, with_db d d [] w).
Proof. reflexivity. Qed.

(** What the generation step of a creation leaves. *)
Lemma generate_all_variants_persists (a : assignment) (w0 w' : world) (r : result unit) :
  pending w0 = [] →
  _generate_all_variants a w0 = (r, w') →
  match r with
  | Return _ => persisted a w0 variant_types w'
  | Raise _ => ∃ n, (n < 4)%nat ∧ left_committed a w0 (take n variant_types) w'
  end.
Proof.
  intros Hp Hg. unfold _generate_all_variants, base_text_of in Hg.
  apply bind_inv in Hg as [(e & Ht & ->) | (t & w1 & Ht & Hg)].
  - unfold lift in Ht. injection Ht as _ <-. exists 0%nat. split; [lia|].
    exists []. split; [constructor|]. done.
  - unfold lift in Ht. injection Ht as _ <-.
    exact (generate_variants_from_persists _ _ _ _ _ Hp Hg).
Qed.

(** A creation that returns, from a session at rest. *)
Lemma create_assignment_returns (title subject : list N)
  (teacher text path : option (list N)) (w w' : world) (a : assignment) :
  clean w →
  create_assignment title subject teacher text path w = (Return a, w') →
  a = Assignment (uuid4 (uuids w)) title subject teacher text path Ready None
  ∧ ¬ has_assignment (a_id a) (committed w)
  ∧ (∃ l, Forall2 (variant_of a) variant_types l
          ∧ committed w'
            = Database (assignments (committed w) ++ [a]) (versions (committed w) ++ l))
  ∧ clean w'.
Proof.
  intros Hc Hr. unfold create_assignment in Hr.
  apply bind_inv in Hr as [(e & _ & ?) | (a0 & wA & Hs & Hr)]; [discriminate|].
  destruct (start_assignment_returns _ _ _ _ _ _ _ _ Hc Hs) as (_ & _ & _ & Hfresh).
  destruct (start_assignment_state _ _ _ _ _ _ _ _ Hc Hs) as (Ha0 & HcA & HpA & HwA & _).
  unfold try_except in Hr.
  destruct (generate_and_mark_ready a0 wA) as [[a1|e] wC] eqn:Hg.
  2:{ rewrite on_generation_failure_state in Hr. discriminate. }
  injection Hr as <- <-. unfold generate_and_mark_ready in Hg.
  apply bind_inv in Hg as [(e & _ & ?) | ([] & wB & Hgen & Hg)]; [discriminate|].
  pose proof (generate_all_variants_persists _ _ _ _ HpA Hgen) as (HpB & l & Hl & HwB & _ & HcB).
  rewrite (mark_ready_runs a0 wB HpB) in Hg. injection Hg as <- <-.
  assert (Hd : Session.update_assignment (a_id a0) mark_ready (working wB)
               = Database (assignments (committed w) ++ [mark_ready a0])
                   (versions (committed w) ++ l)).
  { rewrite HwB, HwA. simpl. destruct (committed w) as [al vl]. simpl.
    pose proof (update_fresh_assignment a0 mark_ready al (vl ++ l)) as Hu.
    rewrite <- Hu; [done|]. intros (x & Hx & Hid). apply Hfresh. by exists x. }
  rewrite Hd. simpl.
  split; [by rewrite Ha0|]. split; [done|]. split; [|done].
  exists l. split; [|done]. by eapply variant_of_same_keys; [..|exact Hl].
Qed.

(** A creation that raises, from a session at rest. *)
Lemma create_assignment_raises (title subject : list N)
  (teacher text path : option (list N)) (w w' : world) (e : exn) :
  clean w →
  create_assignment title subject teacher text path w = (Raise e, w') →
  let a := Assignment (uuid4 (uuids w)) title subject teacher text path Failed
             (Some (exn_msg e)) in
  committed w' = committed w
  ∨ ∃ n l, (0 < n < 4)%nat ∧ Forall2 (variant_of a) (take n variant_types) l
           ∧ committed w'
             = Database (assignments (committed w) ++ [a]) (versions (committed w) ++ l)
           ∧ clean w'.
Proof.
  intros Hc Hr a. unfold create_assignment in Hr.
  apply bind_inv in Hr as [(e0 & Hs & _) | (a0 & wA & Hs & Hr)].
  { apply start_assignment_raises in Hs as [Hs _]. by left. }
  destruct (start_assignment_returns _ _ _ _ _ _ _ _ Hc Hs) as (_ & _ & _ & Hfresh).
  destruct (start_assignment_state _ _ _ _ _ _ _ _ Hc Hs) as (Ha0 & HcA & HpA & HwA & _).
  unfold try_except in Hr.
  destruct (generate_and_mark_ready a0 wA) as [[a1|e1] wC] eqn:Hg; [discriminate|].
  rewrite on_generation_failure_state in Hr. injection Hr as <- <-.
  assert (Hfail : ∃ n, (n < 4)%nat ∧ left_committed a0 wA (take n variant_types) wC).
  { unfold generate_and_mark_ready in Hg.
    apply bind_inv in Hg as [(e2 & Hgen & _) | ([] & wB & Hgen & Hg)].
    - exact (generate_all_variants_persists _ _ _ _ HpA Hgen).
    - pose proof (generate_all_variants_persists _ _ _ _ HpA Hgen) as (HpB & _).
      rewrite (mark_ready_runs a0 wB HpB) in Hg. discriminate. }
  destruct Hfail as (n & Hn & l & Hl & Hnil & Hsome). simpl.
  destruct n as [|n].
  - left. rewrite Hnil by done. rewrite HcA. by apply update_assignment_absent.
  - right. exists (S n), l. split; [lia|]. split.
    { eapply variant_of_same_keys; [..|exact Hl]; by rewrite Ha0. }
    rewrite Hsome by done. rewrite HwA. destruct (committed w) as [al vl]. simpl.
    rewrite (update_fresh_assignment a0 _ al (vl ++ l)) by done.
    split; [by rewrite Ha0|]. split; [|done]. simpl. by rewrite Ha0.
Qed.


(** X1: a creation that returns, from a session at rest, returns the
    assignment in state [ready] under an id that was not in use; its row is
    committed after the rows that were there, and exactly four variants of
    it are committed after the versions that were there: a simplified one,
    an audio one, a visual one and a quiz, in that order, each ready and
    with a mapping of assets; the session is at rest again. *)
Theorem creation_returns_ready_with_four_variants (title subject : list N)
  (teacher text path : option (list N)) (w w' : world) (a : assignment) :
  clean w →
  create_assignment title subject teacher text path w = (Return a, w') →
  a = Assignment (uuid4 (uuids w)) title subject teacher text path Ready None
  ∧ ¬ has_assignment (a_id a) (committed w)
  ∧ (∃ l, Forall2 (variant_of a) variant_types l
          ∧ committed w'
            = Database (assignments (committed w) ++ [a]) (versions (committed w) ++ l))
  ∧ clean w'.
Proof. apply create_assignment_returns. Qed.

(** X2: a creation that raises, from a session at rest, leaves the
    committed database exactly as it was, or with the new assignment in
    state [failed], carrying the message of the exception, and one, two or
    three variants of it: the simplified one; that and the audio one; or
    those and the visual one.  It never leaves a quiz, and never an
    assignment in state [generating]. *)
Theorem creation_raises_with_prefix_of_variants (title subject : list N)
  (teacher text path : option (list N)) (w w' : world) (e : exn) :
  clean w →
  create_assignment title subject teacher text path w = (Raise e, w') →
  let a := Assignment (uuid4 (uuids w)) title subject teacher text path Failed
             (Some (exn_msg e)) in
  committed w' = committed w
  ∨ ∃ n l, (0 < n < 4)%nat ∧ Forall2 (variant_of a) (take n variant_types) l
           ∧ committed w'
             = Database (assignments (committed w) ++ [a]) (versions (committed w) ++ l)
           ∧ clean w'.
Proof. apply create_assignment_raises. Qed.

End Creation.

(** X1 on a backend that answers every request with a one-question quiz:
    the creation returns, and the database holds the assignment and four
    variants. *)
Lemma creation_returns_witness :
  let E := Demo.env_answering Demo.standard_answer in
  let title := PyStr.lit "Factoring" in
  let subject := PyStr.lit "math" in
  let text := Some (PyStr.lit "Solve x^2+5x+6=0 by factoring") in
  let run := create_assignment title subject None text None Demo.empty_world in
  let a := Assignment (PyStr.lit "id-") title subject None text None Ready None in
  clean Demo.empty_world ∧ returned run.1 = Some a
  ∧ ∃ l, Forall2 (variant_of a) variant_types l ∧ committed run.2 = Database [a] l.
Proof.
  intros E title subject text run a.
  assert (Hc : clean Demo.empty_world) by (split; reflexivity).
  assert (Hr : returned run.1 = Some a) by (vm_compute; reflexivity).
  split; [exact Hc|]. split; [exact Hr|].
  destruct (creation_returns_ready_with_four_variants _ _ _ _ _ _ _ _ Hc (run_returned _ _ Hr))
    as (_ & _ & Hl & _).
  exact Hl.
Defined.

(** X2 on a backend that answers two requests and then times out: the
    creation raises the time-out, and the outcome is one of those listed. *)
Lemma creation_raises_witness :
  let E := Demo.env_failing_from 2 Demo.standard_answer in
  let title := PyStr.lit "Factoring" in
  let subject := PyStr.lit "math" in
  let text := Some (PyStr.lit "Solve x^2+5x+6=0 by factoring") in
  let run := create_assignment title subject None text None Demo.empty_world in
  let a := Assignment (PyStr.lit "id-") title subject None text None Failed
             (Some (PyStr.lit "504 Deadline Exceeded")) in
  clean Demo.empty_world ∧ raised run.1 = Some Demo.deadline_exceeded
  ∧ (committed run.2 = Demo.empty_db
     ∨ ∃ n l, (0 < n < 4)%nat ∧ Forall2 (variant_of a) (take n variant_types) l
              ∧ committed run.2 = Database [a] l ∧ clean run.2).
Proof.
  intros E title subject text run a.
  assert (Hc : clean Demo.empty_world) by (split; reflexivity).
  assert (Hr : raised run.1 = Some Demo.deadline_exceeded) by (vm_compute; reflexivity).
  split; [exact Hc|]. split; [exact Hr|].
  exact (creation_raises_with_prefix_of_variants _ _ _ _ _ _ _ _ Hc (run_raised _ _ Hr)).
Defined.

(** ** Assignments without content, variants that cannot be regenerated *)

Section Refusals.
Context {E : Env}.
Import PyStr.

Lemma base_text_value_raise (a : assignment) (e : exn) :
  base_text_value a = Raise e → e = Exn ValueError (lit "No content found in assignment").
Proof.
  unfold base_text_value. destruct (text_parts a); [by intros [= <-]|].
  destruct (join _ _); [by intros [= <-]|discriminate].
Qed.

Lemma base_text_no_content (a : assignment) :
  (∀ s, a_original_content a = Some s → strip s = []) →
  (∀ p, a_file_path a = Some p → p ≠ [] →
        extract_text p = None ∨ extract_text p = Some []) →
  base_text_value a = Raise (Exn ValueError (lit "No content found in assignment")).
Proof.
  intros Ht Hp. unfold base_text_value, text_parts.
  destruct (a_original_content a) as [[|c s]|]; [| rewrite (Ht _ eq_refl) |];
    (destruct (a_file_path a) as [[|c' p]|];
       [| destruct (Hp _ eq_refl ltac:(done)) as [->| ->] |]); reflexivity.
Qed.

(** X3: an assignment with no usable content is refused before anything
    is generated.  When the raw text is missing, empty or white space only
    and there is no file, or none from which text can be extracted, a
    creation under a fresh id raises [ValueError] with the message
    [No content found in assignment]; no request is sent, no tool is run,
    no file is written, and no row is committed: not even a failed
    assignment. *)
Theorem creation_without_content_raises (title subject : list N)
  (teacher text path : option (list N)) (w : world) :
  clean w → ¬ has_assignment (uuid4 (uuids w)) (committed w) →
  (∀ s, text = Some s → strip s = []) →
  (∀ p, path = Some p → p ≠ [] → extract_text p = None ∨ extract_text p = Some []) →
  ∃ w', create_assignment title subject teacher text path w
        = (Raise (Exn ValueError (lit "No content found in assignment")), w')
        ∧ committed w' = committed w ∧ clean w'
        ∧ gen_log w' = gen_log w ∧ tool_log w' = tool_log w ∧ files w' = files w.
Proof.
  intros Hc Hfresh Ht Hp. unfold create_assignment, bind.
  rewrite (start_assignment_fresh _ _ _ _ _ _ Hc Hfresh).
  unfold try_except, generate_and_mark_ready, bind, _generate_all_variants, bind,
    base_text_of, lift.
  rewrite base_text_no_content by done. rewrite on_generation_failure_state.
  eexists. split; [reflexivity|]. simpl.
  rewrite update_assignment_absent by done. done.
Qed.

(** X4: only the quiz can be regenerated.  For any other variant type the
    call raises [ValueError] and leaves the world as it was: no request is
    sent and no row is touched. *)
Theorem regeneration_of_other_variants_refused (a : assignment)
  (variant_type difficulty : list N) (w : world) :
  variant_type ≠ lit "quiz" →
  ∃ msg, regenerate_variant a variant_type difficulty w = (Raise (Exn ValueError msg), w)
         ∧ (msg = lit "No content found in assignment"
            ∨ msg = lit "Regeneration not supported for variant type: " ++ variant_type).
Proof.
  intros Hv. unfold regenerate_variant, base_text_of, bind, lift, get.
  destruct (base_text_value a) as [t|e] eqn:Hb.
  - rewrite bool_decide_eq_false_2 by done. eexists. split; [reflexivity|by right].
  - apply base_text_value_raise in Hb as ->. eexists. split; [reflexivity|by left].
Qed.

End Refusals.

(** X3 on a text of blanks and no file. *)
Lemma creation_without_content_witness :
  let E := Demo.env_answering Demo.standard_answer in
  ∃ w', create_assignment (PyStr.lit "Factoring") (PyStr.lit "math") None
          (Some (PyStr.lit "   ")) None Demo.empty_world
        = (Raise (Exn ValueError (PyStr.lit "No content found in assignment")), w')
        ∧ committed w' = Demo.empty_db ∧ gen_log w' = [].
Proof.
  intros E.
  destruct (creation_without_content_raises (PyStr.lit "Factoring") (PyStr.lit "math") None
              (Some (PyStr.lit "   ")) None Demo.empty_world)
    as (w' & Hr & Hc & _ & Hg & _).
  - split; reflexivity.
  - intros (x & Hx & _). by apply elem_of_nil in Hx.
  - intros s [= <-]. vm_compute. reflexivity.
  - intros p Hp. discriminate Hp.
  - exists w'. split; [exact Hr|]. split; [exact Hc|exact Hg].
Defined.

(** X4 on the audio variant. *)
Lemma regeneration_of_other_variants_witness :
  let E := Demo.env_answering Demo.standard_answer in
  ∃ msg, regenerate_variant Demo.factoring (PyStr.lit "audio") (PyStr.lit "hard")
           Demo.empty_world
         = (Raise (Exn ValueError msg), Demo.empty_world).
Proof.
  intros E.
  destruct (regeneration_of_other_variants_refused Demo.factoring (PyStr.lit "audio")
              (PyStr.lit "hard") Demo.empty_world) as (msg & Hr & _).
  - vm_compute. discriminate.
  - exists msg. exact Hr.
Defined.

(** ** Serialization of what the service wrote *)

Section Serialization.
Context {E : Env}.
Import PyStr Models.

Lemma filter_all {A} (P : A → Prop) `{!∀ x, Decision (P x)} (l : list A) :
  Forall P l → filter P l = l.
Proof.
  induction 1 as [|x l Hx Hl IH]; [done|]. rewrite filter_cons, decide_True by done.
  by rewrite IH.
Qed.

Lemma filter_none {A} (P : A → Prop) `{!∀ x, Decision (P x)} (l : list A) :
  Forall (λ x, ¬ P x) l → filter P l = [].
Proof.
  induction 1 as [|x l Hx Hl IH]; [done|]. by rewrite filter_cons, decide_False.
Qed.

Lemma version_to_dict_raise (v : version) (e : exn) :
  version_to_dict v = Raise e → e = Exn AttributeError (lit "object has no attribute 'items'").
Proof.
  unfold version_to_dict. destruct (if truthy _ then _ else _); intros H;
    first [discriminate | by injection H as <-].
Qed.

Lemma version_to_dict_string (v : version) (s : list N) :
  v_assets v = JStr s → s ≠ [] →
  version_to_dict v = Raise (Exn AttributeError (lit "object has no attribute 'items'")).
Proof. intros Ha Hs. unfold version_to_dict. rewrite Ha. by destruct s. Qed.

Lemma versions_to_dicts_raise (l : list version) (e : exn) :
  versions_to_dicts l = Raise e → e = Exn AttributeError (lit "object has no attribute 'items'").
Proof.
  induction l as [|v l IH]; simpl; [discriminate|].
  destruct (version_to_dict v) as [d|e'] eqn:Hv.
  - destruct (versions_to_dicts l) as [ds|e'']; [discriminate|]. intros [= <-]. by apply IH.
  - intros [= <-]. by eapply version_to_dict_raise.
Qed.

Lemma versions_to_dicts_elem (l : list version) (v : version) (e : exn) :
  v ∈ l → version_to_dict v = Raise e → ∃ e', versions_to_dicts l = Raise e'.
Proof.
  intros Hin Hv. induction l as [|x l IH]; [by apply elem_of_nil in Hin|]. simpl.
  apply elem_of_cons in Hin as [<-|Hin].
  - rewrite Hv. eauto.
  - destruct (version_to_dict x); [|eauto]. destruct (IH Hin) as [e' ->]. eauto.
Qed.

Ltac lookup_lit :=
  repeat (rewrite lookup_insert_ne by (vm_compute; discriminate)); apply lookup_insert_eq.

Lemma version_to_dict_variant (a : assignment) (vtype : list N) (v : version) :
  variant_of a vtype v → ∃ m, version_to_dict v = Return m ∧ variant_dict a vtype (JObj m).
Proof.
  intros (Hi & Ht & _ & Hr & assets & Ha). unfold version_to_dict. rewrite Ha.
  assert (Hm : ∃ m, (if truthy (JObj assets) then JObj assets else JObj ∅) = JObj m)
    by (destruct (truthy _); eauto).
  destruct Hm as [m ->]. eexists. split; [reflexivity|]. eexists. split; [reflexivity|].
  rewrite Hi, Ht, Hr. split; [lookup_lit|]. split; lookup_lit.
Qed.

Lemma versions_to_dicts_variants (a : assignment) (types : list (list N)) (l : list version) :
  Forall2 (variant_of a) types l →
  ∃ ds, versions_to_dicts l = Return ds ∧ Forall2 (variant_dict a) types ds.
Proof.
  induction 1 as [|t v types l Hv Hl (ds & IH & Hds)]; [exists []; split; [done|constructor]|].
  destruct (version_to_dict_variant _ _ _ Hv) as (m & Hm & Hd). simpl. rewrite Hm, IH.
  eexists. split; [reflexivity|]. by constructor.
Qed.

(** The quiz row after a regeneration that found one, from a session at
    rest: its assets are the text of a JSON document. *)
Lemma regenerate_quiz_update (a : assignment) (difficulty : list N) (w w' : world)
  (u : option version) (v : version) :
  clean w → Session.first_version (a_id a) (lit "quiz") (committed w) = Some v →
  regenerate_variant a (lit "quiz") difficulty w = (Return u, w') →
  ∃ c m, committed w'
         = Session.update_version (v_id v) (set_quiz_content c (json_dumps (JObj m)))
             (committed w)
         ∧ u = Some (set_quiz_content c (json_dumps (JObj m)) v).
Proof.
  intros [Hw Hp] Hv. unfold regenerate_variant, base_text_of.
  destruct (base_text_value a) as [t|e]; [|discriminate].
  unfold bind at 1, lift. unfold bind at 1, get.
  rewrite bool_decide_eq_true_2 by done. unfold bind at 1.
  destruct (_gen_quiz (a_subject a) t difficulty w) as [[quiz|e] w1] eqn:Hg;
    apply gen_quiz_same_db in Hg as (Hc1 & Hw1 & Hp1); [|discriminate].
  unfold bind at 1, _write_json, bind at 1, write_file, modify, ret. rewrite Hw, Hv.
  unfold bind, Session.set_version, Session.commit, bind, Session.flush, modify. simpl.
  rewrite Hp1, Hp. simpl. intros [= <- <-]. simpl. rewrite Hw1, Hw. eauto.
Qed.

(** What a regeneration returns, whatever the session. *)
Lemma regenerate_variant_value (a : assignment) (variant_type difficulty : list N)
  (w w' : world) (u : option version) :
  regenerate_variant a variant_type difficulty w = (Return u, w') →
  u = None ∨ ∃ v c m, u = Some (set_quiz_content c (json_dumps (JObj m)) v).
Proof.
  unfold regenerate_variant. intros Hr.
  apply bind_inv in Hr as [(e & _ & ?)|(t & w1 & _ & Hr)]; [discriminate|].
  apply bind_inv in Hr as [(e & _ & ?)|(ex & w2 & _ & Hr)]; [discriminate|].
  destruct (bool_decide _); [|unfold raise in Hr; discriminate].
  apply bind_inv in Hr as [(e & _ & ?)|(quiz & w3 & _ & Hr)]; [discriminate|].
  apply bind_inv in Hr as [(e & _ & ?)|(qp & w4 & _ & Hr)]; [discriminate|].
  destruct ex as [v|].
  - apply bind_inv in Hr as [(e & _ & ?)|([] & w5 & _ & Hr)]; [discriminate|].
    apply bind_inv in Hr as [(e & _ & ?)|([] & w6 & _ & Hr)]; [discriminate|].
    unfold ret in Hr. injection Hr as <- _. right. eauto.
  - apply bind_inv in Hr as [(e & _ & ?)|([] & w5 & _ & Hr)]; [discriminate|].
    unfold ret in Hr. injection Hr as <- _. by left.
Qed.

(** X5: what [regenerate_variant] returns can never be serialized the
    way the regeneration endpoint does it.  When a quiz row existed, the
    row returned has the text of a JSON document as its assets, and
    [to_dict] needs a mapping; when none existed, nothing is returned at
    all.  In both cases [quiz_version.to_dict()] raises [AttributeError],
    although the quiz has been committed. *)
Theorem regenerated_quiz_cannot_be_serialized (a : assignment)
  (variant_type difficulty : list N) (w w' : world) (u : option version) :
  (∀ m, json_dumps (JObj m) ≠ []) →
  regenerate_variant a variant_type difficulty w = (Return u, w') →
  ∃ msg, returned_version_to_dict u = Raise (Exn AttributeError msg).
Proof.
  intros Hj Hr. apply regenerate_variant_value in Hr as [->|(v & c & m & ->)]; simpl; [eauto|].
  rewrite (version_to_dict_string _ (json_dumps (JObj m))); eauto.
Qed.

(** X6: the assignment a creation returned serializes, versions included,
    as the creation endpoint does it: in a database where every version
    belongs to an assignment, the dict has the new id, the status
    [ready], and exactly four versions, of the types simplified, audio,
    visual and quiz in that order, each of this assignment and ready. *)
Theorem created_assignment_serializes (title subject : list N)
  (teacher text path : option (list N)) (w w' : world) (a : assignment) :
  clean w → referential (committed w) →
  create_assignment title subject teacher text path w = (Return a, w') →
  ∃ d l, assignment_to_dict (committed w') a true = Return d
         ∧ d !! lit "id" = Some (JStr (uuid4 (uuids w)))
         ∧ d !! lit "status" = Some (JStr (lit "ready"))
         ∧ d !! lit "versions" = Some (JArr l)
         ∧ Forall2 (variant_dict a) variant_types l.
Proof.
  intros Hc Href Hr.
  destruct (create_assignment_returns _ _ _ _ _ _ _ _ Hc Hr) as (Ha & Hfresh & (l & Hl & Hd) & _).
  assert (Hvs : versions_of (committed w') a = l).
  { unfold versions_of. rewrite Hd. simpl. rewrite filter_app.
    rewrite filter_none, filter_all; [done| |].
    - eapply Forall2_Forall_r; [exact Hl|]. apply Forall_forall. intros t _ v (Hi & _). exact Hi.
    - apply Forall_forall. intros v Hv Hid. apply Hfresh. rewrite <- Hid. by apply Href. }
  destruct (versions_to_dicts_variants _ _ _ Hl) as (ds & Hds & Hvd).
  unfold assignment_to_dict. rewrite Hvs, Hds. eexists _, ds. split; [reflexivity|].
  rewrite Ha. simpl. split; [lookup_lit|]. split; [lookup_lit|]. split; [lookup_lit|].
  by rewrite Ha in Hvd.
Qed.

(** X7: after a regeneration has updated a quiz row in place, the
    assignment can no longer be serialized with its versions, which is what
    the endpoint that fetches one assignment does: [to_dict] raises
    [AttributeError] on the quiz row, whose assets are now a string. *)
Theorem assignment_unreadable_after_quiz_update (a : assignment) (difficulty : list N)
  (w w' : world) (u : option version) (v : version) :
  (∀ m, json_dumps (JObj m) ≠ []) → clean w →
  Session.first_version (a_id a) (lit "quiz") (committed w) = Some v →
  regenerate_variant a (lit "quiz") difficulty w = (Return u, w') →
  assignment_to_dict (committed w') a true
  = Raise (Exn AttributeError (lit "object has no attribute 'items'")).
Proof.
  intros Hj Hc Hv Hr.
  destruct (regenerate_quiz_update _ _ _ _ _ _ Hc Hv Hr) as (c & m & Hd & _).
  pose proof (first_version_count (a_id a) (lit "quiz") (committed w)) as Hf.
  rewrite Hv in Hf. destruct Hf as (_ & Hin & Hid & _).
  set (f := set_quiz_content c (json_dumps (JObj m))) in *.
  assert (Hin' : f v ∈ versions_of (committed w') a).
  { unfold versions_of. apply list_elem_of_filter. split; [done|]. rewrite Hd. simpl.
    apply list_elem_of_fmap. exists v. split; [|done]. by rewrite decide_True. }
  destruct (versions_to_dicts_elem _ _ _ Hin'
              (version_to_dict_string (f v) _ eq_refl (Hj m))) as [e He].
  unfold assignment_to_dict. rewrite He. f_equal. by eapply versions_to_dicts_raise.
Qed.

End Serialization.

(** X5 on a second regeneration, which finds the quiz row the first one
    created: the row is returned, and cannot be serialized. *)
Lemma regenerated_quiz_witness :
  let E := Demo.env_answering Demo.standard_answer in
  let first := regenerate_variant Demo.factoring (PyStr.lit "quiz") (PyStr.lit "easy")
                 Demo.empty_world in
  let second := regenerate_variant Demo.factoring (PyStr.lit "quiz") (PyStr.lit "hard")
                  first.2 in
  let u := Some (Version (PyStr.lit "id-") (PyStr.lit "a1") (PyStr.lit "quiz")
                   (PyStr.lit "math") (Some (PyStr.lit "<json>"))
                   (JStr (PyStr.lit "<json>")) true) in
  returned second.1 = Some u
  ∧ ∃ msg, Models.returned_version_to_dict u = Raise (Exn AttributeError msg).
Proof.
  intros E first second u.
  assert (Hr : returned second.1 = Some u) by (vm_compute; reflexivity).
  split; [exact Hr|].
  apply (regenerated_quiz_cannot_be_serialized Demo.factoring (PyStr.lit "quiz")
           (PyStr.lit "hard") first.2 second.2 u).
  - intros m. vm_compute. discriminate.
  - exact (run_returned _ _ Hr).
Defined.

(** X6 on the creation of an assignment in an empty database. *)
Lemma created_assignment_witness :
  let E := Demo.env_answering Demo.standard_answer in
  let title := PyStr.lit "Factoring" in
  let subject := PyStr.lit "math" in
  let text := Some (PyStr.lit "Solve x^2+5x+6=0 by factoring") in
  let run := create_assignment title subject None text None Demo.empty_world in
  let a := Assignment (PyStr.lit "id-") title subject None text None Ready None in
  returned run.1 = Some a
  ∧ ∃ d l, Models.assignment_to_dict (committed run.2) a true = Return d
           ∧ d !! PyStr.lit "status" = Some (JStr (PyStr.lit "ready"))
           ∧ d !! PyStr.lit "versions" = Some (JArr l)
           ∧ Forall2 (variant_dict a) variant_types l.
Proof.
  intros E title subject text run a.
  assert (Hc : clean Demo.empty_world) by (split; reflexivity).
  assert (Href : referential (committed Demo.empty_world))
    by (intros v Hv; by apply elem_of_nil in Hv).
  assert (Hr : returned run.1 = Some a) by (vm_compute; reflexivity).
  split; [exact Hr|].
  destruct (created_assignment_serializes _ _ _ _ _ _ _ _ Hc Href (run_returned _ _ Hr))
    as (d & l & Hd & _ & Hs & Hv & Hl).
  exists d, l. split; [exact Hd|]. split; [exact Hs|]. split; [exact Hv|exact Hl].
Defined.

(** X7 on the same two regenerations: after the second, the assignment
    cannot be serialized with its versions. *)
Lemma assignment_unreadable_witness :
  let E := Demo.env_answering Demo.standard_answer in
  let first := regenerate_variant Demo.factoring (PyStr.lit "quiz") (PyStr.lit "easy")
                 Demo.empty_world in
  let second := regenerate_variant Demo.factoring (PyStr.lit "quiz") (PyStr.lit "hard")
                  first.2 in
  Models.assignment_to_dict (committed first.2) Demo.factoring true
  = Return (<[PyStr.lit "versions" :=
                JArr [JObj (<[PyStr.lit "id" := JStr (PyStr.lit "id-")]>
                        (<[PyStr.lit "assignment_id" := JStr (PyStr.lit "a1")]>
                          (<[PyStr.lit "variant_type" := JStr (PyStr.lit "quiz")]>
                            (<[PyStr.lit "subject" := JStr (PyStr.lit "math")]>
                              (<[PyStr.lit "content_text" := JStr (PyStr.lit "<json>")]>
                                (<[PyStr.lit "assets" :=
                                     JObj (<[PyStr.lit "quiz_json" :=
                                               JStr (PyStr.lit "/uploads/a1/quiz_easy.json")]> ∅)]>
                                  (<[PyStr.lit "ready" := JBool true]> ∅)))))))]]>
              (<[PyStr.lit "id" := JStr (PyStr.lit "a1")]>
                (<[PyStr.lit "teacher_id" := JNull]>
                  (<[PyStr.lit "title" := JStr (PyStr.lit "Factoring")]>
                    (<[PyStr.lit "subject" := JStr (PyStr.lit "math")]>
                      (<[PyStr.lit "status" := JStr (PyStr.lit "ready")]> ∅))))))
  ∧ Models.assignment_to_dict (committed second.2) Demo.factoring true
    = Raise (Exn AttributeError (PyStr.lit "object has no attribute 'items'")).
Proof.
  intros E first second. split; [vm_compute; reflexivity|].
  assert (Hr : returned second.1
               = Some (Some (Version (PyStr.lit "id-") (PyStr.lit "a1") (PyStr.lit "quiz")
                               (PyStr.lit "math") (Some (PyStr.lit "<json>"))
                               (JStr (PyStr.lit "<json>")) true)))
    by (vm_compute; reflexivity).
  assert (Hj : ∀ m, json_dumps (JObj m) ≠ []) by (intros m; vm_compute; discriminate).
  assert (Hc : clean first.2) by (split; vm_compute; reflexivity).
  assert (Hv : Session.first_version (a_id Demo.factoring) (PyStr.lit "quiz")
                 (committed first.2)
               = Some (Version (PyStr.lit "id-") (PyStr.lit "a1") (PyStr.lit "quiz")
                         (PyStr.lit "math") (Some (PyStr.lit "<json>"))
                         (JObj (<[PyStr.lit "quiz_json" :=
                                    JStr (PyStr.lit "/srv/uploads/a1/quiz_easy.json")]> ∅))
                         true))
    by (vm_compute; reflexivity).
  exact (assignment_unreadable_after_quiz_update Demo.factoring (PyStr.lit "hard")
           first.2 second.2 _ _ Hj Hc Hv (run_returned _ _ Hr)).
Defined.

(** ** Requests to the generation backend *)

Section Requests.
Context {E : Env}.
Import PyStr.

(** The loop of the generation client over the attempts [i], [i+1], ...,
    [n-1]. *)
Lemma gemini_attempts_log (p : prompt) (m : model) (n : nat) :
  ∀ j i w, (i + j = n)%nat →
    ∃ k, (k ≤ j)%nat ∧ ((0 < j)%nat → (0 < k)%nat)
         ∧ gen_log (gemini_attempts p m n (seq i j) w).2 = gen_log w ++ replicate k (m, p)
         ∧ sleep_log (gemini_attempts p m n (seq i j) w).2
           = sleep_log w ++ replicate (k - 1) 2%nat
         ∧ (is_Some (raised (gemini_attempts p m n (seq i j) w).1) → k = j)
         ∧ same_db w (gemini_attempts p m n (seq i j) w).2
         ∧ files (gemini_attempts p m n (seq i j) w).2 = files w
         ∧ tool_log (gemini_attempts p m n (seq i j) w).2 = tool_log w.
Proof.
  induction j as [|j IH]; intros i w Hn.
  - exists 0%nat. simpl. rewrite !app_nil_r. repeat split; try done.
  - cbn [seq gemini_attempts]. unfold try_except, gemini_attempt.
    destruct (gemini_outcome (length (gen_log w)) p m) as [text|e].
    { exists 1%nat. simpl. rewrite app_nil_r. repeat split; try done; try lia. }
    case_bool_decide as Hlast.
    { exists 1%nat. simpl. rewrite app_nil_r. repeat split; try done; lia. }
    unfold bind, time_sleep, modify.
    set (w2 := with_sleep_log _ _).
    destruct (IH (S i) w2 ltac:(lia)) as (k & Hk & Hpos & Hg & Hs & Hr & Hdb & Hf & Ht).
    exists (S k). assert (0 < k)%nat by (apply Hpos; lia).
    split; [lia|]. split; [lia|]. split; [|split; [|split; [|split; [|split]]]].
    + rewrite Hg. simpl. by rewrite <- app_assoc.
    + rewrite Hs. simpl. rewrite <- app_assoc. simpl.
      by replace (k - 0)%nat with (S (k - 1)) by lia.
    + intros Hraised. f_equal. by apply Hr.
    + destruct Hdb as (? & ? & ?). by repeat split.
    + by rewrite Hf.
    + by rewrite Ht.
Qed.

(** X8: the generation client with any bound on the attempts.  It sends
    the same request [k] times, with at most [max_retries] for [k] and at
    least one when [max_retries] is not zero; it sleeps 2 seconds between
    two requests and at no other time; it raises only after
    [max_retries] requests; with [max_retries = 0] it returns the empty
    string without a request; and it touches nothing else: not the
    database session, not the files, not the tools. *)
Theorem call_gemini_with_retry_n_requests (p : prompt) (m : model) (max_retries : nat)
  (w : world) :
  let run := _call_gemini_with_retry_n p m max_retries w in
  ∃ k, (k ≤ max_retries)%nat ∧ ((0 < max_retries)%nat → (0 < k)%nat)
       ∧ gen_log run.2 = gen_log w ++ replicate k (m, p)
       ∧ sleep_log run.2 = sleep_log w ++ replicate (k - 1) 2%nat
       ∧ (is_Some (raised run.1) → k = max_retries)
       ∧ (max_retries = 0%nat → run.1 = Return [])
       ∧ same_db w run.2 ∧ files run.2 = files w ∧ tool_log run.2 = tool_log w.
Proof.
  intros run. subst run. unfold _call_gemini_with_retry_n.
  destruct (gemini_attempts_log p m max_retries max_retries 0 w eq_refl)
    as (k & Hk & Hpos & Hg & Hs & Hr & Hdb & Hf & Ht).
  exists k. repeat split; try done; try apply Hdb. by intros ->.
Qed.

(** A call of the client, with its bound of two attempts, sends one or two
    requests, all of them the same. *)
Lemma call_gemini_log (p : prompt) (m : model) (w : world) :
  ∃ k, (1 ≤ k ≤ 2)%nat
       ∧ gen_log (_call_gemini_with_retry p m w).2 = gen_log w ++ replicate k (m, p).
Proof.
  destruct (gemini_attempts_log p m 2 2 0 w eq_refl) as (k & Hk & Hpos & Hg & _).
  exists k. split; [|exact Hg]. split; [apply Hpos; lia|lia].
Qed.

Lemma sends_call_gemini (p : prompt) (m : model) : sends 1 2 (_call_gemini_with_retry p m).
Proof.
  intros w r w' Hr. destruct (call_gemini_log p m w) as (k & Hk & Hg).
  rewrite Hr in Hg. exists (replicate k (m, p)). rewrite length_replicate.
  split; [done|]. split; lia.
Qed.

Lemma sends_weaken {A} (lo hi lo' hi' : nat) (m : M A) :
  sends lo hi m → (lo' ≤ lo)%nat → (hi ≤ hi')%nat → sends lo' hi' m.
Proof.
  intros Hm Hlo Hhi w r w' Hr. destruct (Hm _ _ _ Hr) as (l & Hl & Hh & Hret).
  exists l. split; [done|]. split; [lia|]. intros Hs. specialize (Hret Hs). lia.
Qed.

Lemma sends_bind {A B} (lo1 hi1 lo2 hi2 : nat) (m : M A) (k : A → M B) :
  sends lo1 hi1 m → (∀ a, sends lo2 hi2 (k a)) →
  sends (lo1 + lo2) (hi1 + hi2) (bind m k).
Proof.
  intros Hm Hk w r w' Hb. apply bind_inv in Hb as [(e & Hr & ->)|(a & w1 & Hr & Hk')].
  - destruct (Hm _ _ _ Hr) as (l & Hl & Hh & _). exists l.
    split; [done|]. split; [lia|]. intros [x Hx]. discriminate.
  - destruct (Hm _ _ _ Hr) as (l1 & Hl1 & Hh1 & Hlo1).
    destruct (Hk _ _ _ _ Hk') as (l2 & Hl2 & Hh2 & Hlo2).
    exists (l1 ++ l2). rewrite Hl2, Hl1, app_assoc, length_app.
    split; [done|]. split; [lia|]. intros Hs.
    assert (is_Some (returned (Return a))) as Ha by (by eexists).
    specialize (Hlo1 Ha). specialize (Hlo2 Hs). lia.
Qed.

Lemma sends_quiet {A} (m : M A) : step quiet m → sends 0 0 m.
Proof.
  intros Hm w r w' Hr. exists []. rewrite app_nil_r.
  split; [exact (Hm _ _ _ Hr)|]. simpl. split; lia.
Qed.

Lemma quiet_frame : frame quiet (fun _ => False).
Proof.
  split; unfold quiet; try done. intros w1 w2 w3 H1 H2. by rewrite H2.
Qed.

Lemma quiet_db_frame : db_frame quiet.
Proof. split; done. Qed.

Ltac quiet_go := repeat frame_step quiet_frame quiet_db_frame.

(** A generator: one call of the client, then no request. *)
Lemma sends_after_call {A B} (m : M A) (k : A → M B) :
  sends 1 2 m → (∀ a, step quiet (k a)) → sends 1 2 (bind m k).
Proof.
  intros Hm Hk. eapply sends_weaken; [apply (sends_bind 1 2 0 0 m k Hm)| |]; try lia.
  intros a. apply sends_quiet, Hk.
Qed.

Lemma sends_gen_simplified_text (subject text : list N) :
  sends 1 2 (_gen_simplified_text subject text).
Proof.
  unfold _gen_simplified_text. apply sends_after_call; [apply sends_call_gemini|].
  intros t. quiet_go.
Qed.

Lemma sends_gen_audio_script (subject text : list N) :
  sends 1 2 (_gen_audio_script subject text).
Proof.
  unfold _gen_audio_script. apply sends_after_call; [apply sends_call_gemini|].
  intros t. quiet_go.
Qed.

Lemma sends_gen_visual_plan (subject text : list N) :
  sends 1 2 (_gen_visual_plan subject text).
Proof.
  unfold _gen_visual_plan. apply sends_after_call; [apply sends_call_gemini|].
  intros t. quiet_go.
Qed.

Lemma sends_visual_attempt (a : assignment) (text a_dir : list N)
  (narration : option (list N)) :
  sends 1 2 (visual_attempt a text a_dir narration).
Proof.
  unfold visual_attempt. apply sends_after_call; [apply sends_gen_visual_plan|].
  intros visual. quiet_go.
Qed.

Lemma sends_visual_attempts (a : assignment) (text a_dir : list N) :
  sends 1 4 (visual_attempts a text a_dir (seq 0 2) None).
Proof.
  cbn [seq visual_attempts].
  apply (sends_bind 1 2 0 2); [apply sends_visual_attempt|]. intros [st valid].
  destruct valid; [eapply sends_weaken; [apply sends_quiet; quiet_go|lia|lia]|].
  rewrite bool_decide_eq_false_2 by done.
  eapply sends_weaken; [apply (sends_bind 1 2 0 0); [apply sends_visual_attempt|]|lia|lia].
  intros [st2 valid2]. apply sends_quiet. destruct valid2; [quiet_go|].
  rewrite bool_decide_eq_true_2 by done. quiet_go.
Qed.

Lemma sends_quiz_cycle (subject text difficulty : list N) :
  sends 1 2 (quiz_cycle subject text difficulty).
Proof.
  unfold quiz_cycle. apply sends_after_call; [apply sends_call_gemini|].
  intros t. quiet_go.
Qed.

Lemma sends_gen_quiz (subject text difficulty : list N) :
  sends 1 4 (_gen_quiz subject text difficulty).
Proof.
  unfold _gen_quiz. cbn [seq quiz_attempts].
  apply (sends_bind 1 2 0 2); [apply sends_quiz_cycle|]. intros [r1 n1].
  destruct (0 <? n1)%nat; [eapply sends_weaken; [apply sends_quiet; quiet_go|lia|lia]|].
  eapply sends_weaken; [apply (sends_bind 1 2 0 0); [apply sends_quiz_cycle|]|lia|lia].
  intros [r2 n2]. apply sends_quiet. destruct (0 <? n2)%nat; quiet_go.
Qed.

Lemma sends_quiet_then {A B} (lo hi : nat) (m : M A) (k : A → M B) :
  step quiet m → (∀ a, sends lo hi (k a)) → sends lo hi (bind m k).
Proof. intros Hm Hk. apply (sends_bind 0 0 lo hi); [by apply sends_quiet|done]. Qed.

Lemma sends_then {A B} (lo1 hi1 lo2 hi2 lo hi : nat) (m : M A) (k : A → M B) :
  sends lo1 hi1 m → (∀ a, sends lo2 hi2 (k a)) →
  (lo = lo1 + lo2)%nat → (hi = hi1 + hi2)%nat → sends lo hi (bind m k).
Proof. intros Hm Hk -> ->. by apply sends_bind. Qed.

Lemma sends_generate_variants_from (a : assignment) (text : list N) :
  sends 4 12 (generate_variants_from a text).
Proof.
  unfold generate_variants_from.
  eapply (sends_then 1 2 3 10); [apply sends_gen_simplified_text| |done|done]. intros simplified.
  apply sends_quiet_then; [quiet_go|]. intros _.
  eapply (sends_then 1 2 2 8); [apply sends_gen_audio_script| |done|done]. intros audio.
  apply sends_quiet_then; [quiet_go|]. intros audio_mp3.
  apply sends_quiet_then; [quiet_go|]. intros _.
  eapply (sends_then 1 4 1 4); [apply sends_visual_attempts| |done|done]. intros st.
  apply sends_quiet_then; [quiet_go|]. intros final_video.
  apply sends_quiet_then; [quiet_go|]. intros _.
  eapply (sends_then 1 4 0 0); [apply sends_gen_quiz| |done|done]. intros quiz.
  apply sends_quiet. quiet_go.
Qed.

Lemma sends_create_assignment (title subject : list N) (teacher text path : option (list N)) :
  sends 4 12 (create_assignment title subject teacher text path).
Proof.
  unfold create_assignment. apply sends_quiet_then; [quiet_go|]. intros a.
  assert (Hg : sends 4 12 (generate_and_mark_ready a)).
  { unfold generate_and_mark_ready, _generate_all_variants, base_text_of.
    eapply (sends_then 4 12 0 0); [| |done|done].
    - apply sends_quiet_then; [quiet_go|]. intros t. apply sends_generate_variants_from.
    - intros _. apply sends_quiet. quiet_go. }
  intros w r w'. unfold try_except.
  destruct (generate_and_mark_ready a w) as [[a1|e] w1] eqn:Hr.
  - intros [= <- <-]. exact (Hg _ _ _ Hr).
  - rewrite on_generation_failure_state. intros [= <- <-].
    destruct (Hg _ _ _ Hr) as (l & Hl & Hh & _). exists l. simpl.
    split; [done|]. split; [done|]. intros [x Hx]. discriminate.
Qed.

(** X9: the quiz generator sends between one and four requests, whatever
    the backend answers, and sends nothing else. *)
Theorem gen_quiz_sends_one_to_four_requests (subject text difficulty : list N) (w : world) :
  let run := _gen_quiz subject text difficulty w in
  ∃ k, (1 ≤ k ≤ 4)%nat
       ∧ gen_log run.2
         = gen_log w ++ replicate k (ModelQuiz, quiz_prompt subject text difficulty).
Proof.
  intros run. subst run. rewrite gen_quiz_unfold.
  assert (Hc : ∀ w0, ∃ k, (1 ≤ k ≤ 2)%nat
            ∧ gen_log (quiz_cycle subject text difficulty w0).2
              = gen_log w0 ++ replicate k (ModelQuiz, quiz_prompt subject text difficulty)).
  { intros w0. destruct (call_gemini_log (quiz_prompt subject text difficulty) ModelQuiz w0)
      as (k & Hk & Hg).
    exists k. split; [done|]. unfold quiz_cycle, bind.
    destruct (_call_gemini_with_retry _ _ w0) as [[t|e] w1]; [|exact Hg].
    unfold len_of. by destruct (py_len _). }
  destruct (Hc w) as (k1 & Hk1 & H1).
  destruct (quiz_cycle subject text difficulty w) as [[[r1 n1]|e] w1]; simpl in H1;
    [|exists k1; split; [lia|done]].
  destruct (0 <? n1)%nat; [exists k1; split; [lia|done]|].
  destruct (Hc w1) as (k2 & Hk2 & H2).
  exists (k1 + k2)%nat. split; [lia|]. rewrite replicate_add, app_assoc, <- H1.
  by destruct (quiz_cycle subject text difficulty w1) as [[[r2 n2]|e] w2].
Qed.

(** X10: a creation sends at most twelve requests to the generation
    backend, whatever the backend answers, and a creation that returns has
    sent at least four; the log of requests is only ever extended. *)
Theorem creation_sends_four_to_twelve_requests (title subject : list N)
  (teacher text path : option (list N)) (w : world) :
  let run := create_assignment title subject teacher text path w in
  ∃ l, gen_log run.2 = gen_log w ++ l ∧ (length l ≤ 12)%nat
       ∧ (is_Some (returned run.1) → (4 ≤ length l)%nat).
Proof.
  intros run.
  exact (sends_create_assignment title subject teacher text path w run.1 run.2
           (surjective_pairing run)).
Qed.

End Requests.

(** ** Synthesis, rendering and the files they leave *)

Section Media.
Context {E : Env}.
Import PyStr.


(** What [_synthesize_audio] does, in full. *)
Lemma synthesize_audio_writes (script out_dir name : list N) (w : world) :
  let out_path := os_path_join out_dir name in
  let run := _synthesize_audio script out_dir name w in
  ∃ size,
    run.1 = Return out_path
    ∧ files run.2 = <[out_path := BinaryFile size]> (files w)
    ∧ same_db w run.2 ∧ gen_log run.2 = gen_log w
    ∧ (if elevenlabs_api_key && negb (bool_decide (strip script = []))
       then tool_log run.2 = tool_log w ++ [SpeechCall (take 4000 script)]
            ∧ size = default 104 (text_to_speech (length (tool_log w)) (take 4000 script))
       else tool_log run.2 = tool_log w ∧ size = 500).
Proof.
  intros out_path run. subst run out_path. unfold _synthesize_audio, bind, try_except.
  destruct (elevenlabs_api_key && _).
  - unfold bind, run_tool. destruct (text_to_speech _ _) as [size|]; simpl;
      eexists; repeat split; reflexivity.
  - simpl. eexists. repeat split; reflexivity.
Qed.

(** X11: [_synthesize_audio] never raises and always leaves a file at the
    path it returns, whatever the speech backend does.  Without a key, or
    for a script that is blank, no tool is run and the file is the
    placeholder of 500 bytes; with a key and a script, the speech backend
    is called once with the first 4000 characters, and the file is what it
    produced, or the placeholder of 104 bytes when the call failed.
    Nothing else changes. *)
Theorem synthesize_audio_always_leaves_a_file (script out_dir name : list N) (w : world) :
  let out_path := os_path_join out_dir name in
  let run := _synthesize_audio script out_dir name w in
  ∃ size,
    run.1 = Return out_path
    ∧ files run.2 = <[out_path := BinaryFile size]> (files w)
    ∧ same_db w run.2 ∧ gen_log run.2 = gen_log w
    ∧ (if elevenlabs_api_key && negb (bool_decide (strip script = []))
       then tool_log run.2 = tool_log w ++ [SpeechCall (take 4000 script)]
            ∧ size = default 104 (text_to_speech (length (tool_log w)) (take 4000 script))
       else tool_log run.2 = tool_log w ∧ size = 500).
Proof. apply synthesize_audio_writes. Qed.

Lemma synthesize_audio_exists (script out_dir name : list N) (w w' : world)
  (r : result (list N)) :
  _synthesize_audio script out_dir name w = (r, w') →
  r = Return (os_path_join out_dir name)
  ∧ is_Some (files w' !! os_path_join out_dir name).
Proof.
  intros Hr. destruct (synthesize_audio_writes script out_dir name w) as (size & H1 & H2 & _).
  rewrite Hr in H1, H2. simpl in *. split; [done|]. rewrite H2, lookup_insert_eq. eauto.
Qed.

Lemma synthesize_podcast_exists (discussion : list json) (out_dir name : list N)
  (w w' : world) (p : list N) :
  _synthesize_podcast discussion out_dir name w = (Return p, w') →
  p = os_path_join out_dir name ∧ is_Some (files w' !! p).
Proof.
  assert (Hfall : ∀ w0 w1 p0,
    bind (join_segments discussion)
      (fun all_text => _synthesize_audio all_text out_dir name) w0 = (Return p0, w1) →
    p0 = os_path_join out_dir name ∧ is_Some (files w1 !! p0)).
  { intros w0 w1 p0 Hb. apply bind_inv in Hb as [(e & _ & ?)|(t & w2 & _ & Hs)]; [discriminate|].
    apply synthesize_audio_exists in Hs as [[= <-] Hs]. done. }
  unfold _synthesize_podcast, try_except.
  destruct (elevenlabs_api_key && _).
  - unfold bind at 1, run_tool. destruct (podcast_to_speech _ _) as [size|].
    + unfold bind, write_file, modify, ret. simpl. intros [= <- <-]. simpl.
      split; [done|]. rewrite lookup_insert_eq. eauto.
    + unfold raise. apply Hfall.
  - destruct (bind _ _ w) as [[p0|e] w0] eqn:Hb.
    + intros [= <- <-]. by apply Hfall in Hb.
    + apply Hfall.
Qed.

(** X12: the path recorded as [audio_mp3] always names a file.  Whether
    the audio step takes the podcast route or the single-voice route, and
    whatever the speech backend does, a step that returns has left a file
    at the path it returns. *)
Theorem audio_asset_names_a_file (audio : gmap (list N) json) (a_dir : list N)
  (w w' : world) (p : list N) :
  synthesize_audio_variant audio a_dir w = (Return p, w') →
  is_Some (files w' !! p).
Proof.
  unfold synthesize_audio_variant. destruct (nonempty_list _).
  - intros Hr. by apply synthesize_podcast_exists in Hr as [_ ?].
  - intros Hr. by apply synthesize_audio_exists in Hr as [[= <-] ?].
Qed.

(** What [_render_manim] does with code that is a string. *)
Lemma render_manim_string (code out_dir name : list N) (w : world) :
  let script_path := os_path_join out_dir (lit "scene.py") in
  let video_path := os_path_join out_dir name in
  let run := _render_manim (JStr code) out_dir name w in
  let scripted := <[script_path := TextFile code]> (files w) in
  tool_log run.2 = tool_log w ++ [ManimCall code]
  ∧ same_db w run.2 ∧ gen_log run.2 = gen_log w
  ∧ match manim (length (tool_log w)) code with
    | ManimExit 0 (Some size) =>
        run.1 = Return (video_path, script_path, true)
        ∧ files run.2 = <[video_path := BinaryFile size]> scripted
    | _ =>
        run.1 = Return (video_path, script_path, false)
        ∧ files run.2 = match scripted !! video_path with
                        | Some _ => scripted
                        | None => <[video_path := BinaryFile minimal_mp4_size]> scripted
                        end
    end.
Proof.
  intros script_path video_path run scripted. subst run.
  unfold _render_manim, len_of, bind, ret, write_file, modify, run_tool, os_path_exists, get.
  simpl. fold script_path video_path scripted.
  destruct (manim _ _) as [[|?|?] [size|]| | |]; simpl;
    try (repeat split; reflexivity);
    (destruct (scripted !! video_path) as [f|] eqn:Hl;
       [rewrite bool_decide_eq_true_2 by eauto
       |rewrite bool_decide_eq_false_2 by (intros [? ?]; discriminate)];
     simpl; repeat split; reflexivity).
Qed.

Lemma render_manim_exists (manim_code : json) (out_dir name : list N) (w w' : world)
  (video script : list N) (success : bool) :
  _render_manim manim_code out_dir name w = (Return (video, script, success), w') →
  is_Some (files w' !! video).
Proof.
  destruct manim_code as [| | | |code| |];
    try (unfold _render_manim, len_of, bind, raise; simpl; discriminate).
  intros Hr. destruct (render_manim_string code out_dir name w) as (_ & _ & _ & Hm).
  rewrite Hr in Hm. simpl in Hm.
  destruct (manim _ _) as [[|?|?] [size|]| | |]; destruct Hm as [[= -> _ _] ->];
    try (rewrite lookup_insert_eq; by eauto);
    (destruct (<[_ := TextFile code]> (files w) !! os_path_join out_dir name) eqn:Hl;
       [rewrite Hl|rewrite lookup_insert_eq]; eauto).
Qed.


(** X14: code that is not a string makes [_render_manim] raise
    [TypeError]: at once for a value without a length, and after the
    script file was created empty for a list or a mapping.  No renderer is
    run and no video is written. *)
Theorem render_manim_rejects_other_values (manim_code : json) (out_dir name : list N)
  (w : world) :
  (∀ code, manim_code ≠ JStr code) →
  let run := _render_manim manim_code out_dir name w in
  (∃ msg, run.1 = Raise (Exn TypeError msg))
  ∧ tool_log run.2 = tool_log w
  ∧ files run.2
    = match py_len manim_code with
      | Some _ => <[os_path_join out_dir (lit "scene.py") := TextFile []]> (files w)
      | None => files w
      end.
Proof.
  intros Hs run. subst run.
  destruct manim_code as [| | | |code| |]; try (by destruct (Hs code));
    unfold _render_manim, len_of, bind, raise, write_file, modify; simpl; eauto.
Qed.

(** [_add_audio_to_video] returns a path that names a file whenever the
    video it was given does. *)
Lemma add_audio_exists (video audio out_dir name : list N) (w w' : world) (p : list N) :
  is_Some (files w !! video) →
  _add_audio_to_video video audio out_dir name w = (Return p, w') →
  is_Some (files w' !! p).
Proof.
  intros Hv. unfold _add_audio_to_video, bind, os_path_exists, os_path_getsize, get, run_tool,
    ret.
  destruct (bool_decide _); simpl; [|by intros [= <- <-]].
  destruct (_ <? 10000); [by intros [= <- <-]|].
  destruct (ffmpeg _ _ _) as [code [size|]| | |]; simpl; unfold write_file, modify, bind; simpl;
    try (by intros [= <- <-]).
  - assert (Hkeep : is_Some (<[os_path_join out_dir name := BinaryFile size]> (files w)
                               !! video)).
    { destruct (decide (os_path_join out_dir name = video)) as [->|Hne];
        [rewrite lookup_insert_eq|rewrite lookup_insert_ne by done]; eauto. }
    destruct (_ && _); intros [= <- <-]; simpl; [|done].
    rewrite lookup_insert_eq. eauto.
  - destruct (bool_decide (code = 0%Z)); simpl; [|by intros [= <- <-]].
    case_bool_decide as Hp; intros [= <- <-]; simpl; done.
Qed.

Lemma visual_attempt_exists (a : assignment) (text a_dir : list N)
  (narration : option (list N)) (w w' : world) (st : visual_state) (valid : bool) :
  visual_attempt a text a_dir narration w = (Return (st, valid), w') →
  is_Some (files w' !! vs_video_mp4 st).
Proof.
  unfold visual_attempt. intros Hr.
  apply bind_inv in Hr as [(e & _ & ?)|(visual & w1 & _ & Hr)]; [discriminate|].
  apply bind_inv in Hr as [(e & _ & ?)|(narr & w2 & _ & Hr)]; [discriminate|].
  apply bind_inv in Hr as [(e & _ & ?)|([[video script] success] & w3 & Hm & Hr)];
    [discriminate|].
  apply render_manim_exists in Hm. simpl in Hr.
  unfold bind, os_path_exists, os_path_getsize, get, ret in Hr. simpl in Hr.
  by injection Hr as <- _ <-.
Qed.

Lemma visual_attempts_exists (a : assignment) (text a_dir : list N) (w w' : world)
  (st : visual_state) :
  visual_attempts a text a_dir (seq 0 2) None w = (Return st, w') →
  is_Some (files w' !! vs_video_mp4 st).
Proof.
  cbn [seq visual_attempts]. intros Hr.
  apply bind_inv in Hr as [(e & _ & ?)|([st1 valid1] & w1 & H1 & Hr)]; [discriminate|].
  destruct valid1.
  { unfold ret in Hr. injection Hr as <- <-. by eapply visual_attempt_exists. }
  rewrite bool_decide_eq_false_2 in Hr by done.
  apply bind_inv in Hr as [(e & _ & ?)|([st2 valid2] & w2 & H2 & Hr)]; [discriminate|].
  assert (st = st2 ∧ w' = w2) as [-> ->].
  { destruct valid2; [|rewrite bool_decide_eq_true_2 in Hr by done];
      unfold ret in Hr; by injection Hr as <- <-. }
  by eapply visual_attempt_exists.
Qed.

(** X15: the path recorded as [video_mp4] always names a file.  When the
    two steps of the visual variant return (the loop of plans and
    renderings, then the mux step), a file is at the path the mux step
    returned: a rendered video, a muxed one, or a placeholder. *)
Theorem video_asset_names_a_file (a : assignment) (text a_dir : list N)
  (w w1 w2 : world) (st : visual_state) (p : list N) :
  visual_attempts a text a_dir (seq 0 2) None w = (Return st, w1) →
  mux_step st a_dir w1 = (Return p, w2) →
  is_Some (files w2 !! p).
Proof.
  intros Hv Hm. apply visual_attempts_exists in Hv.
  unfold mux_step in Hm.
  destruct (vs_narration_audio st) as [[|c narration]|];
    try (unfold ret in Hm; by injection Hm as <- <-).
  unfold bind at 1, os_path_exists at 1, get in Hm.
  destruct (bool_decide _); [|unfold ret in Hm; by injection Hm as <- <-].
  unfold bind, os_path_exists, os_path_getsize, get in Hm. simpl in Hm.
  destruct (_ && _); [|unfold ret in Hm; by injection Hm as <- <-].
  by eapply add_audio_exists.
Qed.

End Media.

(** X12 on a script without a discussion, with no speech key: the
    narration is the placeholder. *)
Lemma audio_asset_witness :
  let E := Demo.env_answering Demo.standard_answer in
  let run := synthesize_audio_variant ∅ (PyStr.lit "/srv/uploads/a1") Demo.empty_world in
  returned run.1 = Some (PyStr.lit "/srv/uploads/a1/narration.mp3")
  ∧ is_Some (files run.2 !! PyStr.lit "/srv/uploads/a1/narration.mp3").
Proof.
  intros E run.
  assert (Hr : returned run.1 = Some (PyStr.lit "/srv/uploads/a1/narration.mp3"))
    by (vm_compute; reflexivity).
  split; [exact Hr|].
  exact (audio_asset_names_a_file _ _ _ _ _ (run_returned _ _ Hr)).
Defined.


(** X14 on [None] as code. *)
Lemma render_manim_rejects_witness :
  let E := Demo.env_answering Demo.standard_answer in
  let run := _render_manim JNull (PyStr.lit "/srv/uploads/a1") (PyStr.lit "visual_silent.mp4")
               Demo.empty_world in
  (∃ msg, run.1 = Raise (Exn TypeError msg)) ∧ files run.2 = ∅.
Proof.
  intros E run.
  destruct (render_manim_rejects_other_values JNull (PyStr.lit "/srv/uploads/a1")
              (PyStr.lit "visual_silent.mp4") Demo.empty_world) as (Hr & _ & Hf).
  - intros code. discriminate.
  - split; [exact Hr|exact Hf].
Defined.

(** X15 with a renderer that is not installed: the video recorded is the
    placeholder, and it is there. *)
Lemma video_asset_witness :
  let E := Demo.env_answering Demo.standard_answer in
  let a_dir := PyStr.lit "/srv/uploads/a1" in
  let text := PyStr.lit "Solve x^2+5x+6=0 by factoring" in
  let plans := visual_attempts Demo.factoring text a_dir (seq 0 2) None Demo.empty_world in
  let st := default (VisualState ∅ [] [] None) (returned plans.1) in
  let mux := mux_step st a_dir plans.2 in
  returned mux.1 = Some (PyStr.lit "/srv/uploads/a1/visual_silent.mp4")
  ∧ is_Some (files mux.2 !! PyStr.lit "/srv/uploads/a1/visual_silent.mp4").
Proof.
  intros E a_dir text plans st mux.
  assert (Hp : returned plans.1 = Some st) by (vm_compute; reflexivity).
  assert (Hm : returned mux.1 = Some (PyStr.lit "/srv/uploads/a1/visual_silent.mp4"))
    by (vm_compute; reflexivity).
  split; [exact Hm|].
  exact (video_asset_names_a_file Demo.factoring text a_dir Demo.empty_world plans.2 mux.2 st _
           (run_returned _ _ Hp) (run_returned _ _ Hm)).
Defined.

(** ** The URLs of the assets *)

Section Urls.
Context {E : Env}.
Import PyStr Models.

Lemma startswith_length (sub s : list N) :
  startswith sub s = true → (length sub ≤ length s)%nat.
Proof.
  revert s. induction sub as [|x sub IH]; intros [|y s]; simpl; intros H;
    try lia; try discriminate.
  apply andb_true_iff in H as [_ H]. apply IH in H. lia.
Qed.

Lemma startswith_app (sub s t : list N) :
  (length sub ≤ length s)%nat → startswith sub (s ++ t) = startswith sub s.
Proof.
  revert s. induction sub as [|x sub IH]; intros [|y s]; simpl; intros H;
    try done; try lia.
  rewrite IH by lia. done.
Qed.

Lemma find_length (sub s : list N) (i : nat) :
  find sub s = Some i → (i + length sub ≤ length s)%nat.
Proof.
  revert i. induction s as [|c r IH]; intros i; simpl.
  - destruct (startswith sub []) eqn:Hs; [|discriminate]. intros [= <-].
    by apply startswith_length in Hs.
  - destruct (startswith sub (c :: r)) eqn:Hs.
    + intros [= <-]. by apply startswith_length in Hs.
    + destruct (find sub r) as [j|]; [|discriminate]. intros [= <-].
      specialize (IH j eq_refl). simpl. lia.
Qed.

Lemma find_cons (sub : list N) (c : N) (r : list N) :
  find sub (c :: r) = if startswith sub (c :: r) then Some 0%nat else S <$> find sub r.
Proof. reflexivity. Qed.

(** The first occurrence is not moved by what is appended. *)
Lemma find_app (sub s t : list N) (i : nat) :
  find sub s = Some i → find sub (s ++ t) = Some i.
Proof.
  revert i. induction s as [|c r IH]; intros i Hf.
  - pose proof (find_length _ _ _ Hf) as Hl. simpl in *.
    destruct sub; [|simpl in Hl; lia]. destruct i; [|simpl in Hf; discriminate].
    by destruct t.
  - pose proof (find_length _ _ _ Hf) as Hl. rewrite find_cons in Hf.
    change ((c :: r) ++ t) with (c :: (r ++ t)). rewrite find_cons.
    change (c :: (r ++ t)) with ((c :: r) ++ t).
    rewrite (startswith_app sub (c :: r) t) by lia.
    destruct (startswith sub (c :: r)); [done|].
    destruct (find sub r) as [j|] eqn:Hj; [|discriminate]. by rewrite (IH j eq_refl).
Qed.

Lemma asset_url_found (s : list N) (i : nat) :
  find (lit "/uploads/") s = Some i →
  asset_url (JStr s) = JStr (lit "/uploads/" ++ drop (i + 9) s).
Proof.
  intros Hf. destruct s as [|c p]; [discriminate|]. unfold asset_url. by rewrite Hf.
Qed.

(** X16: the URL served for a file of the pipeline.  The service keeps
    the files of an assignment in [upload_root/<id>/]; when the upload
    root is a directory named [uploads] and no directory above it is, the
    asset recorded for [upload_root/<id>/<name>] is served as
    [/uploads/<id>/<name>], whatever the id and the name. *)
Theorem asset_url_of_pipeline_file (base id name : list N) :
  upload_root = base ++ lit "/uploads" →
  find (lit "/uploads/") (base ++ lit "/uploads/") = Some (length base) →
  asset_url (JStr (os_path_join (os_path_join upload_root id) name))
  = JStr (lit "/uploads/" ++ id ++ lit "/" ++ name).
Proof.
  intros -> Hf. unfold os_path_join. rewrite <- !app_assoc.
  change (lit "/uploads" ++ lit "/" ++ id ++ lit "/" ++ name)
    with (lit "/uploads/" ++ id ++ lit "/" ++ name).
  rewrite (app_assoc base). rewrite (asset_url_found _ (length base)) by by apply find_app.
  do 2 f_equal.
  replace (length base + 9)%nat with (length (base ++ lit "/uploads/"))
    by (rewrite length_app; reflexivity).
  apply drop_app_length.
Qed.

End Urls.

(** X16 on the upload root of the examples. *)
Lemma asset_url_witness :
  let E := Demo.env_answering Demo.standard_answer in
  Models.asset_url
    (JStr (os_path_join (os_path_join upload_root (PyStr.lit "a1")) (PyStr.lit "quiz.json")))
  = JStr (PyStr.lit "/uploads/a1/quiz.json").
Proof.
  intros E.
  apply (asset_url_of_pipeline_file (PyStr.lit "/srv") (PyStr.lit "a1") (PyStr.lit "quiz.json"));
    reflexivity.
Defined.

(** ** The quiz generator and its inputs *)

Section Quiz.
Context {E : Env}.
Import PyStr Repair.

Lemma quiz_prompt_without_difficulty (subject text d1 d2 : list N) :
  lower subject ∉ [lit "language"; lit "math"; lit "science"; lit "history"] →
  quiz_prompt subject text d1 = quiz_prompt subject text d2.
Proof.
  intros Hs. unfold quiz_prompt, quiz_formats.
  repeat (case_bool_decide as H; [exfalso; apply Hs; rewrite H; set_solver|clear H]).
  by case_bool_decide.
Qed.

Lemma quiz_prompt_default_difficulty (subject text d : list N) :
  d ≠ lit "easy" → d ≠ lit "hard" →
  quiz_prompt subject text d = quiz_prompt subject text (lit "medium").
Proof.
  intros He Hh. unfold quiz_prompt, difficulty_context.
  by rewrite !bool_decide_eq_false_2 by done.
Qed.

Lemma bind_ext {A B} (m : M A) (k1 k2 : A → M B) (w : world) :
  (∀ a w1, k1 a w1 = k2 a w1) → bind m k1 w = bind m k2 w.
Proof. intros Hk. unfold bind. destruct (m w) as [[a|e] w1]; [apply Hk|done]. Qed.

Lemma gen_quiz_prompt (subject text d1 d2 : list N) (w : world) :
  quiz_prompt subject text d1 = quiz_prompt subject text d2 →
  _gen_quiz subject text d1 w = _gen_quiz subject text d2 w.
Proof.
  intros Hp. unfold _gen_quiz. generalize (@None (gmap (list N) json)).
  revert w. induction (seq 0 2) as [|x l IH]; intros w last; [done|].
  cbn [quiz_attempts]. unfold quiz_cycle. rewrite Hp. apply bind_ext.
  intros [r n] w1. destruct (0 <? n)%nat; [done|apply IH].
Qed.

(** X17: where the difficulty has no effect.  For the subject geography
    and for every subject that has no quiz format of its own, the quiz
    generator does the same whatever the difficulty asked for: same
    requests, same result, same final state.  For the other subjects a
    difficulty other than [easy] and [hard] is the same as [medium]. *)
Theorem gen_quiz_ignores_difficulty (subject text d1 d2 : list N) (w : world) :
  (lower subject ∉ [lit "language"; lit "math"; lit "science"; lit "history"]
   ∨ (d1 ≠ lit "easy" ∧ d1 ≠ lit "hard" ∧ d2 ≠ lit "easy" ∧ d2 ≠ lit "hard")) →
  _gen_quiz subject text d1 w = _gen_quiz subject text d2 w.
Proof.
  intros [Hs|(H1 & H2 & H3 & H4)]; apply gen_quiz_prompt.
  - by apply quiz_prompt_without_difficulty.
  - by rewrite (quiz_prompt_default_difficulty _ _ d1), (quiz_prompt_default_difficulty _ _ d2).
Qed.

(** One attempt of the client that succeeds at once. *)
Lemma call_gemini_first (p : prompt) (m : model) (w : world) (t : list N) :
  gemini_outcome (length (gen_log w)) p m = Return t →
  _call_gemini_with_retry p m w = (Return t, with_gen_log (gen_log w ++ [(m, p)]) w).
Proof.
  intros Ho. unfold _call_gemini_with_retry, _call_gemini_with_retry_n. simpl.
  unfold try_except, gemini_attempt. by rewrite Ho.
Qed.

(** X18: an answer whose [questions] is not a sequence is not retried and
    not replaced by the fall-back: it makes the quiz generator raise.
    When the first answer of the backend decodes to an object in which
    [questions] is a number, a boolean or [null], the generator raises
    [TypeError] after this one request. *)
Theorem gen_quiz_raises_on_unsized_questions (subject text difficulty : list N) (w : world)
  (t : list N) (d : gmap (list N) json) (v : json) :
  gemini_outcome (length (gen_log w)) (quiz_prompt subject text difficulty) ModelQuiz
  = Return t →
  strip t ≠ [] → json_loads_of (clean t) = Loaded (JObj d) →
  d !! lit "questions" = Some v → py_len v = None →
  _gen_quiz subject text difficulty w
  = (Raise (Exn TypeError (lit "object has no len()")),
     with_gen_log (gen_log w ++ [(ModelQuiz, quiz_prompt subject text difficulty)]) w).
Proof.
  intros Ho Hs Hl Hq Hv. rewrite gen_quiz_unfold. unfold quiz_cycle, bind.
  rewrite (call_gemini_first _ _ _ _ Ho).
  rewrite (parse_json_loaded _ _ _ Hs Hl). unfold question_items, dict_get. simpl.
  rewrite (lookup_union_Some_l _ _ _ _ Hq). simpl. unfold len_of. by rewrite Hv.
Qed.

End Quiz.

(** X17 on geography. *)
Lemma gen_quiz_ignores_difficulty_witness :
  let E := Demo.env_answering Demo.standard_answer in
  _gen_quiz (PyStr.lit "Geography") (PyStr.lit "Rivers") (PyStr.lit "easy") Demo.empty_world
  = _gen_quiz (PyStr.lit "Geography") (PyStr.lit "Rivers") (PyStr.lit "hard") Demo.empty_world.
Proof.
  intros E. apply gen_quiz_ignores_difficulty. left. vm_compute.
  intros H. repeat (apply elem_of_cons in H as [H|H]; [discriminate H|]).
  by apply elem_of_nil in H.
Defined.

(** X18 on an answer with a number of questions instead of the questions. *)
Lemma gen_quiz_raises_witness :
  let E := Demo.env_answering (Demo.jlit "{'questions': 5}") in
  raised (_gen_quiz (PyStr.lit "math") (PyStr.lit "2+2") (PyStr.lit "medium")
            Demo.empty_world).1
  = Some (Exn TypeError (PyStr.lit "object has no len()")).
Proof.
  intros E.
  rewrite (gen_quiz_raises_on_unsized_questions (PyStr.lit "math") (PyStr.lit "2+2")
             (PyStr.lit "medium") Demo.empty_world (Demo.jlit "{'questions': 5}")
             (<[PyStr.lit "questions" := JInt 5]> ∅) (JInt 5)).
  - reflexivity.
  - reflexivity.
  - vm_compute. discriminate.
  - vm_compute. reflexivity.
  - vm_compute. reflexivity.
  - reflexivity.
Defined.

(** ** Segments that are not mappings *)

Section Podcast.
Context {E : Env}.
Import PyStr.

Lemma segment_fields_raises (segments : list json) (seg : json) :
  seg ∈ segments → is_object seg = false →
  segment_fields segments = Raise (Exn AttributeError (lit "object has no attribute 'get'")).
Proof.
  intros Hin Hseg. induction segments as [|x l IH]; [by apply elem_of_nil in Hin|].
  apply elem_of_cons in Hin as [<-|Hin].
  - by destruct seg.
  - simpl. rewrite (IH Hin). by destruct x.
Qed.

(** X19: a segment that is not a mapping makes the podcast step raise.
    When the speech backend is not configured, or its call fails, the
    step falls back to reading the [text] of every segment; if one segment
    of the discussion is not a mapping (a bare string, say), this raises
    [AttributeError], in the fall-back of the [try] and again in its
    [except] branch, so it reaches the caller; no file is written. *)
Theorem podcast_with_malformed_segment_raises (discussion : list json)
  (out_dir name : list N) (w : world) (seg : json) :
  seg ∈ discussion → is_object seg = false →
  elevenlabs_api_key = false ∨ podcast_to_speech (length (tool_log w)) discussion = None →
  let run := _synthesize_podcast discussion out_dir name w in
  run.1 = Raise (Exn AttributeError (lit "object has no attribute 'get'"))
  ∧ files run.2 = files w.
Proof.
  intros Hin Hseg Hk run. subst run.
  unfold _synthesize_podcast, try_except, bind, join_segments, lift, run_tool, raise.
  rewrite (segment_fields_raises _ _ Hin Hseg).
  destruct Hk as [->|Hp]; simpl; [done|].
  destruct (elevenlabs_api_key && _); simpl; [|done]. by rewrite Hp.
Qed.

End Podcast.

(** X19 on a discussion that holds a bare string. *)
Lemma podcast_with_malformed_segment_witness :
  let E := Demo.env_answering Demo.standard_answer in
  raised (_synthesize_podcast [JStr (PyStr.lit "Welcome")] (PyStr.lit "/srv/uploads/a1")
            (PyStr.lit "podcast.mp3") Demo.empty_world).1
  = Some (Exn AttributeError (PyStr.lit "object has no attribute 'get'")).
Proof.
  intros E.
  destruct (podcast_with_malformed_segment_raises [JStr (PyStr.lit "Welcome")]
              (PyStr.lit "/srv/uploads/a1") (PyStr.lit "podcast.mp3") Demo.empty_world
              (JStr (PyStr.lit "Welcome"))) as [Hr _].
  - apply list_elem_of_singleton. reflexivity.
  - reflexivity.
  - left. reflexivity.
  - by rewrite Hr.
Defined.

(** ** What the repair step never lets through *)

Section Slashes.
Import PyStr Repair.

Lemma starts_slashes (c : N) (r : list N) :
  startswith (lit "//") (c :: r) = true ↔ c = 47 ∧ head r = Some 47.
Proof.
  change (lit "//") with [47; 47]. cbn [startswith]. destruct r as [|y r]; cbn [head].
  - rewrite andb_false_r. split; [discriminate|by intros [_ ?]].
  - rewrite andb_true_r, andb_true_iff, !N.eqb_eq. split.
    + by intros [<- <-].
    + by intros [-> [= ->]].
Qed.

Lemma find_slashes_cons (c : N) (r : list N) :
  find (lit "//") (c :: r) = None ↔ ¬ (c = 47 ∧ head r = Some 47) ∧ find (lit "//") r = None.
Proof.
  rewrite find_cons. destruct (startswith (lit "//") (c :: r)) eqn:Hs.
  - apply starts_slashes in Hs. split; [discriminate|]. by intros [Hn _].
  - rewrite fmap_None. split; [|by intros [_ ?]]. intros Hf. split; [|done].
    intros Hc. apply starts_slashes in Hc. congruence.
Qed.

Lemma drop_line_comments_slashes (s : list N) :
  (find (lit "//") (drop_line_comments true s) = None
   ∧ head (drop_line_comments true s) ≠ Some 47)
  ∧ (find (lit "//") (drop_line_comments false s) = None
     ∧ (head (drop_line_comments false s) = Some 47 →
        head s = Some 47 ∧ head (tail s) ≠ Some 47)).
Proof.
  induction s as [|c r [[IHt1 IHt2] [IHf1 IHf2]]]; [done|]. split.
  - cbn [drop_line_comments]. destruct (c =? newline) eqn:Hc; [|done].
    apply N.eqb_eq in Hc as ->. split; [|done].
    apply find_slashes_cons. split; [by intros [? _]|done].
  - cbn [drop_line_comments]. destruct (startswith (lit "//") (c :: r)) eqn:Hs.
    + split; [exact IHt1|]. intros H. by destruct IHt2.
    + split.
      * apply find_slashes_cons. split; [|exact IHf1].
        intros [-> H]. apply IHf2 in H as [H _].
        assert (startswith (lit "//") (47 :: r) = true) by (by apply starts_slashes).
        congruence.
      * cbn [head tail]. intros [= ->]. split; [done|]. intros H.
        assert (startswith (lit "//") (47 :: r) = true) by (by apply starts_slashes).
        congruence.
Qed.

Lemma find_slashes_tail (c : N) (r : list N) :
  find (lit "//") (c :: r) = None → find (lit "//") r = None.
Proof. intros H. by apply find_slashes_cons in H as [_ ?]. Qed.

Lemma drop_block_comments_slashes (s : list N) :
  ∀ k, find (lit "//") s = None →
    find (lit "//") (drop_block_comments k s) = None
    ∧ (k = 0%nat → head (drop_block_comments k s) = Some 47 → head s = Some 47).
Proof.
  induction s as [|c r IH]; intros k Hs; [done|].
  pose proof (find_slashes_tail _ _ Hs) as Hr. cbn [drop_block_comments].
  destruct k as [|k]; [|split; [apply IH; done|done]].
  destruct (startswith (lit "/*") (c :: r)) eqn:Hc.
  - assert (c = 47) as ->.
    { change (lit "/*") with [47; 42] in Hc. cbn [startswith] in Hc.
      apply andb_true_iff in Hc as [Hc _]. by apply N.eqb_eq in Hc. }
    destruct (find (lit "*/") (drop 1 r)) as [j|].
    + split; [apply IH; done|done].
    + split; [|done]. apply find_slashes_cons. split; [|apply IH; done].
      intros [_ H]. apply (IH 0%nat Hr) in H; [|done].
      apply find_slashes_cons in Hs as [Hn _]. by apply Hn.
  - split; [|by intros _ [= ->]]. apply find_slashes_cons. split; [|apply IH; done].
    intros [-> H]. apply (IH 0%nat Hr) in H; [|done].
    apply find_slashes_cons in Hs as [Hn _]. by apply Hn.
Qed.

Lemma replace_char_slashes (old : N) (new s : list N) :
  old ≠ 47 → new ≠ [] → Forall (λ c, c ≠ 47) new →
  find (lit "//") s = None →
  find (lit "//") (replace_char old new s) = None
  ∧ (head (replace_char old new s) = Some 47 → head s = Some 47).
Proof.
  intros Ho Hn Hnew. unfold replace_char.
  assert (Hpre : ∀ x, find (lit "//") x = None →
            find (lit "//") (new ++ x) = None ∧ head (new ++ x) ≠ Some 47).
  { intros x Hx. destruct new as [|n0 new]; [done|]. clear Hn. split.
    - revert n0 Hnew. induction new as [|n1 new IH]; intros n0 Hnew.
      + apply find_slashes_cons. split; [|done]. intros [? _]. by inversion Hnew.
      + apply find_slashes_cons. split; [intros [? _]; by inversion Hnew|].
        apply IH. by inversion Hnew.
    - simpl. intros [= ?]. by inversion Hnew. }
  induction s as [|c r IH]; intros Hs; [done|].
  pose proof (find_slashes_tail _ _ Hs) as Hr. destruct (IH Hr) as [IH1 IH2].
  rewrite fmap_cons. cbn [concat]. destruct (N.eqb_spec c old) as [->|Hc].
  - destruct (Hpre _ IH1) as [H1 H2]. split; [done|]. intros H. by destruct H2.
  - change ([c] ++ ?x) with (c :: x). split; [|by intros [= ->]].
    apply find_slashes_cons. split; [|done]. intros [-> H]. apply IH2 in H.
    apply find_slashes_cons in Hs as [Hx _]. by apply Hx.
Qed.

(** X20: the text handed to the decoder never contains two slashes in a
    row.  The repair step removes everything from two slashes to the end
    of the line wherever they stand, also inside a string of the answer
    (the address of a web page, say), and nothing it does afterwards
    brings two slashes together again. *)
Theorem repaired_text_has_no_double_slash (text : list N) :
  find (lit "//") (clean text) = None.
Proof.
  unfold clean, normalize_punctuation, replacements. cbn [foldl].
  set (s := drop_block_comments _ _).
  assert (Hs : find (lit "//") s = None).
  { apply drop_block_comments_slashes. apply drop_line_comments_slashes. }
  clearbody s.
  repeat (apply replace_char_slashes;
          [done | done | repeat constructor; done |]).
  exact Hs.
Qed.

End Slashes.

(** ** What the prompts carry *)

Section Prompts.
Context {E : Env} (R : world → world → Prop) (sendable : prompt → Prop).
Hypothesis F : frame R sendable.
Hypothesis D : db_frame R.
Variable text : list N.
Hypothesis short : ∀ p k, (k ≤ 3000)%nat → p_lesson p = take k text → sendable p.
Import PyStr.

Lemma short_call (t : template) (subject : list N) (d : option difficulty_instruction)
  (k : nat) (m : model) :
  (k ≤ 3000)%nat → step R (_call_gemini_with_retry (Prompt t subject d (take k text)) m).
Proof. intros Hk. apply (step_call_gemini _ _ F). by apply (short _ k). Qed.

Lemma short_gen_simplified_text (subject : list N) :
  step R (_gen_simplified_text subject text).
Proof.
  unfold _gen_simplified_text. apply (step_bind _ _ F); [apply short_call; lia|].
  intros t. repeat frame_step F D.
Qed.

Lemma short_gen_audio_script (subject : list N) : step R (_gen_audio_script subject text).
Proof.
  unfold _gen_audio_script. apply (step_bind _ _ F); [apply short_call; lia|].
  intros t. repeat frame_step F D.
Qed.

Lemma short_gen_visual_plan (subject : list N) : step R (_gen_visual_plan subject text).
Proof.
  unfold _gen_visual_plan. apply (step_bind _ _ F); [apply short_call; lia|].
  intros t. repeat frame_step F D.
Qed.

Lemma short_quiz_cycle (subject difficulty : list N) :
  step R (quiz_cycle subject text difficulty).
Proof.
  unfold quiz_cycle, quiz_prompt. apply (step_bind _ _ F); [apply short_call; lia|].
  intros t. repeat frame_step F D.
Qed.

Lemma short_gen_quiz (subject difficulty : list N) :
  step R (_gen_quiz subject text difficulty).
Proof.
  unfold _gen_quiz. generalize (@None (gmap (list N) json)).
  induction (seq 0 2) as [|x l IH]; intros last; cbn [quiz_attempts];
    [repeat frame_step F D|].
  apply (step_bind _ _ F); [apply short_quiz_cycle|]. intros [r n].
  destruct (0 <? n)%nat; [frame_step F D|apply IH].
Qed.

Lemma short_visual_attempt (a : assignment) (a_dir : list N) (narration : option (list N)) :
  step R (visual_attempt a text a_dir narration).
Proof.
  unfold visual_attempt. apply (step_bind _ _ F); [apply short_gen_visual_plan|].
  intros visual. repeat frame_step F D.
Qed.

Lemma short_visual_attempts (a : assignment) (a_dir : list N) :
  step R (visual_attempts a text a_dir (seq 0 2) None).
Proof.
  generalize (@None visual_state).
  induction (seq 0 2) as [|x l IH]; intros last; cbn [visual_attempts];
    [repeat frame_step F D|].
  apply (step_bind _ _ F); [apply short_visual_attempt|]. intros [st valid].
  destruct valid; [frame_step F D|]. destruct (bool_decide _); [frame_step F D|apply IH].
Qed.

Lemma short_generate_variants_from (a : assignment) : step R (generate_variants_from a text).
Proof.
  unfold generate_variants_from.
  repeat first
    [ apply short_gen_simplified_text | apply short_gen_audio_script
    | apply short_visual_attempts | apply short_gen_quiz | frame_step F D ].
Qed.

End Prompts.

Section Marker.
Context {E : Env}.
Import PyStr.

Lemma sent_within_frame (n : nat) (text : list N) :
  frame (sent_within n text) (fun p => ∃ k, (k ≤ n)%nat ∧ p_lesson p = take k text).
Proof.
  split; try (intros; exists []; split; [by rewrite app_nil_r | constructor]).
  - intros w1 w2 w3 (l1 & H1 & F1) (l2 & H2 & F2). exists (l1 ++ l2).
    split; [by rewrite H2, H1, app_assoc | by apply Forall_app].
  - intros w m p Hp. exists [(m, p)]. split; [done | by repeat constructor].
Qed.

Lemma sent_within_db_frame (n : nat) (text : list N) : db_frame (sent_within n text).
Proof. split; intros; exists []; (split; [by rewrite app_nil_r | constructor]). Qed.

(** A prefix of at most 4000 characters of the text the generators work
    from is a prefix of the text before its truncation. *)
Lemma take_truncate_text (k : nat) (joined : list N) :
  (k ≤ 4000)%nat → take k (truncate_text joined) = take k joined.
Proof.
  intros Hk. unfold truncate_text. destruct (4000 <? length joined)%nat eqn:Hl; [|done].
  apply Nat.ltb_lt in Hl. rewrite take_app_le by (rewrite length_take; lia).
  rewrite take_take. f_equal. lia.
Qed.

Lemma base_text_value_joined (a : assignment) (t : list N) :
  base_text_value a = Return t → t = truncate_text (join [newline; newline] (text_parts a)).
Proof.
  unfold base_text_value. destruct (text_parts a) as [|p l] eqn:Hp; [discriminate|].
  destruct (join _ _); [discriminate|]. by intros [= <-].
Qed.

Lemma short_prompts (a : assignment) (t : list N) :
  base_text_value a = Return t →
  ∀ p k, (k ≤ 3000)%nat → p_lesson p = take k t →
    ∃ k', (k' ≤ 3000)%nat ∧ p_lesson p = take k' (join [newline; newline] (text_parts a)).
Proof.
  intros Ht p k Hk Hp. exists k. split; [done|].
  rewrite Hp, (base_text_value_joined _ _ Ht). apply take_truncate_text. lia.
Qed.

(** X21: the truncation of the text never shows in a prompt.  Every
    request of a generation, and of a regeneration, carries as its lesson
    at most the first 3000 characters of the combined text of the
    assignment, taken before the truncation at 4000 characters: neither
    the characters after the first 3000 nor the marker that the truncation
    appends are ever sent. *)
Theorem prompts_carry_a_prefix_of_the_text (a : assignment) (variant_type difficulty : list N)
  (w : world) :
  let joined := join [newline; newline] (text_parts a) in
  sent_within 3000 joined w (_generate_all_variants a w).2
  ∧ sent_within 3000 joined w (regenerate_variant a variant_type difficulty w).2.
Proof.
  intros joined.
  pose proof (sent_within_frame 3000 joined) as F.
  pose proof (sent_within_db_frame 3000 joined) as D.
  split.
  - eapply (step_bind_lift _ _ F (base_text_value a) (generate_variants_from a));
      [|apply surjective_pairing].
    intros t Ht. apply (short_generate_variants_from _ _ F D). by apply short_prompts.
  - assert (Hs : step (sent_within 3000 joined) (regenerate_variant a variant_type difficulty)).
    { unfold regenerate_variant, base_text_of. apply (step_bind_lift _ _ F). intros t Ht.
      apply (step_bind _ _ F); [apply (step_get _ _ F)|]. intros existing.
      destruct (bool_decide _); [|apply (step_raise _ _ F)].
      apply (step_bind _ _ F);
        [apply (short_gen_quiz _ _ F t); by apply short_prompts|].
      intros quiz. repeat frame_step F D. }
    eapply Hs, surjective_pairing.
Qed.

End Marker.

(** ** The files a run may write *)

Section Files.
Context {E : Env}.
Variable paths : list (list N).
Import PyStr.

Lemma w_same {A} (m : M A) : (∀ w, files (m w).2 = files w) → step (writes_only paths) m.
Proof.
  intros H w r w' Hr p _. specialize (H w). rewrite Hr in H. simpl in H. by rewrite H.
Qed.

Lemma w_bind {A B} (m : M A) (k : A → M B) :
  step (writes_only paths) m → (∀ a, step (writes_only paths) (k a)) →
  step (writes_only paths) (bind m k).
Proof.
  intros Hm Hk w r w' Hb p Hp.
  apply bind_inv in Hb as [(e & Hr & _)|(a & w1 & Hr & Hk')].
  - exact (Hm _ _ _ Hr p Hp).
  - rewrite (Hk _ _ _ _ Hk' p Hp). exact (Hm _ _ _ Hr p Hp).
Qed.

Lemma w_try {A} (m : M A) (handler : exn → M A) :
  step (writes_only paths) m → (∀ e, step (writes_only paths) (handler e)) →
  step (writes_only paths) (try_except m handler).
Proof.
  intros Hm Hh w r w'. unfold try_except. destruct (m w) as [[a|e] w1] eqn:Hr.
  - intros [= <- <-]. exact (Hm _ _ _ Hr).
  - intros Hr' p Hp. rewrite (Hh _ _ _ _ Hr' p Hp). exact (Hm _ _ _ Hr p Hp).
Qed.

Lemma w_write (p : list N) (f : file) : p ∈ paths → step (writes_only paths) (write_file p f).
Proof.
  intros Hin w r w' [= _ <-] q Hq. simpl. apply lookup_insert_ne. by intros ->.
Qed.

Lemma w_len_of (v : json) : step (writes_only paths) (len_of v).
Proof. apply w_same. intros w. unfold len_of. by destruct (py_len v). Qed.

Lemma w_call_gemini (p : prompt) (m : model) :
  step (writes_only paths) (_call_gemini_with_retry p m).
Proof.
  apply w_same. intros w.
  by destruct (gemini_attempts_log p m 2 2 0 w eq_refl) as (k & _ & _ & _ & _ & _ & _ & Hf & _).
Qed.

Lemma w_flush : step (writes_only paths) Session.flush.
Proof. apply w_same. intros w. unfold Session.flush. by destruct (Session.insert_rows _ _). Qed.

Lemma w_commit : step (writes_only paths) Session.commit.
Proof. unfold Session.commit. apply w_bind; [apply w_flush|]. intros _. by apply w_same. Qed.

Lemma w_persist_variant (a : assignment) (vtype subject : list N)
  (content_text : option (list N)) (assets : gmap (list N) json) :
  step (writes_only paths) (_persist_variant a vtype subject content_text assets).
Proof.
  unfold _persist_variant. apply w_bind; [by apply w_same|]. intros id.
  apply w_bind; [by apply w_same|]. intros _. apply w_commit.
Qed.

Ltac w_step :=
  first
    [ apply w_len_of
    | apply w_call_gemini
    | apply w_flush
    | apply w_commit
    | apply w_persist_variant
    | apply w_write; assumption
    | apply w_bind; [|intros ?]
    | apply w_try; [|intros ?]
    | match goal with |- step _ (match ?x with _ => _ end) => destruct x end
    | apply w_same; intros ?; reflexivity ].

Lemma w_synthesize_audio (script out_dir name : list N) :
  os_path_join out_dir name ∈ paths →
  step (writes_only paths) (_synthesize_audio script out_dir name).
Proof. intros Hin. unfold _synthesize_audio. repeat w_step. Qed.

Lemma w_synthesize_podcast (discussion : list json) (out_dir name : list N) :
  os_path_join out_dir name ∈ paths →
  step (writes_only paths) (_synthesize_podcast discussion out_dir name).
Proof.
  intros Hin. pose proof (w_synthesize_audio) as Ha.
  unfold _synthesize_podcast, join_segments.
  repeat first [apply Ha; assumption | w_step].
Qed.

Lemma w_render_manim (manim_code : json) (out_dir name : list N) :
  os_path_join out_dir (lit "scene.py") ∈ paths → os_path_join out_dir name ∈ paths →
  step (writes_only paths) (_render_manim manim_code out_dir name).
Proof. intros Hs Hv. unfold _render_manim. repeat w_step. Qed.

Lemma w_add_audio_to_video (video audio out_dir name : list N) :
  os_path_join out_dir name ∈ paths →
  step (writes_only paths) (_add_audio_to_video video audio out_dir name).
Proof. intros Hin. unfold _add_audio_to_video. repeat w_step. Qed.

Lemma w_write_json (data : gmap (list N) json) (path : list N) :
  path ∈ paths → step (writes_only paths) (_write_json data path).
Proof. intros Hin. unfold _write_json. repeat w_step. Qed.

Lemma w_gen_quiz (subject text difficulty : list N) :
  step (writes_only paths) (_gen_quiz subject text difficulty).
Proof.
  unfold _gen_quiz. generalize (@None (gmap (list N) json)).
  induction (seq 0 2) as [|x l IH]; intros last; cbn [quiz_attempts]; [repeat w_step|].
  unfold quiz_cycle. apply w_bind; [repeat w_step|]. intros [r n].
  destruct (0 <? n)%nat; [repeat w_step|apply IH].
Qed.

Section Directory.
Variable a_dir : list N.
Hypothesis in_paths : ∀ p, p ∈ pipeline_files a_dir → p ∈ paths.

Lemma in_pipeline (name : list N) :
  name ∈ [lit "podcast.mp3"; lit "narration.mp3"; lit "scene.py";
          lit "visual_silent.mp4"; lit "visual.mp4"; lit "quiz.json"] →
  os_path_join a_dir name ∈ paths.
Proof. intros Hn. apply in_paths. unfold pipeline_files. by apply list_elem_of_fmap_2. Qed.

Lemma w_synthesize_audio_variant (audio : gmap (list N) json) :
  step (writes_only paths) (synthesize_audio_variant audio a_dir).
Proof.
  unfold synthesize_audio_variant. destruct (nonempty_list _).
  - apply w_synthesize_podcast, in_pipeline. set_solver.
  - apply w_synthesize_audio, in_pipeline. set_solver.
Qed.

Lemma w_visual_attempt (a : assignment) (text : list N) (narration : option (list N)) :
  step (writes_only paths) (visual_attempt a text a_dir narration).
Proof.
  assert (Hn : os_path_join a_dir (lit "narration.mp3") ∈ paths)
    by (apply in_pipeline; set_solver).
  assert (Hs : os_path_join a_dir (lit "scene.py") ∈ paths)
    by (apply in_pipeline; set_solver).
  assert (Hv : os_path_join a_dir (lit "visual_silent.mp4") ∈ paths)
    by (apply in_pipeline; set_solver).
  unfold visual_attempt, _gen_visual_plan, join_segments.
  repeat first
    [ apply w_synthesize_audio; assumption | apply w_render_manim; assumption | w_step ].
Qed.

Lemma w_visual_attempts (a : assignment) (text : list N) :
  step (writes_only paths) (visual_attempts a text a_dir (seq 0 2) None).
Proof.
  generalize (@None visual_state).
  induction (seq 0 2) as [|x l IH]; intros last; cbn [visual_attempts]; [repeat w_step|].
  apply w_bind; [apply w_visual_attempt|]. intros [st valid].
  destruct valid; [repeat w_step|]. destruct (bool_decide _); [repeat w_step|apply IH].
Qed.

Lemma w_mux_step (st : visual_state) : step (writes_only paths) (mux_step st a_dir).
Proof.
  assert (Hv : os_path_join a_dir (lit "visual.mp4") ∈ paths)
    by (apply in_pipeline; set_solver).
  unfold mux_step. repeat first [apply w_add_audio_to_video; assumption | w_step].
Qed.

End Directory.

Lemma w_generate_variants_from (a : assignment) (text : list N) :
  (∀ p, p ∈ pipeline_files (os_path_join upload_root (a_id a)) → p ∈ paths) →
  step (writes_only paths) (generate_variants_from a text).
Proof.
  intros Hin. unfold generate_variants_from, _gen_simplified_text, _gen_audio_script.
  repeat first
    [ apply (w_synthesize_audio_variant _ Hin) | apply (w_visual_attempts _ Hin)
    | apply (w_mux_step _ Hin) | apply w_gen_quiz
    | apply w_write_json, (in_pipeline _ Hin); set_solver
    | w_step ].
Qed.

End Files.

Section Confinement.
Context {E : Env}.
Import PyStr.

(** X22: the files a creation and a regeneration may touch.  Of the
    files the service writes itself or has the muxer write (what the
    renderer leaves in its own media directory is not part of the model), a
    creation changes none but, possibly, six in the directory of the new
    assignment, [upload_root/<id>/]: [podcast.mp3], [narration.mp3],
    [scene.py], [visual_silent.mp4], [visual.mp4] and [quiz.json]; every
    other path holds after the run, returning or raising, what it held
    before.  A regeneration changes none but, possibly,
    [quiz_<difficulty>.json] in the directory of its assignment. *)
Theorem runs_write_only_their_files (title subject : list N)
  (teacher text path : option (list N)) (a : assignment) (variant_type difficulty : list N)
  (w : world) :
  writes_only (pipeline_files (os_path_join upload_root (uuid4 (uuids w)))) w
    (create_assignment title subject teacher text path w).2
  ∧ writes_only [os_path_join (os_path_join upload_root (a_id a))
                   (lit "quiz_" ++ difficulty ++ lit ".json")] w
      (regenerate_variant a variant_type difficulty w).2.
Proof.
  split.
  - set (paths := pipeline_files _).
    assert (Hs : ∀ a0 wA, start_assignment title subject teacher text path w = (Return a0, wA) →
              a_id a0 = uuid4 (uuids w) ∧ files wA = files w).
    { unfold start_assignment, bind, new_uuid, Session.add, Session.flush, modify, ret. simpl.
      intros a0 wA. destruct (Session.insert_rows _ _); [|discriminate].
      by intros [= <- <-]. }
    unfold create_assignment, bind.
    destruct (start_assignment title subject teacher text path w) as [[a0|e] wA] eqn:Hst.
    2:{ intros p _. revert Hst.
        unfold start_assignment, bind, new_uuid, Session.add, Session.flush, modify, ret. simpl.
        destruct (Session.insert_rows _ _); [discriminate|]. by intros [= _ <-]. }
    destruct (Hs _ _ eq_refl) as [Hid Hf].
    assert (Hrun : step (writes_only paths)
              (try_except (generate_and_mark_ready a0) (on_generation_failure a0))).
    { apply w_try.
      - unfold generate_and_mark_ready, _generate_all_variants, base_text_of.
        apply w_bind; [|intros _; apply w_bind;
                         [by apply w_same|intros _; apply w_bind;
                            [apply w_commit|intros _; by apply w_same]]].
        apply w_bind; [by apply w_same|]. intros t.
        apply w_generate_variants_from. by rewrite Hid.
      - intros e. by apply w_same. }
    intros p Hp. rewrite <- Hf. eapply Hrun; [apply surjective_pairing|done].
  - set (paths := [_]).
    assert (Hrun : step (writes_only paths) (regenerate_variant a variant_type difficulty)).
    { unfold regenerate_variant, base_text_of.
      apply w_bind; [by apply w_same|]. intros t.
      apply w_bind; [by apply w_same|]. intros existing.
      destruct (bool_decide _); [|by apply w_same].
      apply w_bind; [apply w_gen_quiz|]. intros quiz.
      apply w_bind; [apply w_write_json; set_solver|]. intros quiz_path.
      destruct existing as [v|].
      - apply w_bind; [by apply w_same|]. intros _.
        apply w_bind; [apply w_commit|]. intros _. by apply w_same.
      - apply w_bind; [apply w_persist_variant|]. intros _. by apply w_same. }
    eapply Hrun, surjective_pairing.
Qed.

End Confinement.

(** ** The keys of what the generators return *)

Section Keys.
Context {E : Env}.
Import PyStr Repair.

Lemma parse_json_key (text : list N) (fallback_keys : gmap (list N) json) (k : list N) :
  is_Some (fallback_keys !! k) → is_Some (_parse_json text fallback_keys !! k).
Proof.
  intros Hk. apply elem_of_dom. apply (parse_json_dom text fallback_keys).
  by apply elem_of_dom.
Qed.

(** A field that is in the fall-back and whose length was taken. *)
Lemma sized_key (r : gmap (list N) json) (key : string) (dflt : json) (w w' : world)
  (n : nat) :
  is_Some (r !! lit key) → len_of (dict_get r key dflt) w = (Return n, w') →
  ∃ v, r !! lit key = Some v ∧ py_len v = Some n.
Proof.
  intros [v Hv]. unfold dict_get, len_of. rewrite Hv. simpl.
  destruct (py_len v) as [k|] eqn:Hk; [|discriminate]. intros [= <- _]. eauto.
Qed.

Ltac key_present :=
  apply parse_json_key; repeat (rewrite lookup_insert_ne by (vm_compute; discriminate));
  rewrite lookup_insert_eq; eauto.

(** X23: what the generators return always has the keys of their
    fall-back, whatever the backend answered, and the values whose length
    the generator takes are sequences, strings or mappings: the simplified
    text has [text] (sized) and [highlights]; the audio script has
    [discussion] (sized) and [summary]; the visual plan has [description]
    and [manim_code] (both sized) and [narration]; the quiz has
    [questions] (sized), [quiz_type] and [summary]. *)
Theorem generators_return_their_keys (subject text difficulty : list N) (w w' : world)
  (r : gmap (list N) json) :
  (_gen_simplified_text subject text w = (Return r, w') →
     (∃ v n, r !! lit "text" = Some v ∧ py_len v = Some n)
     ∧ is_Some (r !! lit "highlights"))
  ∧ (_gen_audio_script subject text w = (Return r, w') →
       (∃ v n, r !! lit "discussion" = Some v ∧ py_len v = Some n)
       ∧ is_Some (r !! lit "summary"))
  ∧ (_gen_visual_plan subject text w = (Return r, w') →
       (∃ v n, r !! lit "description" = Some v ∧ py_len v = Some n)
       ∧ (∃ v n, r !! lit "manim_code" = Some v ∧ py_len v = Some n)
       ∧ is_Some (r !! lit "narration"))
  ∧ (_gen_quiz subject text difficulty w = (Return r, w') →
       (∃ v n, r !! lit "questions" = Some v ∧ py_len v = Some n)
       ∧ is_Some (r !! lit "quiz_type") ∧ is_Some (r !! lit "summary")).
Proof.
  split; [|split; [|split]].
  - unfold _gen_simplified_text. intros Hr.
    apply bind_inv in Hr as [(e & _ & ?)|(t & w1 & _ & Hr)]; [discriminate|].
    apply bind_inv in Hr as [(e & _ & ?)|(n & w2 & Hn & Hr)]; [discriminate|].
    unfold ret in Hr. injection Hr as <- _.
    split; [|key_present]. apply sized_key in Hn as (v & Hv & Hl); [eauto|key_present].
  - unfold _gen_audio_script. intros Hr.
    apply bind_inv in Hr as [(e & _ & ?)|(t & w1 & _ & Hr)]; [discriminate|].
    apply bind_inv in Hr as [(e & _ & ?)|(n & w2 & Hn & Hr)]; [discriminate|].
    unfold ret in Hr. injection Hr as <- _.
    split; [|key_present]. apply sized_key in Hn as (v & Hv & Hl); [eauto|key_present].
  - unfold _gen_visual_plan. intros Hr.
    apply bind_inv in Hr as [(e & _ & ?)|(t & w1 & _ & Hr)]; [discriminate|].
    apply bind_inv in Hr as [(e & _ & ?)|(n & w2 & Hn & Hr)]; [discriminate|].
    apply bind_inv in Hr as [(e & _ & ?)|(n' & w3 & Hn' & Hr)]; [discriminate|].
    unfold ret in Hr. injection Hr as <- _.
    split; [|split; [|key_present]].
    + apply sized_key in Hn as (v & Hv & Hl); [eauto|key_present].
    + apply sized_key in Hn' as (v & Hv & Hl); [eauto|key_present].
  - intros Hr.
    assert (Hc : ∃ t n, r = _parse_json t (quiz_fallback subject)
                        ∧ py_len (question_items r) = Some n).
    { rewrite gen_quiz_unfold in Hr.
      destruct (quiz_cycle subject text difficulty w) as [[[r1 n1]|e] w1] eqn:H1;
        [|discriminate].
      destruct (0 <? n1)%nat.
      - injection Hr as <- _. apply quiz_cycle_result in H1 as [[t ->] Hl]. eauto.
      - destruct (quiz_cycle subject text difficulty w1) as [[[r2 n2]|e] w2] eqn:H2;
          [|discriminate].
        injection Hr as <- _. apply quiz_cycle_result in H2 as [[t ->] Hl]. eauto. }
    destruct Hc as (t & n & -> & Hl). unfold quiz_fallback in *.
    assert (Hq : is_Some (_parse_json t
                   (<[lit "summary" := JStr (subject ++ lit " practice exercise")]>
                      (<[lit "quiz_type" := JStr (qf_type (quiz_formats subject))]>
                         (<[lit "questions" := JArr []]> ∅))) !! lit "questions"))
      by key_present.
    destruct Hq as [v Hv]. split; [|split; key_present].
    exists v, n. split; [done|]. unfold question_items, dict_get in Hl.
    by rewrite Hv in Hl.
Qed.

End Keys.

(** X23 on a quiz: the questions are there, and they are a sequence. *)
Lemma generators_return_witness :
  let E := Demo.env_answering Demo.standard_answer in
  let run := _gen_quiz (PyStr.lit "math") (PyStr.lit "2+2") (PyStr.lit "medium")
               Demo.empty_world in
  let r := default ∅ (returned run.1) in
  returned run.1 = Some r
  ∧ ∃ v n, r !! PyStr.lit "questions" = Some v ∧ py_len v = Some n.
Proof.
  intros E run r.
  assert (Hr : returned run.1 = Some r) by (vm_compute; reflexivity).
  split; [exact Hr|].
  destruct (generators_return_their_keys (PyStr.lit "math") (PyStr.lit "2+2")
              (PyStr.lit "medium") Demo.empty_world run.2 r) as (_ & _ & _ & Hq).
  destruct (Hq (run_returned _ _ Hr)) as [Hv _]. exact Hv.
Defined.

(** ** Referential integrity *)

Section Integrity.
Context {E : Env}.
Import PyStr.

Lemma referential_grown (al : list assignment) (vl l : list version) (a : assignment) :
  referential (Database al vl) → Forall (λ v, v_assignment_id v = a_id a) l →
  referential (Database (al ++ [a]) (vl ++ l)).
Proof.
  intros Href Hl v Hv. simpl in Hv. apply elem_of_app in Hv as [Hv|Hv].
  - destruct (Href v Hv) as (x & Hx & Hid). exists x. split; [|done].
    simpl in *. apply elem_of_app. by left.
  - exists a. split; [simpl; apply elem_of_app; right; by apply list_elem_of_singleton|].
    symmetry. by eapply Forall_forall in Hl.
Qed.

Lemma variants_of_assignment (a : assignment) (types : list (list N)) (l : list version) :
  Forall2 (variant_of a) types l → Forall (λ v, v_assignment_id v = a_id a) l.
Proof.
  intros Hl. eapply Forall2_Forall_r; [exact Hl|]. apply Forall_forall.
  intros t _ v (Hi & _). exact Hi.
Qed.

(** X24: the service keeps the versions attached to assignments.  If
    every committed version belongs to a committed assignment before a
    creation or a regeneration (for an assignment of the database) that
    starts from a session at rest, the same holds afterwards, whether the
    run returns or raises: no run leaves a version without its
    assignment. *)
Theorem service_keeps_versions_attached (title subject : list N)
  (teacher text path : option (list N)) (a : assignment) (variant_type difficulty : list N)
  (w : world) :
  clean w → referential (committed w) →
  referential (committed (create_assignment title subject teacher text path w).2)
  ∧ (has_assignment (a_id a) (committed w) →
     referential (committed (regenerate_variant a variant_type difficulty w).2)).
Proof.
  intros Hc Href. split.
  - destruct (create_assignment title subject teacher text path w) as [[a1|e] w'] eqn:Hr.
    + destruct (create_assignment_returns _ _ _ _ _ _ _ _ Hc Hr)
        as (_ & _ & (l & Hl & Hd) & _).
      simpl. rewrite Hd. destruct (committed w) as [al vl].
      apply referential_grown; [done|]. by eapply variants_of_assignment.
    + destruct (create_assignment_raises _ _ _ _ _ _ _ _ Hc Hr)
        as [Hd|(n & l & _ & Hl & Hd & _)]; simpl; rewrite Hd; [done|].
      destruct (committed w) as [al vl].
      apply referential_grown; [done|]. by eapply variants_of_assignment.
  - intros Ha. destruct (decide (variant_type = lit "quiz")) as [->|Hv].
    + destruct (regenerate_variant a (lit "quiz") difficulty w) as [r w'] eqn:Hr.
      destruct (regenerate_quiz_run _ _ _ _ _ Hc Hr) as (Has & Hm). simpl.
      destruct r as [u|e]; [|by rewrite Hm]. destruct Hm as (_ & Hm).
      destruct (Session.first_version _ _ _) as [v0|].
      * destruct Hm as (c & s & -> & _). intros v Hin. simpl in Hin.
        apply list_elem_of_fmap in Hin as (v1 & -> & Hin).
        assert (v_assignment_id (if decide (v_id v1 = v_id v0)
                                 then set_quiz_content c s v1 else v1)
                = v_assignment_id v1) as -> by (by destruct (decide _)).
        exact (Href v1 Hin).
      * destruct Hm as (new & Hn & Hid & _). intros v Hin. rewrite Hn in Hin.
        assert (has_assignment (v_assignment_id v) (committed w)) as (x & Hx & Hxid).
        { apply elem_of_app in Hin as [Hin|Hin]; [by apply Href|].
          apply list_elem_of_singleton in Hin as ->. by rewrite Hid. }
        exists x. split; [by rewrite Has|done].
    + unfold regenerate_variant, base_text_of, bind, lift, get.
      destruct (base_text_value a); [|done]. by rewrite bool_decide_eq_false_2.
Qed.

End Integrity.

(** X24 on a database that holds one assignment: after a creation, and
    after a regeneration of the quiz of that assignment. *)
Lemma service_keeps_versions_witness :
  let E := Demo.env_answering Demo.standard_answer in
  let w := World (Database [Demo.factoring] []) (Database [Demo.factoring] [])
             [] 0 [] [] ∅ [] in
  referential (committed (create_assignment (PyStr.lit "Rivers") (PyStr.lit "geography") None
                            (Some (PyStr.lit "The Nile flows north")) None w).2)
  ∧ referential (committed (regenerate_variant Demo.factoring (PyStr.lit "quiz")
                              (PyStr.lit "easy") w).2).
Proof.
  intros E w.
  assert (Hc : clean w) by (split; reflexivity).
  assert (Href : referential (committed w)) by (intros v Hv; by apply elem_of_nil in Hv).
  assert (Ha : has_assignment (a_id Demo.factoring) (committed w)).
  { exists Demo.factoring. split; [apply list_elem_of_singleton|]; reflexivity. }
  destruct (service_keeps_versions_attached (PyStr.lit "Rivers") (PyStr.lit "geography") None
              (Some (PyStr.lit "The Nile flows north")) None Demo.factoring
              (PyStr.lit "quiz") (PyStr.lit "easy") w Hc Href) as [H1 H2].
  split; [exact H1|exact (H2 Ha)].
Defined.

(** ** White space around an answer *)

Section Blanks.
Context {E : Env}.
Import PyStr Repair.

Lemma lstrip_blanks (ws s : list N) :
  Forall (λ c, isspace c = true) ws → lstrip (ws ++ s) = lstrip s.
Proof. induction 1 as [|c ws Hc _ IH]; [done|]. simpl. by rewrite Hc. Qed.

Lemma strip_blanks (before after s : list N) :
  Forall (λ c, isspace c = true) before → Forall (λ c, isspace c = true) after →
  strip (before ++ s ++ after) = strip s.
Proof.
  intros Hb Ha. unfold strip. rewrite (lstrip_blanks _ _ Hb).
  assert (Hr : ∀ x, rstrip (x ++ after) = rstrip x).
  { intros x. unfold rstrip. rewrite reverse_app. f_equal. apply lstrip_blanks.
    by apply Forall_reverse. }
  destruct (lstrip s) as [|c r] eqn:Hs.
  - assert (Hall : Forall (λ c, isspace c = true) s).
    { clear -Hs. induction s as [|c r IH]; [done|]. simpl in Hs.
      destruct (isspace c) eqn:Hc; [|discriminate]. constructor; auto. }
    assert (Hl : lstrip after = []).
    { rewrite <- (app_nil_r after). by rewrite (lstrip_blanks _ _ Ha). }
    by rewrite (lstrip_blanks _ _ Hall), Hl.
  - assert (Hl : lstrip (s ++ after) = lstrip s ++ after).
    { clear -Hs. revert c r Hs. induction s as [|x s IH]; intros c r Hs; [done|].
      simpl in *. destruct (isspace x); [by eapply IH|done]. }
    rewrite Hl, Hs. apply Hr.
Qed.

(** X25: white space around an answer never matters.  Whatever white
    space (in the sense of [str.strip]) stands before and after the text
    of an answer, [_parse_json] returns what it returns for the text
    alone. *)
Theorem parse_json_ignores_surrounding_blanks (before after text : list N)
  (fallback_keys : gmap (list N) json) :
  Forall (λ c, isspace c = true) before → Forall (λ c, isspace c = true) after →
  _parse_json (before ++ text ++ after) fallback_keys = _parse_json text fallback_keys.
Proof.
  intros Hb Ha. pose proof (strip_blanks before after text Hb Ha) as Hs.
  unfold _parse_json, clean. rewrite Hs.
  assert (Hbl : blank (before ++ text ++ after) = blank text).
  { destruct (blank text) eqn:Ht.
    - apply blank_true. rewrite Hs. by apply blank_true.
    - apply blank_false. rewrite Hs. by apply blank_false. }
  by rewrite Hbl.
Qed.

End Blanks.

(** X25 on an answer between a line break with a no-break space and a
    tab. *)
Lemma parse_json_ignores_blanks_witness :
  let E := Demo.env_answering [] in
  _parse_json ([10; 160] ++ Demo.standard_answer ++ [9]) Demo.sample_fallback
  = _parse_json Demo.standard_answer Demo.sample_fallback.
Proof.
  intros E. apply parse_json_ignores_surrounding_blanks; repeat constructor.
Defined.
